(** * A shallow embedding of [src/client.py]

    The image/video adapter: batched image generation with a b64 -> url
    fallback, base64 repair, URL downloads, the video chat-completions path
    with its SSE reassembly and URL heuristics, and the bounded video
    download poll.  Python strings are [string], JSON values decoded by
    [json.loads] are [json], exceptions are [exn], and every network call,
    sleep and file write goes through a small state-and-exception monad over
    a [world] that records them in a trace. *)

From Stdlib Require Import String Ascii List ZArith Bool Lia.
Import ListNotations.
Open Scope list_scope.
Open Scope string_scope.
Open Scope nat_scope.
Set Warnings "-register-all".

(* ------------------------------------------------------------------ *)
(** ** Python string operations *)

Module Py.

(** [c in " \t\n\r\x0b\x0c\x1c\x1d\x1e\x1f\x85\xa0"], i.e. [str.isspace]
    restricted to the code points U+0000..U+00FF. *)
Definition is_space (c : ascii) : bool :=
  let n := nat_of_ascii c in
  (((9 <=? n) && (n <=? 13)) || ((28 <=? n) && (n <=? 32))
  || (n =? 133) || (n =? 160))%nat.

(** [s.startswith(p)] *)
Fixpoint startswith (s p : string) : bool :=
  match p, s with
  | EmptyString, _ => true
  | String c p', String d s' => Ascii.eqb c d && startswith s' p'
  | String _ _, EmptyString => false
  end.

(** [s.endswith(p)] *)
Definition endswith (s p : string) : bool :=
  let n := String.length s in
  let m := String.length p in
  (m <=? n) && String.eqb (substring (n - m) m s) p.

(** [sub in s] for strings *)
Fixpoint contains (sub s : string) : bool :=
  startswith s sub ||
  match s with
  | EmptyString => false
  | String _ s' => contains sub s'
  end.

(** [s.lstrip()] *)
Fixpoint lstrip (s : string) : string :=
  match s with
  | EmptyString => EmptyString
  | String c s' => if is_space c then lstrip s' else s
  end.

(** [s.rstrip(chars)] for a predicate on characters *)
Fixpoint rstrip_by (f : ascii -> bool) (s : string) : string :=
  match s with
  | EmptyString => EmptyString
  | String c s' =>
      let r := rstrip_by f s' in
      if String.eqb r "" && f c then "" else String c r
  end.

(** [s.strip()] *)
Definition strip (s : string) : string := rstrip_by is_space (lstrip s).

(** [s.rstrip("/")] and [s.rstrip("=")] *)
Definition rstrip_char (c : ascii) (s : string) : string :=
  rstrip_by (Ascii.eqb c) s.

(** [s.split(sep)] for a one-character separator *)
Fixpoint split_on (sep : ascii) (s : string) : list string :=
  match s with
  | EmptyString => [""]
  | String c s' =>
      let r := split_on sep s' in
      if Ascii.eqb c sep then "" :: r
      else match r with
           | h :: t => String c h :: t
           | [] => [String c ""]
           end
  end.

(** [s[i:]] and [s[:j]] *)
Definition drop (i : nat) (s : string) : string :=
  substring i (String.length s - i) s.
Definition take (j : nat) (s : string) : string := substring 0 j s.

(** [c * k] for a one-character string [c] *)
Fixpoint repeat_char (c : ascii) (k : nat) : string :=
  match k with
  | O => ""
  | S k' => String c (repeat_char c k')
  end.

Definition digit (d : Z) : ascii :=
  match String.get (Z.to_nat d) "0123456789abcdef" with
  | Some c => c
  | None => "0"%char
  end.

Fixpoint digits_rev (fuel : nat) (base n : Z) (acc : string) : string :=
  match fuel with
  | O => acc
  | S f =>
      let acc' := String (digit (n mod base)) acc in
      if (n / base =? 0)%Z then acc' else digits_rev f base (n / base) acc'
  end.

(** [str(n)] for an integer *)
Definition str_Z (z : Z) : string :=
  let body := digits_rev (S (Z.to_nat (Z.log2 (Z.abs z)))) 10 (Z.abs z) "" in
  if (z <? 0)%Z then "-" ++ body else body.

Definition str_nat (n : nat) : string := str_Z (Z.of_nat n).

(** ['%0*d' % (w, n)] and ['%0*x' % (w, n)]: left-pad with '0' *)
Definition zpad (base : Z) (w : nat) (n : Z) : string :=
  let body := digits_rev (S (Z.to_nat (Z.log2 (Z.abs n)))) base (Z.abs n) "" in
  repeat_char "0" (w - String.length body) ++ body.

End Py.

(* ------------------------------------------------------------------ *)
(** ** JSON values as [json.loads] returns them *)

Inductive json : Type :=
| JNull
| JBool (b : bool)
| JNum (z : Z)
| JStr (s : string)
| JArr (l : list json)
| JObj (kvs : list (string * json)).

(** [d.get(k)] on the key/value list of a dict (keys are unique) *)
Fixpoint obj_get (kvs : list (string * json)) (k : string) : option json :=
  match kvs with
  | [] => None
  | (k', v) :: r => if String.eqb k k' then Some v else obj_get r k
  end.

(** [d[k] = v]: replace in place, or append a new key *)
Fixpoint obj_set (kvs : list (string * json)) (k : string) (v : json)
  : list (string * json) :=
  match kvs with
  | [] => [(k, v)]
  | (k', v') :: r => if String.eqb k k' then (k', v) :: r else (k', v') :: obj_set r k v
  end.

(** [del d[k]] *)
Fixpoint obj_del (kvs : list (string * json)) (k : string) : list (string * json) :=
  match kvs with
  | [] => []
  | (k', v') :: r => if String.eqb k k' then r else (k', v') :: obj_del r k
  end.

(** [bool(v)] *)
Definition truthy (v : json) : bool :=
  match v with
  | JNull => false
  | JBool b => b
  | JNum z => negb (z =? 0)%Z
  | JStr s => negb (String.eqb s "")
  | JArr l => match l with [] => false | _ => true end
  | JObj kvs => match kvs with [] => false | _ => true end
  end.

(** [repr(s)] for a string without quotes, backslashes or control
    characters (the only strings the development renders this way). *)
Definition repr_str (s : string) : string := "'" ++ s ++ "'".

(** [str(v)] of a decoded JSON value *)
Fixpoint py_str (v : json) : string :=
  match v with
  | JNull => "None"
  | JBool b => if b then "True" else "False"
  | JNum z => Py.str_Z z
  | JStr s => s
  | JArr l =>
      "[" ++ String.concat ", "
               (map (fun x => match x with JStr s => repr_str s | _ => py_str x end) l)
      ++ "]"
  | JObj kvs =>
      "{" ++ String.concat ", "
               (map (fun '(k, x) =>
                       repr_str k ++ ": "
                       ++ match x with JStr s => repr_str s | _ => py_str x end) kvs)
      ++ "}"
  end.

(** A decoder for the JSON text the API sends, the part of [json.loads]
    the development evaluates: objects (a repeated key keeps its first
    position and its last value, as a Python dict does), arrays, strings
    with the two-character escapes of RFC 8259, integers, [true], [false]
    and [null].  Text outside this subset (floats, [\u] escapes) is
    refused, as unparsable text is. *)
Module Json.

Definition quote : ascii := ascii_of_nat 34.

Fixpoint skip_ws (l : list ascii) : list ascii :=
  match l with
  | c :: r =>
      if (Ascii.eqb c " " || Ascii.eqb c (ascii_of_nat 9) || Ascii.eqb c (ascii_of_nat 10)
          || Ascii.eqb c (ascii_of_nat 13))%bool then skip_ws r else l
  | [] => []
  end.

Definition is_digit (c : ascii) : bool :=
  ((48 <=? nat_of_ascii c) && (nat_of_ascii c <=? 57))%bool.

Fixpoint digits (l : list ascii) (acc : Z) (n : nat) : Z * nat * list ascii :=
  match l with
  | c :: r =>
      if is_digit c then digits r (acc * 10 + Z.of_nat (nat_of_ascii c - 48))%Z (S n)
      else (acc, n, l)
  | [] => (acc, n, l)
  end.

(** An optional minus, then 0 or a digit run without a leading 0, not
    followed by a fraction or an exponent. *)
Definition number (l : list ascii) : option (json * list ascii) :=
  let '(neg, l1) := match l with
                    | "-"%char :: r => (true, r)
                    | _ => (false, l)
                    end in
  match l1 with
  | c :: _ =>
      if is_digit c then
        let '(v, n, rest) := digits l1 0%Z 0 in
        let leading_zero := (Ascii.eqb c "0" && (1 <? n))%bool in
        let frac := match rest with
                    | d :: _ => (Ascii.eqb d "." || Ascii.eqb d "e" || Ascii.eqb d "E")%bool
                    | [] => false
                    end in
        if (leading_zero || frac)%bool then None
        else Some (JNum (if neg then - v else v)%Z, rest)
      else None
  | [] => None
  end.

Fixpoint str_body (l : list ascii) : option (string * list ascii) :=
  match l with
  | [] => None
  | c :: r =>
      if Ascii.eqb c quote then Some ("", r)
      else if Ascii.eqb c "\" then
        match r with
        | e :: r' =>
            let esc := if Ascii.eqb e quote then Some quote
                       else if Ascii.eqb e "\" then Some "\"%char
                       else if Ascii.eqb e "/" then Some "/"%char
                       else if Ascii.eqb e "b" then Some (ascii_of_nat 8)
                       else if Ascii.eqb e "f" then Some (ascii_of_nat 12)
                       else if Ascii.eqb e "n" then Some (ascii_of_nat 10)
                       else if Ascii.eqb e "r" then Some (ascii_of_nat 13)
                       else if Ascii.eqb e "t" then Some (ascii_of_nat 9)
                       else None in
            match esc with
            | Some x =>
                match str_body r' with
                | Some (s, rest) => Some (String x s, rest)
                | None => None
                end
            | None => None
            end
        | [] => None
        end
      else if nat_of_ascii c <? 32 then None
      else match str_body r with
           | Some (s, rest) => Some (String c s, rest)
           | None => None
           end
  end.

Fixpoint literal (word : list ascii) (l : list ascii) : option (list ascii) :=
  match word, l with
  | [], _ => Some l
  | w :: ws, c :: r => if Ascii.eqb w c then literal ws r else None
  | _ :: _, [] => None
  end.

Fixpoint value (fuel : nat) (l0 : list ascii) : option (json * list ascii) :=
  match fuel with
  | O => None
  | S f =>
      let l := skip_ws l0 in
      match l with
      | "{"%char :: r =>
          match skip_ws r with
          | "}"%char :: r' => Some (JObj [], r')
          | _ =>
              (fix members (g : nat) (r : list ascii) (acc : list (string * json)) :=
                 match g with
                 | O => None
                 | S g' =>
                     match skip_ws r with
                     | q :: r1 => if negb (Ascii.eqb q quote) then None else
                         match str_body r1 with
                         | Some (k, r2) =>
                             match skip_ws r2 with
                             | ":"%char :: r3 =>
                                 match value f r3 with
                                 | Some (v, r4) =>
                                     let acc' := obj_set acc k v in
                                     match skip_ws r4 with
                                     | ","%char :: r5 => members g' r5 acc'
                                     | "}"%char :: r5 => Some (JObj acc', r5)
                                     | _ => None
                                     end
                                 | None => None
                                 end
                             | _ => None
                             end
                         | None => None
                         end
                     | _ => None
                     end
                 end) f r []
          end
      | "["%char :: r =>
          match skip_ws r with
          | "]"%char :: r' => Some (JArr [], r')
          | _ =>
              (fix elems (g : nat) (r : list ascii) (acc : list json) :=
                 match g with
                 | O => None
                 | S g' =>
                     match value f r with
                     | Some (v, r1) =>
                         match skip_ws r1 with
                         | ","%char :: r2 => elems g' r2 ((acc ++ [v])%list)
                         | "]"%char :: r2 => Some (JArr ((acc ++ [v])%list), r2)
                         | _ => None
                         end
                     | None => None
                     end
                 end) f r []
          end
      | "t"%char :: _ =>
          option_map (fun r => (JBool true, r)) (literal (list_ascii_of_string "true") l)
      | "f"%char :: _ =>
          option_map (fun r => (JBool false, r)) (literal (list_ascii_of_string "false") l)
      | "n"%char :: _ =>
          option_map (fun r => (JNull, r)) (literal (list_ascii_of_string "null") l)
      | c :: r =>
          if Ascii.eqb c quote then
            match str_body r with
            | Some (s, r') => Some (JStr s, r')
            | None => None
            end
          else number l
      | [] => None
      end
  end.

(** [json.loads(s)]: [None] when it raises [json.JSONDecodeError] *)
Definition loads (s : string) : option json :=
  let l := list_ascii_of_string s in
  match value (S (List.length l)) l with
  | Some (v, rest) => match skip_ws rest with [] => Some v | _ => None end
  | None => None
  end.

End Json.

(** JSON text written with ['] for the double quote, for the examples. *)
Definition jtext (s : string) : string :=
  string_of_list_ascii
    (map (fun c => if Ascii.eqb c "'" then Json.quote else c) (list_ascii_of_string s)).

(* ------------------------------------------------------------------ *)
(** ** Exceptions, the world and the monad *)

(** The exceptions the code raises or lets through.  [JSONDecodeError]
    and [BinasciiError] are subclasses of [ValueError] in Python; [str(e)]
    of each is [exn_str e]. *)
Inductive exn : Type :=
| KeyError (key : string)
| IndexError
| ValueError (msg : string)
| JSONDecodeError
| BinasciiError (msg : string)
| TypeError
| AttributeError
| HTTPStatusError (code : Z)
| TransportError
| OSError.

(** [isinstance(e, (KeyError, ValueError))] *)
Definition is_key_or_value_error (e : exn) : bool :=
  match e with
  | KeyError _ | ValueError _ | JSONDecodeError | BinasciiError _ => true
  | _ => false
  end.

(** [str(e)] *)
Definition exn_str (e : exn) : string :=
  match e with
  | KeyError k => repr_str k
  | IndexError => "list index out of range"
  | ValueError m => m
  | JSONDecodeError => "Expecting value: line 1 column 1 (char 0)"
  | BinasciiError m => m
  | TypeError => "unsupported operand type"
  | AttributeError => "object has no attribute"
  | HTTPStatusError c => "HTTP status " ++ Py.str_Z c
  | TransportError => "transport failure"
  | OSError => "No such file or directory"
  end.

Inductive outcome (A : Type) : Type :=
| Ok (a : A)
| Raise (e : exn).
Arguments Ok {A} a.
Arguments Raise {A} e.

Definition obind {A B} (o : outcome A) (k : A -> outcome B) : outcome B :=
  match o with
  | Ok a => k a
  | Raise e => Raise e
  end.

Record datetime : Type := mkDatetime {
  year : Z; month : Z; day : Z; hour : Z; minute : Z; second : Z }.

(** An httpx response: status code, body (its [.content] and [.text]) and
    the [content-type] header if any. *)
Record resp : Type := mkResp { status : Z; body : string; ctype : option string }.

(** What the network does with one request. *)
Inductive reply : Type :=
| Reply (r : resp)
| NetDown.

(** The observable actions: each [client.post], [client.get] call,
    [asyncio.sleep], file write, and the "Processing batch of n images" log
    line that opens each image batch. *)
Inductive event : Type :=
| EPost (url : string) (payload : json)
| EGet (url : string)
| ESleep (secs : Z)
| EWrite (path : string) (data : list Byte.byte)
| EBatch (n : nat).

(** The world: the replies the network will give, in order; the trace of
    actions so far; [datetime.now()] and [uuid.uuid4().int] at the n-th
    save call; the files on disk before the run; the number of save calls. *)
Record world : Type := mkWorld {
  net : list reply;
  trace : list event;
  clock : nat -> datetime;
  uuid4 : nat -> Z;
  files : list (string * list Byte.byte);
  calls : nat }.

Definition M (A : Type) : Type := world -> outcome A * world.

Definition ret {A} (a : A) : M A := fun w => (Ok a, w).
Definition raise {A} (e : exn) : M A := fun w => (Raise e, w).
Definition bind {A B} (m : M A) (k : A -> M B) : M B :=
  fun w => match m w with
           | (Ok a, w1) => k a w1
           | (Raise e, w1) => (Raise e, w1)
           end.
(** [try: m except e: h(e)] *)
Definition catch {A} (m : M A) (h : exn -> M A) : M A :=
  fun w => match m w with
           | (Ok a, w1) => (Ok a, w1)
           | (Raise e, w1) => h e w1
           end.
Definition lift {A} (o : outcome A) : M A := fun w => (o, w).

Notation "x <- m ;; k" := (bind m (fun x => k))
  (at level 61, m at next level, right associativity).
Notation "m ;;; k" := (bind m (fun _ => k))
  (at level 61, right associativity).

Definition emit (e : event) : M unit :=
  fun w => (Ok tt, {| net := net w; trace := (trace w ++ [e])%list; clock := clock w;
                      uuid4 := uuid4 w; files := files w; calls := calls w |}).

(** httpx refuses a URL without an http or https scheme before sending. *)
Definition scheme_ok (url : string) : bool :=
  Py.startswith url "http://" || Py.startswith url "https://".

Definition next_reply : M resp :=
  fun w =>
    let w' r := {| net := r; trace := trace w; clock := clock w; uuid4 := uuid4 w;
                   files := files w; calls := calls w |} in
    match net w with
    | Reply r :: rest => (Ok r, w' rest)
    | NetDown :: rest => (Raise TransportError, w' rest)
    | [] => (Raise TransportError, w' [])
    end.

(** [await client.post(url, json=payload)] *)
Definition http_post (url : string) (payload : json) : M resp :=
  emit (EPost url payload) ;;;
  if scheme_ok url then next_reply else raise TransportError.

(** [await client.get(url)]; a non-string URL is a [TypeError]. *)
Definition http_get (url : json) : M resp :=
  match url with
  | JStr u => emit (EGet u) ;;; if scheme_ok u then next_reply else raise TransportError
  | _ => raise TypeError
  end.

(** [await asyncio.sleep(secs)] *)
Definition sleep (secs : Z) : M unit := emit (ESleep secs).

(** [with open(path, "wb") as f: f.write(data)] *)
Definition write_file (path : string) (data : list Byte.byte) : M unit :=
  emit (EWrite path data).

(** [open(path, "rb").read()] *)
Definition read_file (path : string) : M (list Byte.byte) :=
  fun w => match find (fun '(p, _) => String.eqb p path) (files w) with
           | Some (_, d) => (Ok d, w)
           | None => (Raise OSError, w)
           end.

(** [datetime.now().strftime("%Y%m%d_%H%M%S")] and [str(uuid.uuid4())[:8]]
    (the first eight hex digits of the 128-bit value), one pair per save
    call. *)
Definition stamp : M (string * string) :=
  fun w =>
    let d := clock w (calls w) in
    let ts := Py.zpad 10 4 (year d) ++ Py.zpad 10 2 (month d) ++ Py.zpad 10 2 (day d)
              ++ "_" ++ Py.zpad 10 2 (hour d) ++ Py.zpad 10 2 (minute d)
              ++ Py.zpad 10 2 (second d) in
    let sid := Py.zpad 16 8 (Z.land (Z.shiftr (uuid4 w (calls w)) 96) (2 ^ 32 - 1)) in
    (Ok (ts, sid), {| net := net w; trace := trace w; clock := clock w; uuid4 := uuid4 w;
                      files := files w; calls := S (calls w) |}).

(** [response.raise_for_status()]: httpx raises on every status outside 2xx. *)
Definition raise_for_status (r : resp) : M unit :=
  if ((200 <=? status r) && (status r <? 300))%Z then ret tt
  else raise (HTTPStatusError (status r)).

(** [response.content] *)
Definition content (r : resp) : list Byte.byte :=
  map Ascii.byte_of_ascii (list_ascii_of_string (body r)).

(** [response.headers.get("content-type", "")] *)
Definition content_type (r : resp) : string :=
  match ctype r with Some c => c | None => "" end.

(* ------------------------------------------------------------------ *)
(** ** Python operations on decoded JSON values *)

(** [k in v] *)
Definition py_in (k : string) (v : json) : outcome bool :=
  match v with
  | JObj kvs => Ok (match obj_get kvs k with Some _ => true | None => false end)
  | JArr l => Ok (existsb (fun x => match x with JStr s => String.eqb s k | _ => false end) l)
  | JStr s => Ok (Py.contains k s)
  | _ => Raise TypeError
  end.

(** [v[k]] for a string key *)
Definition getitem (v : json) (k : string) : outcome json :=
  match v with
  | JObj kvs => match obj_get kvs k with Some x => Ok x | None => Raise (KeyError k) end
  | _ => Raise TypeError
  end.

(** [v.get(k, default)] *)
Definition dict_get (v : json) (k : string) (default : json) : outcome json :=
  match v with
  | JObj kvs => Ok (match obj_get kvs k with Some x => x | None => default end)
  | _ => Raise AttributeError
  end.

(** [v[0]] *)
Definition getindex0 (v : json) : outcome json :=
  match v with
  | JArr (x :: _) => Ok x
  | JArr [] => Raise IndexError
  | JStr (String c _) => Ok (JStr (String c ""))
  | JStr EmptyString => Raise IndexError
  | JObj _ => Raise (KeyError "0")
  | _ => Raise TypeError
  end.

(** [len(v)] *)
Definition py_len (v : json) : outcome nat :=
  match v with
  | JArr l => Ok (List.length l)
  | JStr s => Ok (String.length s)
  | JObj kvs => Ok (List.length kvs)
  | _ => Raise TypeError
  end.

(** [list(v)]: what [for item in v] visits *)
Definition py_iter (v : json) : outcome (list json) :=
  match v with
  | JArr l => Ok l
  | JStr s => Ok (map (fun c => JStr (String c "")) (list_ascii_of_string s))
  | JObj kvs => Ok (map (fun '(k, _) => JStr k) kvs)
  | _ => Raise TypeError
  end.

(** [v.startswith(p)] *)
Definition py_startswith (v : json) (p : string) : outcome bool :=
  match v with
  | JStr s => Ok (Py.startswith s p)
  | _ => Raise AttributeError
  end.

(* ------------------------------------------------------------------ *)
(** ** [posixpath]: [join], [normpath], [abspath] *)

Module Path.

(** [os.path.join(a, b)] *)
Definition join (a b : string) : string :=
  if Py.startswith b "/" then b
  else if String.eqb a "" || Py.endswith a "/" then a ++ b
  else a ++ "/" ++ b.

(** One step of the component loop of [normpath]. *)
Definition norm_step (initial : nat) (acc : list string) (comp : string) : list string :=
  if String.eqb comp "" || String.eqb comp "." then acc
  else if negb (String.eqb comp "..")
          || ((initial =? 0) && match acc with [] => true | _ => false end)
          || match rev acc with ".." :: _ => true | _ => false end
  then (acc ++ [comp])%list
  else removelast acc.

(** [os.path.normpath(p)] *)
Definition normpath (p : string) : string :=
  if String.eqb p "" then "."
  else
    let initial := if Py.startswith p "/" then
                     if Py.startswith p "//" && negb (Py.startswith p "///") then 2 else 1
                   else 0 in
    let comps := fold_left (norm_step initial) (Py.split_on "/" p) [] in
    let path := Py.repeat_char "/" initial ++ String.concat "/" comps in
    if String.eqb path "" then "." else path.

(** [os.path.abspath(p)] with [os.getcwd()] = [cwd] *)
Definition abspath (cwd p : string) : string :=
  normpath (if Py.startswith p "/" then p else join cwd p).

End Path.

(** The guard of the three save functions:
    [os.path.abspath(filepath).startswith(os.path.abspath("output"))]. *)
Definition path_guard (cwd filepath : string) : bool :=
  Py.startswith (Path.abspath cwd filepath) (Path.abspath cwd "output").

(* ------------------------------------------------------------------ *)
(** ** [base64]: [b64encode] and [b64decode] (CPython's [binascii]) *)

Module B64.

Definition alphabet : string :=
  "ABCDEFGHIJKLMNOPQRSTUVWXYZabcdefghijklmnopqrstuvwxyz0123456789+/".

Definition to_char (i : Z) : ascii :=
  match String.get (Z.to_nat i) alphabet with Some c => c | None => "A"%char end.

(** A byte as the C code sees it, an [unsigned char] *)
Definition zb (b : Byte.byte) : Z := Z.of_N (Byte.to_N b).

(** [*bin_data++ = v]: the store keeps the low eight bits *)
Definition byte_of_Z (z : Z) : Byte.byte :=
  match Byte.of_N (Z.to_N (Z.land z 255)) with Some b => b | None => Byte.x00 end.

(** The four sextets of a three-byte group [a b c] ([b2a_base64]). *)
Definition enc1 (a : Byte.byte) : Z := Z.shiftr (zb a) 2.
Definition enc2 (a b : Byte.byte) : Z :=
  Z.lor (Z.shiftl (Z.land (zb a) 3) 4) (Z.shiftr (zb b) 4).
Definition enc3 (b c : Byte.byte) : Z :=
  Z.lor (Z.shiftl (Z.land (zb b) 15) 2) (Z.shiftr (zb c) 6).
Definition enc4 (c : Byte.byte) : Z := Z.land (zb c) 63.

(** [base64.b64encode(data).decode()] *)
Fixpoint encode (l : list Byte.byte) : string :=
  match l with
  | a :: b :: c :: r =>
      String (to_char (enc1 a)) (String (to_char (enc2 a b))
        (String (to_char (enc3 b c)) (String (to_char (enc4 c)) (encode r))))
  | [a; b] =>
      String (to_char (enc1 a)) (String (to_char (enc2 a b))
        (String (to_char (enc3 b Byte.x00)) "="))
  | [a] =>
      String (to_char (enc1 a)) (String (to_char (enc2 a Byte.x00)) "==")
  | [] => ""
  end.

(** [table_a2b_base64]: 255 marks a character outside the alphabet *)
Definition table (c : ascii) : Z :=
  let n := Z.of_nat (nat_of_ascii c) in
  if ((65 <=? n) && (n <=? 90))%Z then n - 65
  else if ((97 <=? n) && (n <=? 122))%Z then n - 71
  else if ((48 <=? n) && (n <=? 57))%Z then n + 4
  else if (n =? 43)%Z then 62
  else if (n =? 47)%Z then 63
  else 255.

(** The loop of [binascii.a2b_base64(s, strict_mode=False)]: [qp] is
    [quad_pos], [lc] is [leftchar], [pads] counts the '=' seen since the
    last data character, [out] holds the bytes written so far. *)
Fixpoint a2b (qp : nat) (lc : Z) (pads : nat) (out : list Byte.byte) (s : string)
  : outcome (list Byte.byte) :=
  match s with
  | EmptyString =>
      match qp with
      | O => Ok out
      | 1 => Raise (BinasciiError
                      ("Invalid base64-encoded string: number of data characters ("
                       ++ Py.str_nat (List.length out / 3 * 4 + 1)
                       ++ ") cannot be 1 more than a multiple of 4"))
      | _ => Raise (BinasciiError "Incorrect padding")
      end
  | String c r =>
      if Ascii.eqb c "=" then
        if 2 <=? qp then
          if 4 <=? qp + S pads then Ok out
          else a2b qp lc (S pads) out r
        else a2b qp lc pads out r
      else
        let v := table c in
        if (64 <=? v)%Z then a2b qp lc pads out r
        else match qp with
             | O => a2b 1 v 0 out r
             | 1 => a2b 2 (Z.land v 15) 0
                        (out ++ [byte_of_Z (Z.lor (Z.shiftl lc 2) (Z.shiftr v 4))])%list r
             | 2 => a2b 3 (Z.land v 3) 0
                        (out ++ [byte_of_Z (Z.lor (Z.shiftl lc 4) (Z.shiftr v 2))])%list r
             | _ => a2b 0 0 0 (out ++ [byte_of_Z (Z.lor (Z.shiftl lc 6) v)])%list r
             end
  end.

(** [base64.b64decode(s)] for a [str] argument *)
Definition decode (s : string) : outcome (list Byte.byte) :=
  if forallb (fun c => nat_of_ascii c <? 128) (list_ascii_of_string s)
  then a2b 0 0 0 [] s
  else Raise (ValueError "string argument should contain only ASCII characters").

End B64.

(** Lines 196-199: [missing_padding = len(b64_data) % 4] and, when it is not
    0, [b64_data += "=" * (4 - missing_padding)]. *)
Definition repad (s : string) : string :=
  let missing_padding := String.length s mod 4 in
  if missing_padding =? 0 then s
  else s ++ Py.repeat_char "=" (4 - missing_padding).

(* ------------------------------------------------------------------ *)
(** ** Saving media: [_save_b64_images], [_save_url_images],
    [_save_video_from_url] *)

Section Adapter.

(** [os.getcwd()], which [os.path.abspath] resolves against. *)
Variable cwd : string.

(** The path guard and the write it protects (lines 206-211, 255-260,
    466-471). *)
Definition guarded_write (filepath : string) (data : list Byte.byte) : M unit :=
  if path_guard cwd filepath then write_file filepath data
  else raise (ValueError "Invalid file path").

(** [f"{timestamp}_{short_id}_{idx}.{ext}"] *)
Definition image_filename (ts sid : string) (idx : nat) (ext : string) : string :=
  ts ++ "_" ++ sid ++ "_" ++ Py.str_nat idx ++ "." ++ ext.

(** The loop body of [_save_b64_images], from item [idx] on. *)
Fixpoint save_b64_loop (ts sid : string) (idx : nat) (items : list json)
  : M (list string) :=
  match items with
  | [] => ret []
  | item :: rest =>
      b64_data <- lift (getitem item "b64_json") ;;
      image_bytes <- lift (match b64_data with
                           | JStr s => B64.decode (repad s)
                           | _ => Raise TypeError
                           end) ;;
      let filename := image_filename ts sid idx "png" in
      guarded_write (Path.join "output" filename) image_bytes ;;;
      filenames <- save_b64_loop ts sid (S idx) rest ;;
      ret (filename :: filenames)
  end.

(** [_save_b64_images(data, prompt)] *)
Definition save_b64_images (data : list json) : M (list string) :=
  p <- stamp ;; save_b64_loop (fst p) (snd p) 1 data.

(** Lines 243-249: the extension of a downloaded image. *)
Definition image_ext (content_type image_url : string) : string :=
  if Py.contains "jpeg" content_type || Py.contains "jpg" content_type
     || Py.endswith image_url ".jpg" then "jpg"
  else if Py.contains "png" content_type || Py.endswith image_url ".png" then "png"
  else "jpg".

(** The loop body of [_save_url_images], from item [idx] on. *)
Fixpoint save_url_loop (ts sid : string) (idx : nat) (items : list json)
  : M (list string) :=
  match items with
  | [] => ret []
  | item :: rest =>
      image_url <- lift (getitem item "url") ;;
      match image_url with
      | JStr u =>
          response <- http_get (JStr u) ;;
          raise_for_status response ;;;
          let ext := image_ext (content_type response) u in
          let filename := image_filename ts sid idx ext in
          guarded_write (Path.join "output" filename) (content response) ;;;
          filenames <- save_url_loop ts sid (S idx) rest ;;
          ret (filename :: filenames)
      | v => http_get v ;;; raise TypeError
      end
  end.

(** [_save_url_images(data, prompt, client)] *)
Definition save_url_images (data : list json) : M (list string) :=
  p <- stamp ;; save_url_loop (fst p) (snd p) 1 data.

(** Lines 454-460: the extension of a downloaded video. *)
Definition video_ext (content_type video_url : string) : string :=
  if Py.contains "mp4" content_type || Py.endswith video_url ".mp4" then "mp4"
  else if Py.contains "webm" content_type || Py.endswith video_url ".webm" then "webm"
  else "mp4".

Definition max_retries : nat := 12.
Definition retry_delay : Z := 10.

(** One pass of the [for attempt in range(max_retries)] body: [inl name]
    is [return filename], [inr msg] is [last_error = msg; continue]. *)
Definition video_attempt (video_url ts sid : string) (attempt : nat)
  : M (string + string) :=
  catch
    ((if 0 <? attempt then sleep retry_delay else ret tt) ;;;
     response <- http_get (JStr video_url) ;;
     if (status response =? 404)%Z then
       ret (inr ("404 Not Found (attempt " ++ Py.str_nat (attempt + 1) ++ ")"))
     else
       raise_for_status response ;;;
       let video_bytes := content response in
       if List.length video_bytes <? 1000 then
         ret (inr ("File too small (" ++ Py.str_nat (List.length video_bytes) ++ " bytes)"))
       else
         let ext := video_ext (content_type response) video_url in
         let filename := ts ++ "_" ++ sid ++ "." ++ ext in
         guarded_write (Path.join "output" filename) video_bytes ;;;
         ret (inl filename))
    (fun e => match e with
              | HTTPStatusError 404 => ret (inr (exn_str e))
              | _ => raise e
              end).

(** The retry loop: [left] attempts remain, the next one is [attempt]. *)
Fixpoint video_loop (video_url ts sid : string) (attempt left : nat)
  (last_error : option string) : M string :=
  match left with
  | O =>
      raise (ValueError ("Video download failed after " ++ Py.str_nat max_retries
               ++ " attempts (" ++ Py.str_Z (Z.of_nat max_retries * retry_delay)
               ++ "s). Last error: "
               ++ match last_error with Some m => m | None => "None" end))
  | S left' =>
      r <- video_attempt video_url ts sid attempt ;;
      match r with
      | inl filename => ret filename
      | inr msg => video_loop video_url ts sid (S attempt) left' (Some msg)
      end
  end.

(** [_save_video_from_url(video_url, prompt, client)] *)
Definition save_video_from_url (video_url : json) : M string :=
  p <- stamp ;;
  match video_url with
  | JStr u => video_loop u (fst p) (snd p) 0 max_retries None
  | v => http_get v ;;; raise TypeError
  end.

End Adapter.

(* ------------------------------------------------------------------ *)
(** ** Image generation: [_generate_batch] and [generate_images] *)

Record settings : Type := mkSettings {
  base_url : string; api_key : string; model : string; proxy : option string }.

(** The [payload] dict of [_generate_batch] with its [response_format]. *)
Definition image_payload (model prompt : string) (n : Z) (fmt : string) : json :=
  JObj [("model", JStr model); ("prompt", JStr prompt); ("n", JNum n);
        ("stream", JBool false); ("size", JStr "1024x1024");
        ("quality", JStr "standard"); ("response_format", JStr fmt)].

Definition images_endpoint (s : settings) : string :=
  Py.rstrip_char "/" (base_url s) ++ "/v1/images/generations".

(** For each item of a batch whose first [b64_json] is a URL (line 126):
    [item["url"] = item.pop("b64_json", item.get("url", ""))]. *)
Definition redirect_item (item : json) : outcome json :=
  match item with
  | JObj kvs =>
      let default := match obj_get kvs "url" with Some u => u | None => JStr "" end in
      let v := match obj_get kvs "b64_json" with Some b => b | None => default end in
      Ok (JObj (obj_set (obj_del kvs "b64_json") "url" v))
  | _ => Raise AttributeError
  end.

Fixpoint map_outcome {A B} (f : A -> outcome B) (l : list A) : outcome (list B) :=
  match l with
  | [] => Ok []
  | x :: r => obind (f x) (fun y => obind (map_outcome f r) (fun ys => Ok (y :: ys)))
  end.

Section Generate.

Variable cwd : string.

(** [json.loads]: [None] when it raises [json.JSONDecodeError]. *)
Variable loads : string -> option json.

(** [err_msg] for a non-200 response:
    [response.json().get("error", {}).get("message", response.text)], with
    [response.text] when that raises. *)
Definition http_error_message (r : resp) : string :=
  match loads (body r) with
  | Some (JObj kvs) =>
      match obj_get kvs "error" with
      | Some (JObj e) =>
          match obj_get e "message" with Some m => py_str m | None => body r end
      | _ => body r
      end
  | _ => body r
  end.

(** [if response.status_code != 200: ... raise ValueError(...)] *)
Definition check_status (r : resp) : M unit :=
  if (status r =? 200)%Z then ret tt
  else raise (ValueError ("API error (HTTP " ++ Py.str_Z (status r) ++ "): "
                          ++ http_error_message r)).

(** [response.json()] *)
Definition resp_json (r : resp) : M json :=
  match loads (body r) with
  | Some v => ret v
  | None => raise JSONDecodeError
  end.

(** [if "error" in data: err_msg = data["error"].get("message",
    str(data["error"])); raise ValueError(f"API error: {err_msg}")] *)
Definition raise_if_error (data : json) : M unit :=
  has_error <- lift (py_in "error" data) ;;
  if has_error then
    err <- lift (getitem data "error") ;;
    err_msg <- lift (dict_get err "message" (JStr (py_str err))) ;;
    raise (ValueError ("API error: " ++ py_str err_msg))
  else ret tt.

(** [if "data" in data and len(data["data"]) > 0] *)
Definition has_items (data : json) : M bool :=
  has_data <- lift (py_in "data" data) ;;
  if has_data then
    d <- lift (getitem data "data") ;;
    n <- lift (py_len d) ;;
    ret (0 <? n)
  else ret false.

(** The first [try] block of [_generate_batch] (lines 95-138): request
    [b64_json] and dispatch on the first item. *)
Definition b64_attempt (s : settings) (prompt : string) (n : Z) : M (list string) :=
  response <- http_post (images_endpoint s) (image_payload (model s) prompt n "b64_json") ;;
  check_status response ;;;
  data <- resp_json response ;;
  raise_if_error data ;;;
  ok <- has_items data ;;
  if ok then
    d <- lift (getitem data "data") ;;
    first_item <- lift (getindex0 d) ;;
    b64_val <- lift (dict_get first_item "b64_json" (JStr "")) ;;
    url_val <- lift (dict_get first_item "url" (JStr "")) ;;
    is_url <- (if truthy b64_val then lift (py_startswith b64_val "http") else ret false) ;;
    if is_url then
      items <- lift (py_iter d) ;;
      items' <- lift (map_outcome redirect_item items) ;;
      save_url_images cwd items'
    else if truthy b64_val then
      items <- lift (py_iter d) ;;
      save_b64_images cwd items
    else if truthy url_val then
      items <- lift (py_iter d) ;;
      save_url_images cwd items
    else raise (ValueError "Unknown response format")
  else raise (ValueError "No image data in response").

(** The fallback (lines 146-172): the same request with
    [response_format = "url"]. *)
Definition url_fallback (s : settings) (prompt : string) (n : Z) : M (list string) :=
  response <- http_post (images_endpoint s) (image_payload (model s) prompt n "url") ;;
  check_status response ;;;
  data <- resp_json response ;;
  raise_if_error data ;;;
  ok <- has_items data ;;
  if ok then
    d <- lift (getitem data "data") ;;
    first_item <- lift (getindex0 d) ;;
    has_url <- lift (py_in "url" first_item) ;;
    if has_url then
      items <- lift (py_iter d) ;;
      save_url_images cwd items
    else raise (ValueError "No valid image data in response")
  else raise (ValueError "Empty response data").

(** [except (KeyError, ValueError) as e: if "API error" in str(e): raise]
    and otherwise fall back. *)
Definition fallback_applies (e : exn) : bool :=
  is_key_or_value_error e && negb (Py.contains "API error" (exn_str e)).

(** [_generate_batch(settings, prompt, n)] *)
Definition generate_batch (s : settings) (prompt : string) (n : Z) : M (list string) :=
  catch (b64_attempt s prompt n)
        (fun e => if fallback_applies e then url_fallback s prompt n else raise e).

End Generate.

Definition BATCH_SIZE : nat := 2.

Section Batching.

(** One image batch of a given size. *)
Variable batch : nat -> M (list string).

(** One pass of the [while remaining > 0] body with [current_n] images:
    on success extend [all_filenames] and go on with [k]; on failure raise
    if nothing was saved yet, else [break]. *)
Definition batch_step (current_n : nat) (all_filenames : list string)
  (k : list string -> M (list string)) : M (list string) :=
  r <- catch (emit (EBatch current_n) ;;; filenames <- batch current_n ;; ret (inl filenames))
             (fun e => ret (inr e)) ;;
  match r with
  | inl filenames => k (all_filenames ++ filenames)%list
  | inr e => match all_filenames with
             | [] => raise e
             | _ => ret all_filenames
             end
  end.

(** The loop of [generate_images]; [current_n = min(remaining, BATCH_SIZE)]
    is 1 when one image remains and 2 otherwise. *)
Fixpoint images_loop (remaining : nat) (all_filenames : list string) : M (list string) :=
  match remaining with
  | O => ret all_filenames
  | S r0 =>
      match r0 with
      | O => batch_step 1 all_filenames (images_loop r0)
      | S r => batch_step BATCH_SIZE all_filenames (images_loop r)
      end
  end.

End Batching.

(* ------------------------------------------------------------------ *)
(** ** Video generation: [_generate_video] *)

Definition newline : ascii := ascii_of_nat 10.

(** [s.lower()] on ASCII letters *)
Definition lower (s : string) : string :=
  string_of_list_ascii
    (map (fun c => let n := nat_of_ascii c in
                   if ((65 <=? n) && (n <=? 90))%bool then ascii_of_nat (n + 32) else c)
         (list_ascii_of_string s)).

(** The character class of both URL patterns: anything but whitespace,
    [<], [>], the double quote, [)], [\]] and the backslash. *)
Definition url_char (c : ascii) : bool :=
  let n := nat_of_ascii c in
  negb (Py.is_space c || (n =? 60) || (n =? 62) || (n =? 34) || (n =? 41)
        || (n =? 93) || (n =? 92)).

(** [https?://] at the start of [s]: the length it matches *)
Definition scheme_len (s : string) : option nat :=
  if Py.startswith s "https://" then Some 8
  else if Py.startswith s "http://" then Some 7
  else None.

(** The longest prefix of class characters *)
Fixpoint run_len (s : string) : nat :=
  match s with
  | String c r => if url_char c then S (run_len r) else 0
  | EmptyString => 0
  end.

(** [\.(?:mp4|webm|mov|avi)] at the start of [s], alternatives in order *)
Definition ext_at (s : string) : option nat :=
  if Py.startswith s ".mp4" then Some 4
  else if Py.startswith s ".webm" then Some 5
  else if Py.startswith s ".mov" then Some 4
  else if Py.startswith s ".avi" then Some 4
  else None.

(** A match of [https?://], a run of class characters, then
    [\.(?:mp4|webm|mov|avi)], starting at the first character of [s]: the
    greedy run backs off one character at a time until the extension
    follows. *)
Definition video_match_at (s : string) : option string :=
  match scheme_len s with
  | None => None
  | Some p =>
      let rest := Py.drop p s in
      (fix back (j : nat) : option string :=
         match j with
         | O => None
         | S j' =>
             match ext_at (Py.drop j rest) with
             | Some e => Some (Py.take (p + j + e) s)
             | None => back j'
             end
         end) (run_len rest)
  end.

(** A match of [https?://] then a nonempty run of class characters,
    starting at the first character of [s]. *)
Definition url_match_at (s : string) : option string :=
  match scheme_len s with
  | None => None
  | Some p =>
      let k := run_len (Py.drop p s) in
      if 0 <? k then Some (Py.take (p + k) s) else None
  end.

(** [re.findall(pattern, s)[0]], if any: the leftmost match. *)
Fixpoint first_match (at_ : string -> option string) (s : string) : option string :=
  match at_ s with
  | Some m => Some m
  | None => match s with
            | EmptyString => None
            | String _ r => first_match at_ r
            end
  end.

Definition video_payload (model : string) (content video_config : json) : json :=
  JObj [("model", JStr model);
        ("messages", JArr [JObj [("role", JStr "user"); ("content", content)]]);
        ("stream", JBool false); ("video_config", video_config)].

Definition chat_endpoint (s : settings) : string :=
  Py.rstrip_char "/" (base_url s) ++ "/v1/chat/completions".

(** [get_image_as_data_url(filename)] *)
Definition get_image_as_data_url (filename : string) : M string :=
  data <- read_file (Path.join "output" filename) ;;
  let b64 := B64.encode data in
  let ext := lower (last (Py.split_on "." filename) "") in
  let mime := if String.eqb ext "png" then "image/png" else "image/jpeg" in
  ret ("data:" ++ mime ++ ";base64," ++ b64).

(** [f"{full_content[:200]}"] *)
Definition excerpt (v : json) : outcome string :=
  match v with
  | JStr s => Ok (Py.take 200 s)
  | JArr l => Ok (py_str (JArr (firstn 200 l)))
  | _ => Raise TypeError
  end.

Section Video.

Variable cwd : string.
Variable loads : string -> option json.

(** One line of the SSE loop (lines 345-363), [acc] being [full_content]. *)
Definition sse_line (acc : string) (line0 : string) : outcome string :=
  let line := Py.strip line0 in
  if String.eqb line "" || String.eqb line "data: [DONE]" then Ok acc
  else if Py.startswith line "data: " then
    let chunk_str := Py.drop 6 line in
    match loads chunk_str with
    | None => Ok acc
    | Some chunk =>
        obind (py_in "error" chunk) (fun has_error =>
        if has_error then
          obind (getitem chunk "error") (fun err =>
          obind (dict_get err "message" (JStr (py_str err))) (fun err_msg =>
          Raise (ValueError ("API error: " ++ py_str err_msg))))
        else
          obind (dict_get chunk "choices" (JArr [])) (fun choices =>
          if truthy choices then
            obind (getindex0 choices) (fun c0 =>
            obind (dict_get c0 "delta" (JObj [])) (fun delta =>
            obind (dict_get delta "content" (JStr "")) (fun content_piece =>
            if truthy content_piece then
              match content_piece with
              | JStr p => Ok (acc ++ p)
              | _ => Raise TypeError
              end
            else Ok acc)))
          else Ok acc))
    end
  else Ok acc.

Fixpoint sse_lines (acc : string) (lines : list string) : outcome string :=
  match lines with
  | [] => Ok acc
  | l :: r => obind (sse_line acc l) (fun acc' => sse_lines acc' r)
  end.

(** [for line in response_text.split("\n"): ...] from [full_content = ""] *)
Definition sse_assemble (response_text : string) : outcome string :=
  sse_lines "" (Py.split_on newline response_text).

(** Lines 385-401: the URL to download, from [data] ([None] for an SSE
    body) and [full_content]; [None] is Python's [None]. *)
Definition pick_video_url (data : option json) (full_content : json) : M (option json) :=
  video_url <-
    match data with
    | Some d =>
        if truthy d then
          has_choices <- lift (py_in "choices" d) ;;
          if has_choices then
            ch <- lift (getitem d "choices") ;;
            c0 <- lift (getindex0 ch) ;;
            message <- lift (dict_get c0 "message" (JObj [])) ;;
            has_url <- lift (py_in "url" message) ;;
            if has_url then u <- lift (getitem message "url") ;; ret (Some u)
            else ret None
          else ret None
        else ret None
    | None => ret None
    end ;;
  let unset := match video_url with None => true | Some v => negb (truthy v) end in
  if unset && truthy full_content then
    has_http <- lift (py_in "http" full_content) ;;
    if has_http then
      match full_content with
      | JStr fc =>
          match first_match video_match_at fc with
          | Some u => ret (Some (JStr u))
          | None => match first_match url_match_at fc with
                    | Some u => ret (Some (JStr u))
                    | None => ret video_url
                    end
          end
      | _ => raise TypeError
      end
    else ret video_url
  else ret video_url.

(** Everything [_generate_video] does once the POST has returned
    (lines 326-409). *)
Definition handle_video_response (response : resp) : M (list string) :=
  check_status loads response ;;;
  let response_text := Py.strip (body response) in
  if String.eqb response_text "" then raise (ValueError "API returned empty response body")
  else
    parsed <-
      (if Py.startswith response_text "data:" then
         fc <- lift (sse_assemble response_text) ;; ret (JStr fc, None)
       else
         data <- resp_json loads response ;;
         raise_if_error data ;;;
         has_choices <- lift (py_in "choices" data) ;;
         fc <- (if has_choices then
                  ch <- lift (getitem data "choices") ;;
                  n <- lift (py_len ch) ;;
                  if 0 <? n then
                    choice <- lift (getindex0 ch) ;;
                    message <- lift (dict_get choice "message" (JObj [])) ;;
                    lift (dict_get message "content" (JStr ""))
                  else ret (JStr "")
                else ret (JStr "")) ;;
         ret (fc, Some data)) ;;
    let full_content := fst parsed in
    if negb (truthy full_content) then raise (ValueError "No content in video API response")
    else
      video_url <- pick_video_url (snd parsed) full_content ;;
      match video_url with
      | Some v =>
          if truthy v then
            filename <- save_video_from_url cwd v ;; ret [filename]
          else
            ex <- lift (excerpt full_content) ;;
            raise (ValueError ("No video URL found in response. Content: " ++ ex))
      | None =>
          ex <- lift (excerpt full_content) ;;
          raise (ValueError ("No video URL found in response. Content: " ++ ex))
      end.

(** Building and sending the request (lines 291-323). *)
Definition video_request (s : settings) (prompt : string) (video_config : json)
  (source_image : option string) : M resp :=
  content <-
    match source_image with
    | Some img =>
        if String.eqb img "" then ret (JStr prompt)
        else
          data_url <- get_image_as_data_url img ;;
          ret (JArr [JObj [("type", JStr "image_url"); ("image_url", JObj [("url", JStr data_url)])];
                     JObj [("type", JStr "text");
                           ("text", JStr (if String.eqb prompt "" then "Animate this image"
                                          else prompt))]])
    | None => ret (JStr prompt)
    end ;;
  http_post (chat_endpoint s) (video_payload (model s) content video_config).

(** [_generate_video(settings, prompt, video_config, source_image)] *)
Definition generate_video (s : settings) (prompt : string) (video_config : json)
  (source_image : option string) : M (list string) :=
  response <- video_request s prompt video_config source_image ;;
  handle_video_response response.

(** [generate_images(settings, prompt, n, video_config, source_image)];
    [video_config] is [JNull] for [None]. *)
Definition generate_images (s : settings) (prompt : string) (n : Z)
  (video_config : json) (source_image : option string) : M (list string) :=
  if truthy video_config then generate_video s prompt video_config source_image
  else images_loop (fun k => generate_batch cwd loads s prompt (Z.of_nat k)) (Z.to_nat n) [].

End Video.

(* ================================================================== *)
(** * Properties *)

Example loads_ex1 :
  Json.loads (jtext "{'a': [1, 'x'], 'b': {'c': null}, 'a': -20}")
  = Some (JObj [("a", JNum (-20)); ("b", JObj [("c", JNull)])]).
Proof. vm_compute. reflexivity. Qed.

Example loads_ex2 : Json.loads (jtext "[1.5]") = None /\ Json.loads "{" = None.
Proof. vm_compute. split; reflexivity. Qed.

Example abspath_ex :
  Path.abspath "/home/u" "output/a.png" = "/home/u/output/a.png"
  /\ Path.abspath "/home/u" "output/../../x" = "/home/x"
  /\ path_guard "/home/u" "output/../x" = false.
Proof. vm_compute. repeat split. Qed.

(* ------------------------------------------------------------------ *)
(** ** Base64: the repair step restores the encoded bytes *)

Module B64Facts.
Import B64.

Definition all_bytes : list Byte.byte :=
  map (fun n => byte_of_Z (Z.of_nat n)) (seq 0 256).

Lemma all_bytes_complete (b : Byte.byte) : existsb (Byte.eqb b) all_bytes = true.
Proof. destruct b; vm_compute; reflexivity. Qed.

Lemma forallb_all_bytes (P : Byte.byte -> bool) :
  forallb P all_bytes = true -> forall b, P b = true.
Proof.
  intros H b. pose proof (all_bytes_complete b) as Hb.
  apply existsb_exists in Hb as [x [Hx Heq]].
  apply Byte.byte_dec_bl in Heq; subst x.
  rewrite forallb_forall in H. now apply H.
Qed.

(** A sextet [i] is written as a character the decoder maps back to [i]. *)
Definition sextet_ok (i : Z) : bool :=
  ((0 <=? i) && (i <? 64))%Z && (table (to_char i) =? i)%Z
  && negb (Ascii.eqb (to_char i) "=") && (nat_of_ascii (to_char i) <? 128).

Definition pair_ab (a b : Byte.byte) : bool :=
  sextet_ok (enc1 a) && sextet_ok (enc2 a b)
  && Byte.eqb (byte_of_Z (Z.lor (Z.shiftl (enc1 a) 2) (Z.shiftr (enc2 a b) 4))) a
  && (Z.land (enc2 a b) 15 =? Z.shiftr (zb b) 4)%Z.

Definition pair_bc (b c : Byte.byte) : bool :=
  sextet_ok (enc3 b c) && sextet_ok (enc4 c)
  && Byte.eqb (byte_of_Z (Z.lor (Z.shiftl (Z.shiftr (zb b) 4) 4) (Z.shiftr (enc3 b c) 2))) b
  && Byte.eqb (byte_of_Z (Z.lor (Z.shiftl (Z.land (enc3 b c) 3) 6) (enc4 c))) c.

Lemma pair_ab_all : forall a b, pair_ab a b = true.
Proof.
  intros a. apply forallb_all_bytes. revert a. apply forallb_all_bytes.
  vm_compute. reflexivity.
Qed.

Lemma pair_bc_all : forall b c, pair_bc b c = true.
Proof.
  intros b. apply forallb_all_bytes. revert b. apply forallb_all_bytes.
  vm_compute. reflexivity.
Qed.

Lemma sextet_facts (i : Z) :
  sextet_ok i = true ->
  table (to_char i) = i /\ Ascii.eqb (to_char i) "=" = false
  /\ (64 <=? i)%Z = false /\ (nat_of_ascii (to_char i) <? 128) = true.
Proof.
  unfold sextet_ok. intros H.
  repeat match goal with
         | H : (_ && _)%bool = true |- _ => apply andb_prop in H as [? ?]
         end.
  repeat match goal with
         | H : (_ =? _)%Z = true |- _ => apply Z.eqb_eq in H
         | H : (_ <=? _)%Z = true |- _ => apply Z.leb_le in H
         | H : (_ <? _)%Z = true |- _ => apply Z.ltb_lt in H
         | H : negb _ = true |- _ => apply negb_true_iff in H
         end.
  repeat split; auto. apply Z.leb_gt. lia.
Qed.

Ltac facts_of H :=
  repeat match type of H with
         | (_ && _)%bool = true => let H1 := fresh in apply andb_prop in H as [H H1]; facts_of H1
         end.

Lemma pair_ab_facts (a b : Byte.byte) :
  (table (to_char (enc1 a)) = enc1 a /\ Ascii.eqb (to_char (enc1 a)) "=" = false
   /\ (64 <=? enc1 a)%Z = false /\ (nat_of_ascii (to_char (enc1 a)) <? 128) = true)
  /\ (table (to_char (enc2 a b)) = enc2 a b /\ Ascii.eqb (to_char (enc2 a b)) "=" = false
   /\ (64 <=? enc2 a b)%Z = false /\ (nat_of_ascii (to_char (enc2 a b)) <? 128) = true)
  /\ byte_of_Z (Z.lor (Z.shiftl (enc1 a) 2) (Z.shiftr (enc2 a b) 4)) = a
  /\ Z.land (enc2 a b) 15 = Z.shiftr (zb b) 4.
Proof.
  pose proof (pair_ab_all a b) as H. unfold pair_ab in H.
  apply andb_prop in H as [H H4]. apply andb_prop in H as [H H3].
  apply andb_prop in H as [H1 H2].
  split; [now apply sextet_facts|]. split; [now apply sextet_facts|].
  split; [now apply Byte.byte_dec_bl|]. now apply Z.eqb_eq.
Qed.

Lemma pair_bc_facts (b c : Byte.byte) :
  (table (to_char (enc3 b c)) = enc3 b c /\ Ascii.eqb (to_char (enc3 b c)) "=" = false
   /\ (64 <=? enc3 b c)%Z = false /\ (nat_of_ascii (to_char (enc3 b c)) <? 128) = true)
  /\ (table (to_char (enc4 c)) = enc4 c /\ Ascii.eqb (to_char (enc4 c)) "=" = false
   /\ (64 <=? enc4 c)%Z = false /\ (nat_of_ascii (to_char (enc4 c)) <? 128) = true)
  /\ byte_of_Z (Z.lor (Z.shiftl (Z.shiftr (zb b) 4) 4) (Z.shiftr (enc3 b c) 2)) = b
  /\ byte_of_Z (Z.lor (Z.shiftl (Z.land (enc3 b c) 3) 6) (enc4 c)) = c.
Proof.
  pose proof (pair_bc_all b c) as H. unfold pair_bc in H.
  apply andb_prop in H as [H H4]. apply andb_prop in H as [H H3].
  apply andb_prop in H as [H1 H2].
  split; [now apply sextet_facts|]. split; [now apply sextet_facts|].
  split; now apply Byte.byte_dec_bl.
Qed.

(** Induction over a byte list three bytes at a time, as [encode] walks it. *)
Lemma list3_ind (P : list Byte.byte -> Prop) :
  P [] -> (forall a, P [a]) -> (forall a b, P [a; b]) ->
  (forall a b c r, P r -> P (a :: b :: c :: r)) -> forall l, P l.
Proof.
  intros H0 H1 H2 H3. fix IH 1. intros [|a [|b [|c r]]].
  - exact H0.
  - exact (H1 a).
  - exact (H2 a b).
  - exact (H3 a b c r (IH r)).
Qed.

Lemma rstrip_cons (c x : ascii) (s : string) :
  Ascii.eqb c x = false -> Py.rstrip_char c (String x s) = String x (Py.rstrip_char c s).
Proof.
  intros H. unfold Py.rstrip_char. cbn [Py.rstrip_by]. rewrite H.
  now rewrite andb_false_r.
Qed.

Lemma repad_cons4 (x1 x2 x3 x4 : ascii) (s : string) :
  repad (String x1 (String x2 (String x3 (String x4 s))))
  = String x1 (String x2 (String x3 (String x4 (repad s)))).
Proof.
  unfold repad. cbn [String.length String.append].
  replace (S (S (S (S (String.length s)))) mod 4) with (String.length s mod 4).
  - destruct (String.length s mod 4 =? 0); reflexivity.
  - replace (S (S (S (S (String.length s))))) with (String.length s + 1 * 4) by lia.
    now rewrite Nat.Div0.mod_add.
Qed.

Lemma eqb_sym_false (x y : ascii) : Ascii.eqb x y = false -> Ascii.eqb y x = false.
Proof. intros H. destruct (Ascii.eqb y x) eqn:E; auto. apply Ascii.eqb_eq in E. subst. now rewrite Ascii.eqb_refl in H. Qed.

(** Stripping the padding and re-padding gives the encoding back. *)
Lemma repad_strip (l : list Byte.byte) :
  repad (Py.rstrip_char "=" (encode l)) = encode l.
Proof.
  induction l using list3_ind.
  - reflexivity.
  - destruct (pair_ab_facts a Byte.x00) as [[_ [E1 _]] [[_ [E2 _]] _]].
    cbn [encode]. rewrite rstrip_cons by now apply eqb_sym_false.
    rewrite rstrip_cons by now apply eqb_sym_false. reflexivity.
  - destruct (pair_ab_facts a b) as [[_ [E1 _]] [[_ [E2 _]] _]].
    destruct (pair_bc_facts b Byte.x00) as [[_ [E3 _]] _].
    cbn [encode]. do 3 (rewrite rstrip_cons by now apply eqb_sym_false). reflexivity.
  - destruct (pair_ab_facts a b) as [[_ [E1 _]] [[_ [E2 _]] _]].
    destruct (pair_bc_facts b c) as [[_ [E3 _]] [[_ [E4 _]] _]].
    cbn [encode]. do 4 (rewrite rstrip_cons by now apply eqb_sym_false).
    rewrite repad_cons4. now rewrite IHl.
Qed.

(** The decoder reads the encoding back, from any [out]. *)
Lemma a2b_encode (l : list Byte.byte) (out : list Byte.byte) :
  a2b 0 0 0 out (encode l) = Ok (out ++ l)%list.
Proof.
  revert out. induction l using list3_ind; intros out.
  - cbn. now rewrite app_nil_r.
  - destruct (pair_ab_facts a Byte.x00) as [[T1 [E1 [L1 _]]] [[T2 [E2 [L2 _]]] [D1 _]]].
    cbn [encode a2b]. rewrite E1, T1, L1. cbn [a2b]. rewrite E2, T2, L2.
    cbn [a2b]. rewrite D1. reflexivity.
  - destruct (pair_ab_facts a b) as [[T1 [E1 [L1 _]]] [[T2 [E2 [L2 _]]] [D1 M2]]].
    destruct (pair_bc_facts b Byte.x00) as [[T3 [E3 [L3 _]]] [_ [D2 _]]].
    cbn [encode a2b]. rewrite E1, T1, L1. cbn [a2b]. rewrite E2, T2, L2.
    cbn [a2b]. rewrite E3, T3, L3. cbn [a2b]. rewrite D1, M2, D2.
    now rewrite <- app_assoc.
  - destruct (pair_ab_facts a b) as [[T1 [E1 [L1 _]]] [[T2 [E2 [L2 _]]] [D1 M2]]].
    destruct (pair_bc_facts b c) as [[T3 [E3 [L3 _]]] [[T4 [E4 [L4 _]]] [D2 D3]]].
    cbn [encode a2b]. rewrite E1, T1, L1. cbn [a2b]. rewrite E2, T2, L2.
    cbn [a2b]. rewrite E3, T3, L3. cbn [a2b]. rewrite E4, T4, L4. cbn [a2b].
    rewrite D1, M2, D2, D3, IHl. now rewrite <- !app_assoc.
Qed.

(** Every character of an encoding is ASCII. *)
Lemma encode_ascii (l : list Byte.byte) :
  forallb (fun c => nat_of_ascii c <? 128) (list_ascii_of_string (encode l)) = true.
Proof.
  induction l using list3_ind.
  - reflexivity.
  - destruct (pair_ab_facts a Byte.x00) as [[_ [_ [_ A1]]] [[_ [_ [_ A2]]] _]].
    cbn [encode list_ascii_of_string forallb]. now rewrite A1, A2.
  - destruct (pair_ab_facts a b) as [[_ [_ [_ A1]]] [[_ [_ [_ A2]]] _]].
    destruct (pair_bc_facts b Byte.x00) as [[_ [_ [_ A3]]] _].
    cbn [encode list_ascii_of_string forallb]. now rewrite A1, A2, A3.
  - destruct (pair_ab_facts a b) as [[_ [_ [_ A1]]] [[_ [_ [_ A2]]] _]].
    destruct (pair_bc_facts b c) as [[_ [_ [_ A3]]] [[_ [_ [_ A4]]] _]].
    cbn [encode list_ascii_of_string forallb]. now rewrite A1, A2, A3, A4, IHl.
Qed.

End B64Facts.

(* ------------------------------------------------------------------ *)
(** ** Claim C4: re-padding and decoding a base64 payload *)

(** C4. For every byte string [b], take its standard base64 encoding and
    strip the trailing padding characters; the repad step of
    [_save_b64_images] (lines 196-199) followed by [base64.b64decode]
    gives back exactly [b]. *)
Theorem C4_repad_decode_roundtrip (b : list Byte.byte) :
  B64.decode (repad (Py.rstrip_char "=" (B64.encode b))) = Ok b.
Proof.
  rewrite B64Facts.repad_strip. unfold B64.decode.
  rewrite B64Facts.encode_ascii. apply B64Facts.a2b_encode.
Qed.

(* ------------------------------------------------------------------ *)
(** ** Claim C9: the extension of a downloaded file *)

(** A world for concrete runs: fixed clock and uuid, the given replies. *)
Definition sample_world (replies : list reply) : world :=
  {| net := replies; trace := []; clock := fun _ => mkDatetime 2026 10 16 9 5 3;
     uuid4 := fun _ => Z.shiftl 3735928559 96; files := []; calls := 0 |}.

(** C9, counterexample. A URL ending in [.jpg] wins over a [png]
    content-type: [_save_url_images] saves a [image/png] download under a
    [.jpg] name; for video, [.mp4] in the URL wins over [video/webm]. *)
Theorem C9_png_content_type_jpg_url :
  fst (save_url_images "/home/u" [JObj [("url", JStr "https://cdn.example.com/a.jpg")]]
         (sample_world [Reply (mkResp 200 "PNGDATA" (Some "image/png"))]))
  = Ok ["20261016_090503_deadbeef_1.jpg"]
  /\ video_ext "video/webm" "https://cdn.example.com/v.mp4" = "mp4".
Proof. split; vm_compute; reflexivity. Qed.

(** C9, amended. The first extension of the list (jpg, then png, for images;
    mp4, then webm, for video) with a signal in either the content-type or
    the URL suffix wins: the result is png exactly when there is a png
    signal and no jpg signal in either place, and jpg otherwise; it is
    webm exactly when there is a webm signal and no mp4 signal in either
    place, and mp4 otherwise. *)
Theorem C9_extension_precedence (ct u : string) :
  (image_ext ct u = "png" <->
     (Py.contains "png" ct || Py.endswith u ".png") = true
     /\ (Py.contains "jpeg" ct || Py.contains "jpg" ct || Py.endswith u ".jpg") = false)
  /\ (image_ext ct u = "png" \/ image_ext ct u = "jpg")
  /\ (video_ext ct u = "webm" <->
     (Py.contains "webm" ct || Py.endswith u ".webm") = true
     /\ (Py.contains "mp4" ct || Py.endswith u ".mp4") = false)
  /\ (video_ext ct u = "webm" \/ video_ext ct u = "mp4").
Proof.
  unfold image_ext, video_ext.
  destruct (Py.contains "jpeg" ct || Py.contains "jpg" ct || Py.endswith u ".jpg");
  destruct (Py.contains "png" ct || Py.endswith u ".png");
  destruct (Py.contains "mp4" ct || Py.endswith u ".mp4");
  destruct (Py.contains "webm" ct || Py.endswith u ".webm");
  repeat split; intuition discriminate.
Qed.

(* ------------------------------------------------------------------ *)
(** ** Claim C7: where the video URL comes from *)

Definition video_body_url_only : string :=
  jtext "{'choices':[{'message':{'content':'','url':'https://cdn.example.com/v.mp4'}}]}".

Definition video_body_url_and_text : string :=
  jtext "{'choices':[{'message':{'content':'done','url':'https://cdn.example.com/v.mp4'}}]}".

(** C7, failing input. A plain JSON reply whose message carries a [url]
    field but an empty [content] never reaches the [url] check of lines
    385-389: the [if not full_content] test of lines 380-381 raises first,
    and nothing is downloaded. With a non-empty [content] the same [url]
    field is the one fetched. *)
Theorem C7_url_field_unreachable_on_empty_content :
  handle_video_response "/home/u" Json.loads (mkResp 200 video_body_url_only None)
    (sample_world [])
  = (Raise (ValueError "No content in video API response"), sample_world [])
  /\ (let '(r, w) := handle_video_response "/home/u" Json.loads
                        (mkResp 200 video_body_url_and_text None)
                        (sample_world [Reply (mkResp 200 (Py.repeat_char "x" 5000)
                                                  (Some "video/mp4"))]) in
      (r, hd_error (trace w)))
     = (Ok ["20261016_090503_deadbeef.mp4"], Some (EGet "https://cdn.example.com/v.mp4")).
Proof. split; vm_compute; reflexivity. Qed.

(* ------------------------------------------------------------------ *)
(** ** Claim C10: an error object inside the SSE stream *)

Lemma sse_lines_app (loads : string -> option json) (acc : string) (pre rest : list string) :
  sse_lines loads acc (pre ++ rest) = obind (sse_lines loads acc pre) (fun a => sse_lines loads a rest).
Proof.
  revert acc. induction pre as [|l pre IH]; intros acc; [reflexivity|].
  cbn [sse_lines app]. destruct (sse_line loads acc l); cbn [obind]; auto.
Qed.

Lemma startswith_nonempty (s p : string) :
  Py.startswith s (String "d" p) = true -> String.eqb s "" = false.
Proof. destruct s; [discriminate | reflexivity]. Qed.

Definition sse_two_errors : string :=
  jtext "data: {'error':{'message':'first'}}" ++ String newline
        (jtext "data: {'error':{'message':'second'}}").

Definition sse_string_error : string :=
  jtext "data: {'error':'rate limited'}".

Definition sse_error_after_null_delta : string :=
  jtext "data: {'choices':[{'delta':null}]}" ++ String newline
        (jtext "data: {'error':{'message':'quota exceeded'}}").

(** C10, counterexample. A chunk carrying an error object does not by
    itself decide how the call ends. When an earlier parsed chunk has a
    [null] [delta], [None.get] raises [AttributeError] on that line and the
    error chunk is never read: the call fails without the error's message.
    And when the [error] member is a string, [chunk["error"].get] raises
    [AttributeError] before the [str(chunk["error"])] fallback is evaluated,
    so its text is not reported either. *)
Theorem C10_error_chunk_counterexample :
  handle_video_response "/home/u" Json.loads (mkResp 200 sse_error_after_null_delta None)
    (sample_world [])
  = (Raise AttributeError, sample_world [])
  /\ handle_video_response "/home/u" Json.loads (mkResp 200 sse_string_error None)
       (sample_world [])
     = (Raise AttributeError, sample_world []).
Proof. split; vm_compute; reflexivity. Qed.

(** C10, amended. Take a 200 SSE reply and the first data line, in order,
    whose payload parses to an object with an [error] member that is itself
    an object, every earlier line having been processed without an
    exception. Then [_generate_video] fails with
    [ValueError("API error: " + msg)], [msg] being [error["message"]] if
    present and the text of the error object otherwise, whatever the later
    lines hold; the world is left as it was, so no download happens. *)
Theorem C10_first_error_chunk_aborts (cwd : string) (loads : string -> option json)
    (r : resp) (pre post : list string) (l acc : string)
    (fields err : list (string * json)) (w : world) :
  status r = 200%Z ->
  Py.startswith (Py.strip (body r)) "data:" = true ->
  Py.split_on newline (Py.strip (body r)) = (pre ++ l :: post)%list ->
  sse_lines loads "" pre = Ok acc ->
  Py.startswith (Py.strip l) "data: " = true ->
  Py.strip l <> "data: [DONE]" ->
  loads (Py.drop 6 (Py.strip l)) = Some (JObj fields) ->
  obj_get fields "error" = Some (JObj err) ->
  handle_video_response cwd loads r w
  = (Raise (ValueError ("API error: " ++ py_str (match obj_get err "message" with
                                                 | Some m => m
                                                 | None => JStr (py_str (JObj err))
                                                 end))), w).
Proof.
  intros Hst Hsse Hsplit Hpre Hdata Hdone Hload Herr.
  assert (Hasm : sse_assemble loads (Py.strip (body r))
                 = Raise (ValueError ("API error: " ++ py_str (match obj_get err "message" with
                                                 | Some m => m
                                                 | None => JStr (py_str (JObj err))
                                                 end)))).
  { unfold sse_assemble. rewrite Hsplit, sse_lines_app, Hpre. cbn [obind sse_lines].
    unfold sse_line. rewrite (startswith_nonempty _ _ Hdata).
    apply String.eqb_neq in Hdone. rewrite Hdone. cbn [orb]. rewrite Hdata.
    rewrite Hload. cbn [obind py_in getitem dict_get]. rewrite Herr. reflexivity. }
  unfold handle_video_response, check_status. rewrite Hst. cbn [Z.eqb Pos.eqb].
  rewrite (startswith_nonempty _ _ Hsse), Hsse.
  unfold bind, ret, lift. rewrite Hasm. reflexivity.
Qed.

(** A concrete run of [C10_first_error_chunk_aborts]: the two-error stream. *)
Lemma C10_first_error_chunk_aborts_witness :
  handle_video_response "/home/u" Json.loads (mkResp 200 sse_two_errors None) (sample_world [])
  = (Raise (ValueError ("API error: " ++ py_str (JStr "first"))), sample_world []).
Proof.
  apply (C10_first_error_chunk_aborts "/home/u" Json.loads (mkResp 200 sse_two_errors None)
           [] [jtext "data: {'error':{'message':'second'}}"]
           (jtext "data: {'error':{'message':'first'}}") ""
           [("error", JObj [("message", JStr "first")])] [("message", JStr "first")]).
  all: try (vm_compute; reflexivity).
  vm_compute. discriminate.
Defined.

(* ------------------------------------------------------------------ *)
(** ** Claim C6: assembling an SSE stream *)

(** The spec's reading of the stream, written from its words: the payloads
    of the [data: ] lines other than [data: [DONE]], those that parse, in
    order, and the [choices[0].delta.content] fragment of each. *)
Definition spec_data_payload (line : string) : option string :=
  let s := Py.strip line in
  if Py.startswith s "data: " && negb (String.eqb s "data: [DONE]")
  then Some (Py.drop 6 s) else None.

Fixpoint spec_parsed_chunks (loads : string -> option json) (lines : list string) : list json :=
  match lines with
  | [] => []
  | l :: r =>
      match spec_data_payload l with
      | Some p =>
          match loads p with
          | Some c => c :: spec_parsed_chunks loads r
          | None => spec_parsed_chunks loads r
          end
      | None => spec_parsed_chunks loads r
      end
  end.

Definition get_or (kvs : list (string * json)) (k : string) (d : json) : json :=
  match obj_get kvs k with Some v => v | None => d end.

(** A chunk of the shape the stream is meant to carry: an object without
    [error], whose [choices] is empty or a list starting with an object whose
    [delta] is an object, whose [content] is a string or empty. *)
Definition spec_well_shaped (c : json) : bool :=
  match c with
  | JObj kvs =>
      match obj_get kvs "error" with
      | Some _ => false
      | None =>
          let choices := get_or kvs "choices" (JArr []) in
          if truthy choices then
            match choices with
            | JArr (JObj c0 :: _) =>
                match get_or c0 "delta" (JObj []) with
                | JObj d =>
                    match get_or d "content" (JStr "") with
                    | JStr _ => true
                    | v => negb (truthy v)
                    end
                | _ => false
                end
            | _ => false
            end
          else true
      end
  | _ => false
  end.

(** The [choices[0].delta.content] fragment of a chunk, empty if none. *)
Definition spec_fragment (c : json) : string :=
  match c with
  | JObj kvs =>
      match get_or kvs "choices" (JArr []) with
      | JArr (JObj c0 :: _) =>
          match get_or c0 "delta" (JObj []) with
          | JObj d => match get_or d "content" (JStr "") with JStr p => p | _ => "" end
          | _ => ""
          end
      | _ => ""
      end
  | _ => ""
  end.

Lemma str_app_nil_r (s : string) : (s ++ "")%string = s.
Proof. induction s; cbn; congruence. Qed.

Lemma str_app_assoc (a b c : string) : (a ++ (b ++ c))%string = ((a ++ b) ++ c)%string.
Proof. induction a; cbn; congruence. Qed.

Lemma sse_line_well_shaped (loads : string -> option json) (acc : string) (kvs : list (string * json)) :
  spec_well_shaped (JObj kvs) = true ->
  obind (py_in "error" (JObj kvs)) (fun has_error =>
        if has_error then
          obind (getitem (JObj kvs) "error") (fun err =>
          obind (dict_get err "message" (JStr (py_str err))) (fun err_msg =>
          Raise (ValueError ("API error: " ++ py_str err_msg))))
        else
          obind (dict_get (JObj kvs) "choices" (JArr [])) (fun choices =>
          if truthy choices then
            obind (getindex0 choices) (fun c0 =>
            obind (dict_get c0 "delta" (JObj [])) (fun delta =>
            obind (dict_get delta "content" (JStr "")) (fun content_piece =>
            if truthy content_piece then
              match content_piece with
              | JStr p => Ok (acc ++ p)
              | _ => Raise TypeError
              end
            else Ok acc)))
          else Ok acc))
  = Ok (acc ++ spec_fragment (JObj kvs)).
Proof.
  unfold spec_well_shaped, spec_fragment, get_or. cbn [py_in obind dict_get].
  destruct (obj_get kvs "error"); [discriminate|]. cbn [obind].
  destruct (obj_get kvs "choices") as [ch|]; cbn [truthy];
    [|intros _; now rewrite str_app_nil_r].
  destruct (truthy ch) eqn:Ht;
    [|intros _; destruct ch as [| | | |[|[| | | | |c0] r]|]; cbn in Ht |- *;
      try discriminate; now rewrite ?str_app_nil_r].
  destruct ch as [| | | |[|[| | | | |c0] r]|]; try discriminate; cbn [getindex0 obind dict_get].
  destruct (obj_get c0 "delta") as [[| | | | |d]|]; try discriminate; cbn [obind dict_get].
  - destruct (obj_get d "content") as [[|b|z|s|l|o]|]; intros H;
      [ .. | now rewrite str_app_nil_r]; cbn [truthy negb] in H |- *;
      try destruct b; try destruct (z =? 0)%Z;
      try (destruct (String.eqb s "") eqn:Es; [apply String.eqb_eq in Es; subst|]);
      try destruct l; try destruct o;
      cbn in H |- *; try discriminate; now rewrite ?str_app_nil_r.
  - destruct (truthy (JStr "")) eqn:E; cbn in E; [discriminate|]. intros _.
    now rewrite str_app_nil_r.
Qed.

Lemma concat_empty_cons (x : string) (r : list string) :
  String.concat "" (x :: r) = (x ++ String.concat "" r)%string.
Proof. destruct r; cbn; [now rewrite str_app_nil_r | reflexivity]. Qed.

Lemma sse_lines_spec (loads : string -> option json) (lines : list string) (acc : string) :
  Forall (fun c => spec_well_shaped c = true) (spec_parsed_chunks loads lines) ->
  sse_lines loads acc lines
  = Ok (acc ++ String.concat "" (map spec_fragment (spec_parsed_chunks loads lines))).
Proof.
  revert acc. induction lines as [|l r IH]; intros acc Hall.
  - cbn. now rewrite str_app_nil_r.
  - cbn [sse_lines spec_parsed_chunks] in Hall |- *. unfold spec_data_payload, sse_line in *.
    cbv zeta in *. set (s := Py.strip l) in *.
    destruct (Py.startswith s "data: ") eqn:Hs; destruct (String.eqb s "data: [DONE]") eqn:Hd;
      cbn [andb negb] in Hall |- *.
    + rewrite orb_true_r. cbn [obind]. now apply IH.
    + rewrite (startswith_nonempty s _ Hs). cbn [orb].
      destruct (loads (Py.drop 6 s)) as [c|]; cbn [obind]; [|now apply IH].
      inversion Hall as [|? ? Hc Hr]; subst.
      destruct c as [| | | | |kvs]; try discriminate.
      rewrite (sse_line_well_shaped loads acc kvs Hc). cbn [obind].
      rewrite (IH _ Hr). cbn [map]. now rewrite concat_empty_cons, str_app_assoc.
    + destruct (String.eqb s "" || true); cbn [obind]; now apply IH.
    + destruct (String.eqb s "" || false); cbn [obind]; now apply IH.
Qed.

Lemma sse_line_ill_shaped (loads : string -> option json) (acc l p : string) (c : json) :
  spec_data_payload l = Some p -> loads p = Some c -> spec_well_shaped c = false ->
  exists e, sse_line loads acc l = Raise e.
Proof.
  unfold spec_data_payload, sse_line. cbv zeta. set (s := Py.strip l).
  destruct (Py.startswith s "data: ") eqn:Hs; destruct (String.eqb s "data: [DONE]") eqn:Hd;
    cbn [andb negb]; try discriminate.
  intros Hp. injection Hp as <-. rewrite (startswith_nonempty s _ Hs). cbn [orb].
  intros Hl. rewrite Hl. clear Hl.
  destruct c as [| b | z | str | arr | kvs]; intros Hw; cbn [py_in obind getitem dict_get];
    try (eexists; reflexivity).
  - destruct (Py.contains "error" str); cbn [obind getitem dict_get]; eexists; reflexivity.
  - destruct (existsb _ arr); cbn [obind getitem dict_get]; eexists; reflexivity.
  - unfold spec_well_shaped, get_or in Hw.
    destruct (obj_get kvs "error") as [err|].
    { cbn [obind]. destruct err as [| | | | |e]; cbn [obind dict_get]; eexists; reflexivity. }
    cbn [obind].
    destruct (obj_get kvs "choices") as [ch|]; [|cbn [truthy] in Hw; discriminate].
    destruct (truthy ch) eqn:Ht; [|discriminate].
    destruct ch as [|b|z|str|[|c0 r]|o]; cbn [getindex0 obind dict_get];
      try (eexists; reflexivity).
    + destruct str as [|a str]; cbn [getindex0 obind dict_get]; eexists; reflexivity.
    + destruct c0 as [| | | | |c0]; cbn [obind dict_get]; try (eexists; reflexivity).
      destruct (obj_get c0 "delta") as [[| | | | |d]|]; cbn [obind dict_get];
        try (eexists; reflexivity); [|cbn in Hw; discriminate].
      destruct (obj_get d "content") as [v|]; [|cbn in Hw; discriminate].
      destruct v as [|b|z|str|arr|o]; try discriminate;
        apply negb_false_iff in Hw; rewrite Hw; eexists; reflexivity.
Qed.

Lemma sse_lines_ill_shaped (loads : string -> option json) (lines : list string) (acc : string) :
  Exists (fun c => spec_well_shaped c = false) (spec_parsed_chunks loads lines) ->
  exists e, sse_lines loads acc lines = Raise e.
Proof.
  revert acc. induction lines as [|l r IH]; intros acc Hex; [inversion Hex|].
  cbn [sse_lines]. destruct (sse_line loads acc l) as [a|e] eqn:Hl; cbn [obind]; [|eauto].
  apply IH. cbn [spec_parsed_chunks] in Hex.
  destruct (spec_data_payload l) as [p|] eqn:Hp; [|exact Hex].
  destruct (loads p) as [c|] eqn:Hc; [|exact Hex].
  inversion Hex as [? ? Hbad|? ? Hrest]; subst; [|exact Hrest].
  destruct (sse_line_ill_shaped loads acc l p c Hp Hc Hbad) as [e He]. congruence.
Qed.

Definition sse_stream : string :=
  jtext "data: {'choices':[{'delta':{'content':'Here is '}}]}" ++ String newline (
  jtext "data: {bad json" ++ String newline (
  jtext "data: {'choices':[{'delta':{'content':'https://v.io/'}}]}" ++ String newline (
  jtext "data: {'choices':[{'delta':{'content':'a.mp4'}}]}" ++ String newline (
  "data: [DONE]")))).

Definition sse_null_delta : string :=
  jtext "data: {'choices':[{'delta':{'content':'Here is '}}]}" ++ String newline (
  jtext "data: {'choices':[{'delta':null}]}" ++ String newline (
  jtext "data: {'choices':[{'delta':{'content':'https://v.io/a.mp4'}}]}")).

(** C6, counterexample. A chunk that parses but whose [delta] is [null]
    is not skipped: [None.get] raises [AttributeError], which the
    [except json.JSONDecodeError] clause does not catch, and the whole
    call fails although the other chunks carry a video URL. *)
Theorem C6_parsed_chunk_can_abort :
  handle_video_response "/home/u" Json.loads (mkResp 200 sse_null_delta None) (sample_world [])
  = (Raise AttributeError, sample_world []).
Proof. vm_compute. reflexivity. Qed.

(** C6, amended. When every data line that parses carries a well-shaped
    chunk, the assembled content is the in-order concatenation of the
    [choices[0].delta.content] fragments of the data lines that parse;
    [data: [DONE]], other lines and unparsable payloads add nothing. When
    some data line parses to a chunk of another shape, that chunk is not
    skipped: the assembly raises an exception, and a 200 reply with that
    body makes the call fail with it, the world left as it was, so no
    download happens. *)
Theorem C6_sse_concatenation (loads : string -> option json) (text : string) :
  (Forall (fun c => spec_well_shaped c = true) (spec_parsed_chunks loads (Py.split_on newline text)) ->
   sse_assemble loads text
   = Ok (String.concat "" (map spec_fragment (spec_parsed_chunks loads (Py.split_on newline text)))))
  /\
  (Exists (fun c => spec_well_shaped c = false) (spec_parsed_chunks loads (Py.split_on newline text)) ->
   exists e, sse_assemble loads text = Raise e
     /\ forall (cwd : string) (r : resp) (w : world),
          status r = 200%Z -> Py.strip (body r) = text -> Py.startswith text "data:" = true ->
          handle_video_response cwd loads r w = (Raise e, w)).
Proof.
  split.
  - intros H. unfold sse_assemble. now rewrite (sse_lines_spec loads _ "" H).
  - intros H. destruct (sse_lines_ill_shaped loads _ "" H) as [e He].
    exists e. split; [exact He|]. intros cwd r w Hst Hb Hsse.
    unfold handle_video_response, check_status. rewrite Hst. cbn [Z.eqb Pos.eqb].
    rewrite Hb, (startswith_nonempty _ _ Hsse), Hsse.
    unfold bind, ret, lift, sse_assemble. rewrite He. reflexivity.
Qed.

(** A concrete run of [C6_sse_concatenation]: three chunks, one unparsable
    line and the [[DONE]] line are assembled; a stream with a [null]
    [delta] makes the call fail. *)
Lemma C6_sse_concatenation_witness :
  sse_assemble Json.loads sse_stream = Ok "Here is https://v.io/a.mp4"
  /\ exists e, handle_video_response "/home/u" Json.loads (mkResp 200 sse_null_delta None)
                 (sample_world []) = (Raise e, sample_world []).
Proof.
  split.
  - etransitivity.
    + apply (proj1 (C6_sse_concatenation Json.loads sse_stream)). vm_compute. repeat constructor.
    + vm_compute. reflexivity.
  - destruct (proj2 (C6_sse_concatenation Json.loads (Py.strip sse_null_delta))) as [e [_ H]].
    + vm_compute. apply Exists_cons_tl, Exists_cons_hd. reflexivity.
    + exists e. apply H; vm_compute; reflexivity.
Defined.

(* ------------------------------------------------------------------ *)
(** ** Paths of generated names *)

Module PathFacts.

Definition no_slash (s : string) : bool :=
  forallb (fun c => negb (Ascii.eqb c "/")) (list_ascii_of_string s).

(** A single path component that [normpath] keeps as it is. *)
Definition plain_name (f : string) : bool :=
  no_slash f && negb (String.eqb f "") && negb (String.eqb f ".") && negb (String.eqb f "..").

Lemma split_nonempty (s : ascii) (a : string) : Py.split_on s a <> [].
Proof.
  destruct a as [|c a]; cbn; [discriminate|].
  destruct (Ascii.eqb c s); [discriminate|]. destruct (Py.split_on s a); discriminate.
Qed.

Lemma split_app_sep (s : ascii) (a b : string) :
  Py.split_on s (a ++ String s b) = (Py.split_on s a ++ Py.split_on s b)%list.
Proof.
  induction a as [|c a IH]; cbn [Py.split_on String.append].
  - now rewrite Ascii.eqb_refl.
  - rewrite IH. destruct (Ascii.eqb c s); [reflexivity|].
    pose proof (split_nonempty s a) as Hne.
    destruct (Py.split_on s a) as [|h t]; [congruence | reflexivity].
Qed.

Lemma split_no_slash (f : string) : no_slash f = true -> Py.split_on "/" f = [f].
Proof.
  induction f as [|c f IH]; [reflexivity|]. unfold no_slash. cbn [list_ascii_of_string forallb].
  intros H. apply andb_prop in H as [Hc Hf]. apply negb_true_iff in Hc.
  cbn [Py.split_on]. rewrite Hc, IH by exact Hf. reflexivity.
Qed.

Lemma endswith_slash (a : string) : Py.endswith a "/" = true -> exists w, a = (w ++ "/")%string.
Proof.
  induction a as [|c a IH]; [discriminate|]. intros H.
  destruct a as [|c' a'].
  - unfold Py.endswith in H. cbn in H.
    destruct (Ascii.eqb c "/") eqn:Ec; [|discriminate].
    apply Ascii.eqb_eq in Ec. subst. now exists "".
  - assert (H' : Py.endswith (String c' a') "/" = true).
    { unfold Py.endswith in *. cbn [String.length] in *.
      replace (S (S (String.length a')) - 1) with (S (String.length a')) in H by lia.
      replace (S (String.length a') - 1) with (String.length a') by lia.
      apply andb_prop in H as [_ H]. cbn [substring] in H.
      apply andb_true_intro. split; [apply Nat.leb_le; lia|].
      destruct a'; exact H. }
    destruct (IH H') as [w Hw]. exists (String c w). rewrite Hw. reflexivity.
Qed.

(** [os.path.join(cwd, "output")] ends in the component [output]. *)
Lemma split_join_output (cwd : string) :
  exists L, Py.split_on "/" (Path.join cwd "output") = (L ++ ["output"])%list.
Proof.
  unfold Path.join. replace (Py.startswith "output" "/") with false by reflexivity.
  destruct (String.eqb cwd "") eqn:E; cbn [orb].
  - apply String.eqb_eq in E. subst. now exists [].
  - destruct (Py.endswith cwd "/") eqn:En.
    + destruct (endswith_slash _ En) as [w ->]. exists (Py.split_on "/" w).
      rewrite <- str_app_assoc. cbn [String.append]. now rewrite split_app_sep.
    + exists (Py.split_on "/" cwd). cbn [String.append]. now rewrite split_app_sep.
Qed.

Lemma join_output_name (cwd f : string) :
  Path.join cwd ("output" ++ String "/" f) = (Path.join cwd "output" ++ String "/" f)%string.
Proof.
  unfold Path.join. replace (Py.startswith ("output" ++ String "/" f) "/") with false by reflexivity.
  replace (Py.startswith "output" "/") with false by reflexivity.
  destruct (String.eqb cwd "" || Py.endswith cwd "/"); now rewrite <- str_app_assoc.
Qed.

Lemma join_output_length (cwd : string) : 6 <= String.length (Path.join cwd "output").
Proof.
  unfold Path.join. replace (Py.startswith "output" "/") with false by reflexivity.
  assert (L : forall a b, String.length (a ++ b) = String.length a + String.length b).
  { induction a; cbn; auto. }
  cbv iota. destruct (String.eqb cwd "" || Py.endswith cwd "/"); rewrite L; cbn [String.length String.append]; lia.
Qed.

Lemma startswith_app (x y p : string) :
  String.length p <= String.length x -> Py.startswith (x ++ y) p = Py.startswith x p.
Proof.
  revert x. induction p as [|c p IH]; intros x H.
  { destruct (x ++ y)%string, x; reflexivity. }
  destruct x as [|d x]; cbn in H; [lia|]. cbn [String.append Py.startswith].
  rewrite IH by lia. reflexivity.
Qed.

Lemma startswith_self (x y : string) : Py.startswith (x ++ y) x = true.
Proof.
  induction x as [|c x IH]; [destruct y; reflexivity|].
  cbn. now rewrite Ascii.eqb_refl, IH.
Qed.

Lemma norm_step_plain (i : nat) (acc : list string) (f : string) :
  plain_name f = true -> Path.norm_step i acc f = (acc ++ [f])%list.
Proof.
  unfold plain_name, Path.norm_step. intros H.
  repeat (apply andb_prop in H as [H ?]).
  repeat match goal with Hn : negb _ = true |- _ => apply negb_true_iff in Hn; rewrite Hn end.
  reflexivity.
Qed.

Lemma concat_snoc (C : list string) (x : string) :
  C <> [] -> String.concat "/" (C ++ [x]) = (String.concat "/" C ++ String "/" x)%string.
Proof.
  induction C as [|c C IH]; [congruence|]. intros _.
  destruct C as [|c' C].
  - reflexivity.
  - change (String.concat "/" ((c :: c' :: C) ++ [x]))
      with (c ++ "/" ++ String.concat "/" ((c' :: C) ++ [x]))%string.
    rewrite IH by discriminate. cbn [String.concat].
    now rewrite <- !str_app_assoc.
Qed.

Lemma concat_ne (C : list string) (x : string) :
  x <> "" -> String.concat "/" (C ++ [x]) <> "".
Proof.
  intros Hx. destruct C as [|c C]; [exact Hx|].
  rewrite concat_snoc by discriminate. destruct (String.concat "/" (c :: C)); discriminate.
Qed.

Lemma app_ne_r (a b : string) : b <> "" -> (a ++ b)%string <> "".
Proof. destruct a; cbn; [auto | discriminate]. Qed.

(** The guard's left side for a plain name: the output directory, a slash,
    the name. *)
Lemma abspath_plain (cwd f : string) :
  plain_name f = true ->
  Path.abspath cwd (Path.join "output" f) = (Path.abspath cwd "output" ++ String "/" f)%string.
Proof.
  intros Hp.
  assert (Hs : no_slash f = true) by (unfold plain_name in Hp;
                                       repeat (apply andb_prop in Hp as [Hp ?]); exact Hp).
  assert (Hj : Path.join "output" f = ("output" ++ String "/" f)%string).
  { unfold Path.join. destruct f as [|c f']; [discriminate|].
    cbn [Py.startswith]. unfold no_slash in Hs. cbn in Hs. apply andb_prop in Hs as [Hc _].
    apply negb_true_iff in Hc. rewrite Ascii.eqb_sym, Hc. reflexivity. }
  unfold Path.abspath. rewrite Hj.
  replace (Py.startswith ("output" ++ String "/" f) "/") with false by reflexivity.
  replace (Py.startswith "output" "/") with false by reflexivity.
  rewrite join_output_name.
  generalize (join_output_length cwd) (split_join_output cwd).
  generalize (Path.join cwd "output"). intros X HL [L HLs].
  unfold Path.normpath.
  assert (HX : String.eqb X "" = false) by (destruct X; cbn in HL; [lia | reflexivity]).
  assert (HXf : String.eqb (X ++ String "/" f) "" = false) by (destruct X; cbn in HL; [lia | reflexivity]).
  rewrite HX, HXf.
  rewrite !(startswith_app X (String "/" f)) by (cbn; lia).
  set (i := if Py.startswith X "/" then _ else _).
  rewrite split_app_sep, (split_no_slash f Hs).
  rewrite fold_left_app. cbn [fold_left]. rewrite norm_step_plain by exact Hp.
  rewrite HLs, fold_left_app. cbn [fold_left]. rewrite norm_step_plain by reflexivity.
  set (C := fold_left (Path.norm_step i) L []).
  assert (Hne : String.concat "/" (C ++ ["output"]) <> "") by (apply concat_ne; discriminate).
  rewrite concat_snoc by (destruct C; discriminate).
  destruct (String.eqb (Py.repeat_char "/" i ++ String.concat "/" (C ++ ["output"])) "") eqn:E1.
  - apply String.eqb_eq in E1. exfalso. exact (app_ne_r _ _ Hne E1).
  - rewrite str_app_assoc.
    destruct (String.eqb ((Py.repeat_char "/" i ++ String.concat "/" (C ++ ["output"])) ++ String "/" f) "") eqn:E2.
    + apply String.eqb_eq in E2. exfalso. exact (app_ne_r _ (String "/" f) ltac:(discriminate) E2).
    + reflexivity.
Qed.

Lemma guard_plain (cwd f : string) :
  plain_name f = true -> path_guard cwd (Path.join "output" f) = true.
Proof. intros H. unfold path_guard. rewrite abspath_plain by exact H. apply startswith_self. Qed.

Lemma no_slash_app (a b : string) : no_slash (a ++ b) = no_slash a && no_slash b.
Proof. induction a as [|c a IH]; [reflexivity|]. unfold no_slash in *. cbn. rewrite IH. apply andb_assoc. Qed.

Lemma get_in (k : nat) (s : string) (c : ascii) :
  String.get k s = Some c -> In c (list_ascii_of_string s).
Proof.
  revert k. induction s as [|d s IH]; intros k H; [discriminate|].
  destruct k as [|k]; cbn in H |- *; [left; congruence | right; exact (IH k H)].
Qed.

Lemma digit_no_slash (d : Z) : Ascii.eqb (Py.digit d) "/" = false.
Proof.
  unfold Py.digit. destruct (String.get _ _) as [c|] eqn:E; [|reflexivity].
  apply get_in in E.
  assert (Hall : forallb (fun c => negb (Ascii.eqb c "/"))
                   (list_ascii_of_string "0123456789abcdef") = true) by reflexivity.
  rewrite forallb_forall in Hall. apply Hall in E. now apply negb_true_iff in E.
Qed.

Lemma digits_rev_no_slash (fuel : nat) (base n : Z) (acc : string) :
  no_slash acc = true -> no_slash (Py.digits_rev fuel base n acc) = true.
Proof.
  revert n acc. induction fuel as [|fuel IH]; intros n acc H; [exact H|].
  cbn [Py.digits_rev].
  assert (H' : no_slash (String (Py.digit (n mod base)) acc) = true).
  { unfold no_slash in *. cbn. now rewrite digit_no_slash, H. }
  destruct (n / base =? 0)%Z; [exact H' | now apply IH].
Qed.

Lemma repeat_no_slash (k : nat) : no_slash (Py.repeat_char "0" k) = true.
Proof. induction k; [reflexivity|]. unfold no_slash in *. cbn. exact IHk. Qed.

Lemma zpad_no_slash (base : Z) (w : nat) (n : Z) : no_slash (Py.zpad base w n) = true.
Proof.
  unfold Py.zpad. rewrite no_slash_app, repeat_no_slash. now apply digits_rev_no_slash.
Qed.

Lemma str_nat_no_slash (n : nat) : no_slash (Py.str_nat n) = true.
Proof.
  unfold Py.str_nat, Py.str_Z. destruct (Z.of_nat n <? 0)%Z.
  - cbn [String.append]. unfold no_slash. cbn [list_ascii_of_string forallb].
    fold (no_slash (Py.digits_rev (S (Z.to_nat (Z.log2 (Z.abs (Z.of_nat n))))) 10
                                  (Z.abs (Z.of_nat n)) "")).
    now rewrite digits_rev_no_slash.
  - now apply digits_rev_no_slash.
Qed.

(** A name with an underscore after a prefix is none of [""], [.], [..]. *)
Lemma plain_underscore (a b : string) :
  no_slash (a ++ String "_" b) = true -> plain_name (a ++ String "_" b) = true.
Proof.
  intros H. unfold plain_name. rewrite H.
  destruct a as [|c [|c' [|c'' a]]]; cbn;
    repeat match goal with |- context [Ascii.eqb ?x ?y] => destruct (Ascii.eqb x y) end;
    reflexivity.
Qed.

Lemma image_filename_plain (ts sid : string) (idx : nat) (ext : string) :
  no_slash ts = true -> no_slash sid = true -> no_slash ext = true ->
  plain_name (image_filename ts sid idx ext) = true.
Proof.
  intros H1 H2 H3. unfold image_filename. apply plain_underscore.
  rewrite no_slash_app, H1. unfold no_slash at 1. cbn [list_ascii_of_string forallb].
  fold (no_slash (sid ++ "_" ++ Py.str_nat idx ++ "." ++ ext)).
  rewrite !no_slash_app, H2, str_nat_no_slash, H3. reflexivity.
Qed.

Lemma video_filename_plain (ts sid ext : string) :
  no_slash ts = true -> no_slash sid = true -> no_slash ext = true ->
  plain_name (ts ++ "_" ++ sid ++ "." ++ ext) = true.
Proof.
  intros H1 H2 H3. apply plain_underscore.
  rewrite no_slash_app, H1. unfold no_slash at 1. cbn [list_ascii_of_string forallb].
  fold (no_slash (sid ++ "." ++ ext)). rewrite !no_slash_app, H2, H3. reflexivity.
Qed.

Lemma image_ext_no_slash (ct u : string) : no_slash (image_ext ct u) = true.
Proof. unfold image_ext. destruct (_ || _)%bool; [reflexivity|]. now destruct (_ || _)%bool. Qed.

Lemma video_ext_no_slash (ct u : string) : no_slash (video_ext ct u) = true.
Proof. unfold video_ext. destruct (_ || _)%bool; [reflexivity|]. now destruct (_ || _)%bool. Qed.

(** The pair [stamp] returns, timestamp and short id, has no slash. *)
Lemma stamp_no_slash (w : world) :
  match fst (stamp w) with
  | Ok p => no_slash (fst p) = true /\ no_slash (snd p) = true
  | Raise _ => True
  end.
Proof.
  cbn [stamp fst]. split; [|apply zpad_no_slash].
  rewrite !no_slash_app, !zpad_no_slash. reflexivity.
Qed.

End PathFacts.

(* ------------------------------------------------------------------ *)
(** ** Trace and result invariants of the monad *)

Module Inv.

(** Every event a run of [m] appends satisfies [P]. *)
Definition Extends (P : event -> Prop) {A} (m : M A) : Prop :=
  forall w, exists t, trace (snd (m w)) = (trace w ++ t)%list /\ Forall P t.

(** Every value a run of [m] returns satisfies [Q]. *)
Definition Returns {A} (Q : A -> Prop) (m : M A) : Prop :=
  forall w, match fst (m w) with Ok a => Q a | Raise _ => True end.

Section Rules.

Variable P : event -> Prop.

Lemma ext_ret {A} (a : A) : Extends P (ret a).
Proof. intros w. exists []. split; [now rewrite app_nil_r | constructor]. Qed.

Lemma ext_raise {A} (e : exn) : Extends P (@raise A e).
Proof. intros w. exists []. split; [now rewrite app_nil_r | constructor]. Qed.

Lemma ext_lift {A} (o : outcome A) : Extends P (lift o).
Proof. intros w. exists []. split; [now rewrite app_nil_r | constructor]. Qed.

Lemma ext_bind {A B} (m : M A) (k : A -> M B) :
  Extends P m -> (forall a, Extends P (k a)) -> Extends P (bind m k).
Proof.
  intros Hm Hk w. unfold bind. destruct (Hm w) as [t1 [E1 F1]].
  destruct (m w) as [[a|e] w1]; cbn in E1 |- *.
  - destruct (Hk a w1) as [t2 [E2 F2]]. exists (t1 ++ t2)%list. rewrite E2, E1, app_assoc.
    split; [reflexivity | now apply Forall_app].
  - now exists t1.
Qed.

Lemma ext_catch {A} (m : M A) (h : exn -> M A) :
  Extends P m -> (forall e, Extends P (h e)) -> Extends P (catch m h).
Proof.
  intros Hm Hh w. unfold catch. destruct (Hm w) as [t1 [E1 F1]].
  destruct (m w) as [[a|e] w1]; cbn in E1 |- *.
  - now exists t1.
  - destruct (Hh e w1) as [t2 [E2 F2]]. exists (t1 ++ t2)%list. rewrite E2, E1, app_assoc.
    split; [reflexivity | now apply Forall_app].
Qed.

Lemma ext_emit (e : event) : P e -> Extends P (emit e).
Proof. intros H w. exists [e]. split; [reflexivity | now constructor]. Qed.

Lemma ext_next_reply : Extends P next_reply.
Proof.
  intros w. exists []. unfold next_reply.
  destruct (net w) as [|[r|] rest]; (split; [cbn; now rewrite app_nil_r | constructor]).
Qed.

Lemma ext_stamp : Extends P stamp.
Proof. intros w. exists []. split; [cbn; now rewrite app_nil_r | constructor]. Qed.

Lemma ext_raise_for_status (r : resp) : Extends P (raise_for_status r).
Proof. unfold raise_for_status. destruct (_ && _)%bool; [apply ext_ret | apply ext_raise]. Qed.

Lemma ext_http_post (url : string) (payload : json) :
  P (EPost url payload) -> Extends P (http_post url payload).
Proof.
  intros H. unfold http_post. apply ext_bind; [now apply ext_emit|]. intros _.
  destruct (scheme_ok url); [apply ext_next_reply | apply ext_raise].
Qed.

Lemma ext_http_get (v : json) : (forall u, P (EGet u)) -> Extends P (http_get v).
Proof.
  intros H. unfold http_get. destruct v; try apply ext_raise.
  apply ext_bind; [now apply ext_emit|]. intros _.
  destruct (scheme_ok s); [apply ext_next_reply | apply ext_raise].
Qed.

Lemma ext_sleep (secs : Z) : P (ESleep secs) -> Extends P (sleep secs).
Proof. apply ext_emit. Qed.

Lemma ext_guarded_write (cwd p : string) (d : list Byte.byte) :
  (path_guard cwd p = true -> P (EWrite p d)) -> Extends P (guarded_write cwd p d).
Proof.
  intros H. unfold guarded_write. destruct (path_guard cwd p) eqn:G.
  - now apply ext_emit, H.
  - apply ext_raise.
Qed.

End Rules.

Lemma ret_returns {A} (Q : A -> Prop) (a : A) : Q a -> Returns Q (ret a).
Proof. intros H w. exact H. Qed.

Lemma raise_returns {A} (Q : A -> Prop) (e : exn) : Returns Q (raise e).
Proof. intros w. exact I. Qed.

Lemma true_returns {A} (m : M A) : Returns (fun _ => True) m.
Proof. intros w. destruct (fst (m w)); exact I. Qed.

Lemma bind_returns {A B} (R : A -> Prop) (Q : B -> Prop) (m : M A) (k : A -> M B) :
  Returns R m -> (forall a, R a -> Returns Q (k a)) -> Returns Q (bind m k).
Proof.
  intros Hm Hk w. unfold bind. specialize (Hm w).
  destruct (m w) as [[a|e] w1]; cbn in Hm |- *; [now apply Hk | exact I].
Qed.

Lemma bind_raise_returns {A B} (Q : B -> Prop) (e : exn) (k : A -> M B) :
  Returns Q (bind (raise e) k).
Proof. intros w. exact I. Qed.

Lemma catch_returns {A} (Q : A -> Prop) (m : M A) (h : exn -> M A) :
  Returns Q m -> (forall e, Returns Q (h e)) -> Returns Q (catch m h).
Proof.
  intros Hm Hh w. unfold catch. specialize (Hm w).
  destruct (m w) as [[a|e] w1]; cbn in Hm |- *; [exact Hm | apply Hh].
Qed.

End Inv.

Import Inv.

Ltac ext_solve :=
  repeat match goal with
  | |- Extends _ (bind _ _) => apply ext_bind; [|intros ?]
  | |- Extends _ (catch _ _) => apply ext_catch; [|intros ?]
  | |- Extends _ (ret _) => apply ext_ret
  | |- Extends _ (raise _) => apply ext_raise
  | |- Extends _ (lift _) => apply ext_lift
  | |- Extends _ stamp => apply ext_stamp
  | |- Extends _ next_reply => apply ext_next_reply
  | |- Extends _ (raise_for_status _) => apply ext_raise_for_status
  | |- Extends _ (emit _) => apply ext_emit; cbn; auto
  | |- Extends _ (sleep _) => apply ext_sleep; cbn; auto
  | |- Extends _ (http_get _) => apply ext_http_get; cbn; auto
  | |- Extends _ (http_post _ _) => apply ext_http_post; cbn; auto
  | |- Extends _ (guarded_write _ _ _) => apply ext_guarded_write; cbn; auto
  | |- Extends _ (if ?b then _ else _) => destruct b
  | |- Extends _ (match ?x with _ => _ end) => destruct x
  end.

(** Events that are not a write, or a write the guard lets through. *)
Definition guarded_event (cwd : string) (e : event) : Prop :=
  match e with EWrite p _ => path_guard cwd p = true | _ => True end.

(** A returned name whose joined path passes the guard. *)
Definition guarded_name (cwd f : string) : Prop :=
  path_guard cwd (Path.join "output" f) = true.

Lemma save_b64_loop_ext (P : event -> Prop) (cwd ts sid : string) (idx : nat) (items : list json) :
  (forall p d, path_guard cwd p = true -> P (EWrite p d)) ->
  Extends P (save_b64_loop cwd ts sid idx items).
Proof.
  intros HW. revert idx. induction items as [|it r IH]; intros idx; cbn [save_b64_loop];
    ext_solve; auto.
Qed.

Section SaveInvariants.

Variable P : event -> Prop.
Variable cwd : string.
Hypothesis HW : forall p d, path_guard cwd p = true -> P (EWrite p d).
Hypothesis HG : forall u, P (EGet u).
Hypothesis HS : forall s, P (ESleep s).

Lemma save_url_loop_ext (ts sid : string) (idx : nat) (items : list json) :
  Extends P (save_url_loop cwd ts sid idx items).
Proof.
  revert idx. induction items as [|it r IH]; intros idx; cbn [save_url_loop]; ext_solve; auto.
Qed.

Lemma save_b64_images_ext (data : list json) : Extends P (save_b64_images cwd data).
Proof. unfold save_b64_images. ext_solve. now apply save_b64_loop_ext. Qed.

Lemma save_url_images_ext (data : list json) : Extends P (save_url_images cwd data).
Proof. unfold save_url_images. ext_solve. apply save_url_loop_ext. Qed.

Lemma video_attempt_ext (u ts sid : string) (attempt : nat) :
  Extends P (video_attempt cwd u ts sid attempt).
Proof. unfold video_attempt. ext_solve. Qed.

Lemma video_loop_ext (u ts sid : string) (attempt left : nat) (le : option string) :
  Extends P (video_loop cwd u ts sid attempt left le).
Proof.
  revert attempt le. induction left as [|left IH]; intros attempt le; cbn [video_loop];
    ext_solve; auto using video_attempt_ext.
Qed.

Lemma save_video_from_url_ext (v : json) : Extends P (save_video_from_url cwd v).
Proof. unfold save_video_from_url. ext_solve; apply video_loop_ext. Qed.

End SaveInvariants.

Section SaveReturns.

Variable cwd : string.

Definition plain_ok (f : string) : Prop := PathFacts.plain_name f = true.

Ltac true_step := apply bind_returns with (R := fun _ => True); [apply true_returns|].

Lemma save_b64_loop_returns (ts sid : string) (idx : nat) (items : list json) :
  PathFacts.no_slash ts = true -> PathFacts.no_slash sid = true ->
  Returns (Forall plain_ok) (save_b64_loop cwd ts sid idx items).
Proof.
  intros Hts Hsid. revert idx. induction items as [|it r IH]; intros idx; cbn [save_b64_loop].
  - apply ret_returns. constructor.
  - true_step. intros b _. true_step. intros d _.
    cbv zeta. true_step. intros _ _.
    apply bind_returns with (R := Forall plain_ok); [apply IH|]. intros fs Hfs.
    apply ret_returns. constructor; [|exact Hfs].
    now apply PathFacts.image_filename_plain.
Qed.

Lemma save_url_loop_returns (ts sid : string) (idx : nat) (items : list json) :
  PathFacts.no_slash ts = true -> PathFacts.no_slash sid = true ->
  Returns (Forall plain_ok) (save_url_loop cwd ts sid idx items).
Proof.
  intros Hts Hsid. revert idx. induction items as [|it r IH]; intros idx; cbn [save_url_loop].
  - apply ret_returns. constructor.
  - true_step. intros v _.
    destruct v as [| | |u| |]; try (true_step; intros; apply raise_returns).
    true_step. intros resp0 _. true_step. intros _ _.
    cbv zeta. true_step. intros _ _.
    apply bind_returns with (R := Forall plain_ok); [apply IH|]. intros fs Hfs.
    apply ret_returns. constructor; [|exact Hfs].
    apply PathFacts.image_filename_plain; auto using PathFacts.image_ext_no_slash.
Qed.

Lemma stamp_returns : Returns (fun p => PathFacts.no_slash (fst p) = true
                                        /\ PathFacts.no_slash (snd p) = true) stamp.
Proof. intros w. apply PathFacts.stamp_no_slash. Qed.

Lemma save_b64_images_returns (data : list json) :
  Returns (Forall plain_ok) (save_b64_images cwd data).
Proof.
  unfold save_b64_images. eapply bind_returns; [apply stamp_returns|].
  intros p [H1 H2]. now apply save_b64_loop_returns.
Qed.

Lemma save_url_images_returns (data : list json) :
  Returns (Forall plain_ok) (save_url_images cwd data).
Proof.
  unfold save_url_images. eapply bind_returns; [apply stamp_returns|].
  intros p [H1 H2]. now apply save_url_loop_returns.
Qed.

Definition attempt_ok (r : string + string) : Prop :=
  match r with inl f => plain_ok f | inr _ => True end.

Lemma video_attempt_returns (u ts sid : string) (attempt : nat) :
  PathFacts.no_slash ts = true -> PathFacts.no_slash sid = true ->
  Returns attempt_ok (video_attempt cwd u ts sid attempt).
Proof.
  intros Hts Hsid. unfold video_attempt. apply catch_returns.
  - true_step. intros _ _. true_step. intros r _.
    destruct (status r =? 404)%Z; [now apply ret_returns|].
    true_step. intros _ _.
    destruct (List.length (content r) <? 1000); [now apply ret_returns|].
    cbv zeta. true_step. intros _ _. apply ret_returns.
    apply PathFacts.video_filename_plain; auto using PathFacts.video_ext_no_slash.
  - intros e. destruct e; try apply raise_returns.
    destruct code as [|p|p]; try apply raise_returns.
    repeat (destruct p as [p|p|]; try apply raise_returns); now apply ret_returns.
Qed.

Lemma video_loop_returns (u ts sid : string) (attempt left : nat) (le : option string) :
  PathFacts.no_slash ts = true -> PathFacts.no_slash sid = true ->
  Returns plain_ok (video_loop cwd u ts sid attempt left le).
Proof.
  intros Hts Hsid. revert attempt le.
  induction left as [|left IH]; intros attempt le; cbn [video_loop].
  - apply raise_returns.
  - apply bind_returns with (R := attempt_ok); [now apply video_attempt_returns|].
    intros [f|m] H; [now apply ret_returns | apply IH].
Qed.

Lemma save_video_from_url_returns (v : json) :
  Returns plain_ok (save_video_from_url cwd v).
Proof.
  unfold save_video_from_url. eapply bind_returns; [apply stamp_returns|].
  intros p [H1 H2]. destruct v; try (now apply video_loop_returns);
    (true_step; intros; apply raise_returns).
Qed.

End SaveReturns.

(* ------------------------------------------------------------------ *)
(** ** Claim C1: saved files stay in the output directory *)

(** A saved name [f] joined to [output] resolves to the absolute output
    directory, a slash, and [f], where [f] is a single path component. *)
Definition resolves_inside (cwd f : string) : Prop :=
  PathFacts.no_slash f = true /\ f <> "" /\ f <> "." /\ f <> ".."
  /\ Path.abspath cwd (Path.join "output" f) = (Path.abspath cwd "output" ++ String "/" f)%string.

Lemma plain_resolves_inside (cwd f : string) : plain_ok f -> resolves_inside cwd f.
Proof.
  intros H. pose proof (PathFacts.abspath_plain cwd f H) as E.
  unfold plain_ok, PathFacts.plain_name in H.
  repeat (apply andb_prop in H as [H ?]).
  repeat match goal with Hn : negb _ = true |- _ => apply negb_true_iff, String.eqb_neq in Hn end.
  repeat split; auto.
Qed.

Lemma forall_resolves_inside (cwd : string) (fs : list string) :
  Forall plain_ok fs -> Forall (resolves_inside cwd) fs.
Proof. intros H. eapply Forall_impl; [|exact H]. apply plain_resolves_inside. Qed.

(** C1. For the three save operations ([_save_b64_images],
    [_save_url_images], [_save_video_from_url]) and any world: every file
    they write passes the guard [abspath(filepath).startswith(abspath("output"))];
    every name they return, joined to [output], resolves to the absolute
    output directory followed by a slash and that name, a single path
    component; and a path that fails the guard is refused with
    [ValueError("Invalid file path")] before anything is written. *)
Theorem C1_saved_files_stay_in_output (cwd : string) (data : list json) (v : json) (w : world) :
  (forall p d, path_guard cwd p = false ->
     guarded_write cwd p d w = (Raise (ValueError "Invalid file path"), w))
  /\ (exists t, trace (snd (save_b64_images cwd data w)) = (trace w ++ t)%list
                /\ Forall (guarded_event cwd) t)
  /\ (exists t, trace (snd (save_url_images cwd data w)) = (trace w ++ t)%list
                /\ Forall (guarded_event cwd) t)
  /\ (exists t, trace (snd (save_video_from_url cwd v w)) = (trace w ++ t)%list
                /\ Forall (guarded_event cwd) t)
  /\ match fst (save_b64_images cwd data w) with
     | Ok fs => Forall (resolves_inside cwd) fs | Raise _ => True end
  /\ match fst (save_url_images cwd data w) with
     | Ok fs => Forall (resolves_inside cwd) fs | Raise _ => True end
  /\ match fst (save_video_from_url cwd v w) with
     | Ok f => resolves_inside cwd f | Raise _ => True end.
Proof.
  assert (HW : forall p d, path_guard cwd p = true -> guarded_event cwd (EWrite p d)) by easy.
  assert (HG : forall u, guarded_event cwd (EGet u)) by easy.
  assert (HS : forall s, guarded_event cwd (ESleep s)) by easy.
  split; [intros p d G; unfold guarded_write; now rewrite G|].
  split; [now apply (save_b64_images_ext (guarded_event cwd) cwd HW)|].
  split; [now apply (save_url_images_ext (guarded_event cwd) cwd HW HG)|].
  split; [now apply (save_video_from_url_ext (guarded_event cwd) cwd HW HG HS)|].
  split; [|split].
  - pose proof (save_b64_images_returns cwd data w) as H.
    destruct (fst _); [now apply forall_resolves_inside | exact I].
  - pose proof (save_url_images_returns cwd data w) as H.
    destruct (fst _); [now apply forall_resolves_inside | exact I].
  - pose proof (save_video_from_url_returns cwd v w) as H.
    destruct (fst _); [now apply plain_resolves_inside | exact I].
Qed.

(* ------------------------------------------------------------------ *)
(** ** Claim C2: the video download retry loop *)

(** A reply the loop retries: a 404, or a 2xx body under 1000 bytes. *)
Definition retryable (r : resp) : bool :=
  (status r =? 404)%Z
  || (((200 <=? status r) && (status r <? 300))%Z && (List.length (content r) <? 1000)).

(** A reply the loop saves: 2xx with at least 1000 bytes. *)
Definition ready (r : resp) : bool :=
  ((200 <=? status r) && (status r <? 300))%Z && negb (List.length (content r) <? 1000).

(** The condition the loop records for a retryable reply at attempt [n]
    (counted from 1). *)
Definition condition (r : resp) (n : nat) : string :=
  if (status r =? 404)%Z then "404 Not Found (attempt " ++ Py.str_nat n ++ ")"
  else "File too small (" ++ Py.str_nat (List.length (content r)) ++ " bytes)".

Definition is_sleep (e : event) : bool := match e with ESleep _ => true | _ => false end.

Definition sleeps (t : list event) : list event := filter is_sleep t.

Definition with_net_trace (w : world) (n : list reply) (t : list event) : world :=
  {| net := n; trace := t; clock := clock w; uuid4 := uuid4 w; files := files w; calls := calls w |}.

(** The events of attempt [a]: the wait (from the second attempt on), then
    the GET. *)
Definition attempt_events (url : string) (a : nat) : list event :=
  ((if 0 <? a then [ESleep retry_delay] else []) ++ [EGet url])%list.

Section Retry.

Variable cwd url ts sid : string.
Hypothesis Hurl : scheme_ok url = true.

Lemma video_attempt_retry (a : nat) (r : resp) (rest : list reply) (w : world) :
  retryable r = true -> net w = Reply r :: rest ->
  video_attempt cwd url ts sid a w
  = (Ok (inr (condition r (a + 1))), with_net_trace w rest (trace w ++ attempt_events url a)%list).
Proof.
  intros Hr Hn. destruct w as [n t c u f k]. cbn in Hn. subst n.
  unfold video_attempt, attempt_events, condition, retryable in *.
  cbv [catch bind ret raise sleep emit http_get next_reply raise_for_status lift
       net trace clock uuid4 files calls].
  rewrite Hurl.
  destruct (0 <? a); destruct (status r =? 404)%Z; cbn [orb] in Hr;
    [| apply andb_prop in Hr as [H2 Hl]; rewrite H2, Hl
     | | apply andb_prop in Hr as [H2 Hl]; rewrite H2, Hl];
    now rewrite <- ?app_assoc.
Qed.

Lemma video_attempt_ready (a : nat) (r : resp) (rest : list reply) (w : world) :
  PathFacts.no_slash ts = true -> PathFacts.no_slash sid = true ->
  ready r = true -> net w = Reply r :: rest ->
  video_attempt cwd url ts sid a w
  = (Ok (inl (ts ++ "_" ++ sid ++ "." ++ video_ext (content_type r) url)),
     with_net_trace w rest
       (trace w ++ attempt_events url a
        ++ [EWrite (Path.join "output" (ts ++ "_" ++ sid ++ "." ++ video_ext (content_type r) url))
                   (content r)])%list).
Proof.
  intros Hts Hsid Hr Hn. destruct w as [n t c u f k]. cbn in Hn. subst n.
  unfold ready in Hr. apply andb_prop in Hr as [H2 Hl]. apply negb_true_iff in Hl.
  assert (H404 : (status r =? 404)%Z = false).
  { apply andb_prop in H2 as [A B]. apply Z.leb_le in A. apply Z.ltb_lt in B.
    apply Z.eqb_neq. lia. }
  unfold video_attempt, attempt_events.
  destruct (0 <? a);
  cbv [catch bind ret raise sleep emit http_get next_reply raise_for_status lift
       guarded_write write_file net trace clock uuid4 files calls];
  rewrite Hurl, H404, H2, Hl;
  rewrite (PathFacts.guard_plain cwd _
             (PathFacts.video_filename_plain ts sid _ Hts Hsid (PathFacts.video_ext_no_slash _ _)));
  now rewrite <- ?app_assoc.
Qed.

(** The condition recorded after the retryable replies [rs], starting at
    attempt [a] with [le]. *)
Definition last_condition (rs : list resp) (a : nat) (le : option string) : option string :=
  match rs with
  | [] => le
  | _ => Some (condition (last rs (mkResp 0 "" None)) (a + List.length rs))
  end.

Lemma video_loop_retries (rs : list resp) :
  forall a l le w rest,
  Forall (fun x => retryable x = true) rs -> List.length rs <= l ->
  net w = (map Reply rs ++ rest)%list ->
  video_loop cwd url ts sid a l le w
  = video_loop cwd url ts sid (a + List.length rs) (l - List.length rs) (last_condition rs a le)
      (with_net_trace w rest (trace w ++ flat_map (attempt_events url) (seq a (List.length rs)))%list).
Proof.
  induction rs as [|r rs IH]; intros a l le w rest Hall Hlen Hn.
  - cbn [List.length seq flat_map last_condition]. rewrite Nat.add_0_r, Nat.sub_0_r, app_nil_r.
    destruct w as [n t c u f k]. cbn in Hn |- *. now subst n.
  - inversion Hall as [|? ? Hr Hrs]; subst.
    destruct l as [|l]; cbn [List.length] in Hlen; [lia|].
    cbn [video_loop]. unfold bind at 1.
    rewrite (video_attempt_retry a r (map Reply rs ++ rest) w Hr Hn).
    cbv beta iota.
    rewrite (IH (S a) l _ (with_net_trace w (map Reply rs ++ rest) (trace w ++ attempt_events url a))
               rest Hrs ltac:(lia) eq_refl).
    replace (S a + List.length rs) with (a + List.length (r :: rs)) by (cbn; lia).
    replace (l - List.length rs) with (S l - List.length (r :: rs)) by reflexivity.
    f_equal.
    + destruct rs as [|r' rs]; cbn [last_condition]; [reflexivity|].
      f_equal. f_equal. cbn [List.length]. lia.
    + unfold with_net_trace. cbn [trace net clock uuid4 files calls List.length seq flat_map].
      now rewrite app_assoc.
Qed.

End Retry.

Lemma sleeps_attempts_pos (url : string) (k a : nat) :
  0 < a -> sleeps (flat_map (attempt_events url) (seq a k)) = repeat (ESleep retry_delay) k.
Proof.
  revert a. induction k as [|k IH]; intros a Ha; [reflexivity|].
  cbn [seq flat_map]. unfold sleeps in *. rewrite filter_app, IH by lia.
  unfold attempt_events. destruct (0 <? a) eqn:E; [reflexivity|]. apply Nat.ltb_ge in E. lia.
Qed.

Lemma sleeps_attempts (url : string) (k : nat) :
  sleeps (flat_map (attempt_events url) (seq 0 (S k))) = repeat (ESleep retry_delay) k.
Proof.
  cbn [seq flat_map]. unfold sleeps. rewrite filter_app.
  fold (sleeps (flat_map (attempt_events url) (seq 1 k))).
  rewrite sleeps_attempts_pos by lia. reflexivity.
Qed.

Lemma stamp_shape (w : world) :
  exists p w', stamp w = (Ok p, w') /\ net w' = net w /\ trace w' = trace w
               /\ PathFacts.no_slash (fst p) = true /\ PathFacts.no_slash (snd p) = true.
Proof.
  pose proof (PathFacts.stamp_no_slash w) as H.
  eexists _, _. split; [reflexivity|]. split; [reflexivity|]. split; [reflexivity|]. exact H.
Qed.

(** C2. For a download URL httpx accepts: when the first [k] replies,
    [k < 12], are each a 404 or a 2xx body under 1000 bytes and reply
    [k + 1] is a 2xx body of at least 1000 bytes, the download succeeds and
    exactly [k] waits of [retry_delay] (10 s) are taken; when all 12 replies
    are of the retryable kind, the call fails with the terminal [ValueError]
    that reports the condition of the last attempt, after 11 waits. *)
Theorem C2_video_retry_loop (cwd url : string) (Hurl : scheme_ok url = true) :
  (forall (rs : list resp) (r : resp) (rest : list reply) (w : world),
     Forall (fun x => retryable x = true) rs -> List.length rs < max_retries ->
     ready r = true -> net w = (map Reply rs ++ Reply r :: rest)%list ->
     (exists f, fst (save_video_from_url cwd (JStr url) w) = Ok f)
     /\ sleeps (trace (snd (save_video_from_url cwd (JStr url) w)))
        = (sleeps (trace w) ++ repeat (ESleep retry_delay) (List.length rs))%list)
  /\ (forall (rs : list resp) (rest : list reply) (w : world),
     Forall (fun x => retryable x = true) rs -> List.length rs = max_retries ->
     net w = (map Reply rs ++ rest)%list ->
     fst (save_video_from_url cwd (JStr url) w)
     = Raise (ValueError ("Video download failed after 12 attempts (120s). Last error: "
                          ++ condition (last rs (mkResp 0 "" None)) 12))
     /\ sleeps (trace (snd (save_video_from_url cwd (JStr url) w)))
        = (sleeps (trace w) ++ repeat (ESleep retry_delay) 11)%list).
Proof.
  split.
  - intros rs r rest w Hall Hlen Hr Hn.
    destruct (stamp_shape w) as [[ts sid] [w' [Es [Nn [Tt [H1 H2]]]]]].
    set (T := (trace w' ++ flat_map (attempt_events url) (seq 0 (List.length rs)))%list).
    set (f := (ts ++ "_" ++ sid ++ "." ++ video_ext (content_type r) url)%string).
    assert (E : save_video_from_url cwd (JStr url) w
                = (Ok f, with_net_trace (with_net_trace w' (Reply r :: rest) T) rest
                           (T ++ attempt_events url (0 + List.length rs)
                              ++ [EWrite (Path.join "output" f) (content r)])%list)).
    { unfold save_video_from_url, bind at 1. rewrite Es. cbv beta iota. cbn [fst snd].
      rewrite (video_loop_retries cwd url ts sid Hurl rs 0 max_retries None w' (Reply r :: rest)
                 Hall ltac:(unfold max_retries in *; lia) ltac:(now rewrite Nn)).
      unfold max_retries in *.
      replace (12 - List.length rs) with (S (11 - List.length rs)) by lia.
      cbn [video_loop]. unfold bind at 1.
      erewrite (video_attempt_ready cwd url ts sid Hurl _ r rest) by (eauto; reflexivity).
      reflexivity. }
    rewrite E. cbn [fst snd]. split; [eexists; reflexivity|].
    unfold with_net_trace. cbn [trace]. unfold T. rewrite Tt.
    rewrite !app_assoc. unfold sleeps. rewrite !filter_app.
    fold (sleeps (trace w)). rewrite <- !app_assoc. f_equal.
    cbn [filter is_sleep]. rewrite app_nil_r, <- filter_app.
    fold (sleeps (flat_map (attempt_events url) (seq 0 (List.length rs)) ++ attempt_events url (0 + List.length rs))%list).
    rewrite Nat.add_0_l.
    replace (flat_map (attempt_events url) (seq 0 (List.length rs)) ++ attempt_events url (List.length rs))%list
      with (flat_map (attempt_events url) (seq 0 (S (List.length rs)))).
    + apply sleeps_attempts.
    + rewrite seq_S, flat_map_app. cbn [flat_map]. now rewrite app_nil_r.
  - intros rs rest w Hall Hlen Hn.
    destruct (stamp_shape w) as [[ts sid] [w' [Es [Nn [Tt [H1 H2]]]]]].
    assert (E : save_video_from_url cwd (JStr url) w
                = video_loop cwd url ts sid 12 0 (last_condition rs 0 None)
                    (with_net_trace w' rest
                       (trace w' ++ flat_map (attempt_events url) (seq 0 12))%list)).
    { unfold save_video_from_url, bind at 1. rewrite Es. cbv beta iota. cbn [fst snd].
      rewrite (video_loop_retries cwd url ts sid Hurl rs 0 max_retries None w' rest
                 Hall ltac:(lia) ltac:(now rewrite Nn)).
      now rewrite Hlen. }
    rewrite E. unfold max_retries in Hlen.
    destruct rs as [|r0 rs']; [discriminate|].
    split.
    + cbn [video_loop last_condition]. unfold raise. cbn [fst]. rewrite <- Hlen. reflexivity.
    + cbn [video_loop]. unfold raise, with_net_trace. cbn [snd trace]. rewrite Tt.
      unfold sleeps. rewrite filter_app. f_equal.
Qed.

Lemma C2_video_retry_loop_witness :
  (exists f, fst (save_video_from_url "/home/u" (JStr "https://cdn.x/v.mp4")
                    (sample_world [Reply (mkResp 404 "" None); Reply (mkResp 404 "" None);
                                   Reply (mkResp 200 (Py.repeat_char "x" 5000) (Some "video/mp4"))])) = Ok f)
  /\ sleeps (trace (snd (save_video_from_url "/home/u" (JStr "https://cdn.x/v.mp4")
                    (sample_world [Reply (mkResp 404 "" None); Reply (mkResp 404 "" None);
                                   Reply (mkResp 200 (Py.repeat_char "x" 5000) (Some "video/mp4"))]))))
     = [ESleep retry_delay; ESleep retry_delay].
Proof.
  destruct (C2_video_retry_loop "/home/u" "https://cdn.x/v.mp4" eq_refl) as [H _].
  apply (H [mkResp 404 "" None; mkResp 404 "" None]
           (mkResp 200 (Py.repeat_char "x" 5000) (Some "video/mp4")) []
           (sample_world [Reply (mkResp 404 "" None); Reply (mkResp 404 "" None);
                          Reply (mkResp 200 (Py.repeat_char "x" 5000) (Some "video/mp4"))])).
  - repeat constructor.
  - vm_compute. lia.
  - vm_compute. reflexivity.
  - reflexivity.
Defined.

(* ------------------------------------------------------------------ *)
(** ** Claim C3: image batching *)

(** The batch sizes [min(remaining, BATCH_SIZE)] the spec describes:
    batches of two while more than one image remains, then one. *)
Fixpoint batch_sizes (n : nat) : list nat :=
  match n with
  | O => []
  | S O => [1]
  | S (S r) => 2 :: batch_sizes r
  end.

Section SpecBatches.

Variable batch : nat -> M (list string).

(** The spec's reading of the loop: issue the batches in order and
    concatenate their results; a failure of the first batch propagates,
    a failure of a later one returns what the earlier ones gave. *)
Fixpoint run_batches (first : bool) (sizes : list nat) (acc : list string)
  : M (list string) :=
  match sizes with
  | [] => ret acc
  | k :: ks =>
      r <- catch (emit (EBatch k) ;;; l <- batch k ;; ret (inl l)) (fun e => ret (inr e)) ;;
      match r with
      | inl l => run_batches false ks (acc ++ l)%list
      | inr e => if first then raise e else ret acc
      end
  end.

End SpecBatches.

Definition nonempty {A} (l : list A) : Prop := l <> [].

Lemma lift_returns {A} (o : outcome A) : Returns (fun a => o = Ok a) (lift o).
Proof. intros w. destruct o; reflexivity. Qed.

Ltac any_step := apply bind_returns with (R := fun _ => True); [apply true_returns|].

Lemma save_b64_images_nonempty (cwd : string) (items : list json) :
  items <> [] -> Returns nonempty (save_b64_images cwd items).
Proof.
  intros Hne. unfold save_b64_images. any_step. intros p _.
  destruct items as [|it r]; [congruence|]. cbn [save_b64_loop].
  any_step. intros b _. any_step. intros d _. cbv zeta. any_step. intros _ _.
  any_step. intros fs _. apply ret_returns. discriminate.
Qed.

Lemma save_url_images_nonempty (cwd : string) (items : list json) :
  items <> [] -> Returns nonempty (save_url_images cwd items).
Proof.
  intros Hne. unfold save_url_images. any_step. intros p _.
  destruct items as [|it r]; [congruence|]. cbn [save_url_loop].
  any_step. intros v _.
  destruct v as [| | |u| |]; try (any_step; intros; apply raise_returns).
  any_step. intros resp0 _. any_step. intros _ _.
  cbv zeta. any_step. intros _ _. any_step. intros fs _. apply ret_returns. discriminate.
Qed.

(** [d[0]] succeeding means [for item in d] visits at least one item. *)
Lemma getindex0_iter (d x : json) :
  getindex0 d = Ok x -> exists items, py_iter d = Ok items /\ items <> [].
Proof.
  destruct d as [| | |s|l|o]; cbn; try discriminate.
  - destruct s as [|c s]; [discriminate|]. intros _. eexists; split; [reflexivity|]. discriminate.
  - destruct l as [|y l]; [discriminate|]. intros _. eexists; split; [reflexivity|]. discriminate.
Qed.

Lemma map_outcome_length {A B} (f : A -> outcome B) (l : list A) :
  forall l', map_outcome f l = Ok l' -> List.length l' = List.length l.
Proof.
  induction l as [|x r IH]; cbn; intros l' H.
  - now injection H as <-.
  - destruct (f x); [|discriminate]. cbn in H.
    destruct (map_outcome f r) as [ys|]; [|discriminate]. cbn in H.
    injection H as <-. cbn. now rewrite (IH ys eq_refl).
Qed.

Lemma nonempty_length {A B} (l : list A) (l' : list B) :
  List.length l' = List.length l -> l <> [] -> l' <> [].
Proof. destruct l, l'; cbn; congruence. Qed.

Section BatchNonempty.

Variable cwd : string.
Variable loads : string -> option json.

Lemma b64_attempt_nonempty (s : settings) (prompt : string) (n : Z) :
  Returns nonempty (b64_attempt cwd loads s prompt n).
Proof.
  unfold b64_attempt.
  any_step. intros r _. any_step. intros _ _. any_step. intros data _. any_step. intros _ _.
  any_step. intros ok _. destruct ok; [|apply raise_returns].
  any_step. intros d _.
  apply bind_returns with (1 := lift_returns _). intros x Hx.
  destruct (getindex0_iter d x Hx) as [items [Hit Hne]].
  any_step. intros b _. any_step. intros u _. any_step. intros is_url _.
  destruct is_url.
  - apply bind_returns with (1 := lift_returns _). intros items0 H0.
    rewrite Hit in H0. injection H0 as ->.
    apply bind_returns with (1 := lift_returns _). intros items' H1.
    apply save_url_images_nonempty.
    exact (nonempty_length _ _ (map_outcome_length _ _ _ H1) Hne).
  - destruct (truthy b).
    + apply bind_returns with (1 := lift_returns _). intros items0 H0.
      rewrite Hit in H0. injection H0 as ->. now apply save_b64_images_nonempty.
    + destruct (truthy u); [|apply raise_returns].
      apply bind_returns with (1 := lift_returns _). intros items0 H0.
      rewrite Hit in H0. injection H0 as ->. now apply save_url_images_nonempty.
Qed.

Lemma url_fallback_nonempty (s : settings) (prompt : string) (n : Z) :
  Returns nonempty (url_fallback cwd loads s prompt n).
Proof.
  unfold url_fallback.
  any_step. intros r _. any_step. intros _ _. any_step. intros data _. any_step. intros _ _.
  any_step. intros ok _. destruct ok; [|apply raise_returns].
  any_step. intros d _.
  apply bind_returns with (1 := lift_returns _). intros x Hx.
  destruct (getindex0_iter d x Hx) as [items [Hit Hne]].
  any_step. intros has_url _. destruct has_url; [|apply raise_returns].
  apply bind_returns with (1 := lift_returns _). intros items0 H0.
  rewrite Hit in H0. injection H0 as ->. now apply save_url_images_nonempty.
Qed.

(** A batch that succeeds has saved at least one file. *)
Lemma generate_batch_nonempty (s : settings) (prompt : string) (n : Z) :
  Returns nonempty (generate_batch cwd loads s prompt n).
Proof.
  unfold generate_batch. apply catch_returns; [apply b64_attempt_nonempty|].
  intros e. destruct (fallback_applies e); [apply url_fallback_nonempty | apply raise_returns].
Qed.

End BatchNonempty.

Section LoopRefines.

Variable batch : nat -> M (list string).
Hypothesis batch_nonempty : forall k, Returns nonempty (batch k).

Lemma is_nil_app (acc l : list string) : l <> [] -> (acc ++ l)%list <> [].
Proof. destruct acc, l; cbn; congruence. Qed.

Lemma batch_step_refines (k : nat) (ks : list nat) (acc : list string)
  (cont : list string -> M (list string)) (w : world) :
  (forall l w', l <> [] -> cont (acc ++ l)%list w' = run_batches batch false ks (acc ++ l)%list w') ->
  batch_step batch k acc cont w
  = run_batches batch (match acc with [] => true | _ => false end) (k :: ks) acc w.
Proof.
  intros Hk. unfold batch_step. cbn [run_batches]. unfold bind, catch, emit.
  pose proof (batch_nonempty k) as Hb.
  match goal with |- context [batch k ?w1] =>
    specialize (Hb w1); destruct (batch k w1) as [[l|e] w2] end;
  cbn in Hb |- *.
  - rewrite Hk by exact Hb. destruct acc; reflexivity.
  - destruct acc; reflexivity.
Qed.

Lemma images_loop_refines (m : nat) : forall acc w,
  images_loop batch m acc w
  = run_batches batch (match acc with [] => true | _ => false end) (batch_sizes m) acc w.
Proof.
  induction m as [m IH] using lt_wf_ind. intros acc w.
  destruct m as [|[|r]].
  - destruct acc; reflexivity.
  - cbn [images_loop batch_sizes]. apply batch_step_refines.
    intros l w' _. destruct (acc ++ l)%list; reflexivity.
  - cbn [images_loop batch_sizes]. apply batch_step_refines.
    intros l w' Hl. rewrite IH by lia.
    destruct (acc ++ l)%list eqn:E; [exact (False_ind _ (is_nil_app acc l Hl E))|reflexivity].
Qed.

End LoopRefines.

Lemma batch_sizes_bounded (m : nat) :
  Forall (fun k => 1 <= k <= BATCH_SIZE) (batch_sizes m) /\ list_sum (batch_sizes m) = m.
Proof.
  induction m as [m IH] using lt_wf_ind.
  destruct m as [|[|r]]; cbn [batch_sizes list_sum fold_right].
  - split; [constructor | reflexivity].
  - split; [repeat constructor; unfold BATCH_SIZE; lia | reflexivity].
  - destruct (IH r ltac:(lia)) as [H1 H2]. split.
    + constructor; [unfold BATCH_SIZE; lia | exact H1].
    + unfold list_sum in *. cbn [fold_right]. lia.
Qed.

(** C3. With no video config, [generate_images] issues the batches of
    [batch_sizes n] (each of one or two images, summing to [n]; for five
    images [2; 2; 1]) in order and concatenates their results; when a batch
    fails, the error propagates if it is the first batch, and otherwise the
    names saved by the earlier batches are returned. *)
Theorem C3_batches_in_order_partial_results (cwd : string) (loads : string -> option json)
  (s : settings) (prompt : string) (n : Z) (source_image : option string) :
  (forall w, generate_images cwd loads s prompt n JNull source_image w
             = run_batches (fun k => generate_batch cwd loads s prompt (Z.of_nat k))
                           true (batch_sizes (Z.to_nat n)) [] w)
  /\ Forall (fun k => 1 <= k <= BATCH_SIZE) (batch_sizes (Z.to_nat n))
  /\ list_sum (batch_sizes (Z.to_nat n)) = Z.to_nat n
  /\ batch_sizes 5 = [2; 2; 1].
Proof.
  split; [|split; [apply batch_sizes_bounded|split; [apply batch_sizes_bounded|reflexivity]]].
  intros w. unfold generate_images. cbn [truthy].
  apply images_loop_refines. intros k. apply generate_batch_nonempty.
Qed.

(* ------------------------------------------------------------------ *)
(** ** Claim C5: a URL in the [b64_json] field *)

Definition is_obj (v : json) : bool := match v with JObj _ => true | _ => false end.

Lemma obj_get_set (kvs : list (string * json)) (k : string) (v : json) :
  obj_get (obj_set kvs k v) k = Some v.
Proof.
  induction kvs as [|[k' v'] r IH]; cbn [obj_set obj_get].
  - now rewrite String.eqb_refl.
  - destruct (String.eqb k k') eqn:E; cbn [obj_get].
    + apply String.eqb_eq in E. subst k'. now rewrite String.eqb_refl.
    + rewrite E. exact IH.
Qed.

Lemma startswith_http_nonempty (u : string) : Py.startswith u "http" = true -> u <> "".
Proof. destruct u; [discriminate | intros _; discriminate]. Qed.

Lemma map_outcome_objs (items : list json) :
  forallb is_obj items = true -> exists items', map_outcome redirect_item items = Ok items'.
Proof.
  induction items as [|it r IH]; cbn; [eauto|].
  destruct it; try discriminate. cbn. intros H. destruct (IH H) as [ys E]. rewrite E.
  eexists; reflexivity.
Qed.

(** The item [redirect_item] makes downloads the former [b64_json] value. *)
Lemma redirect_item_url (it it' : json) :
  redirect_item it = Ok it' ->
  forall kvs v, it = JObj kvs -> obj_get kvs "b64_json" = Some v -> getitem it' "url" = Ok v.
Proof.
  intros E kvs v -> Hv. cbn in E. rewrite Hv in E. injection E as <-.
  cbn. now rewrite obj_get_set.
Qed.

Lemma map_outcome_forall2 {A B} (f : A -> outcome B) (P : A -> B -> Prop) (l : list A) :
  (forall x y, f x = Ok y -> P x y) ->
  forall l', map_outcome f l = Ok l' -> Forall2 P l l'.
Proof.
  intros HP. induction l as [|x r IH]; cbn; intros l' E.
  - injection E as <-. constructor.
  - destruct (f x) as [y|] eqn:Ex; [|discriminate]. cbn in E.
    destruct (map_outcome f r) as [ys|]; [|discriminate]. cbn in E.
    injection E as <-. constructor; [now apply HP | now apply IH].
Qed.

(** C5. When the [b64_json] request is answered with status 200, a JSON
    object without ["error"], and a non-empty ["data"] list of objects whose
    first item's [b64_json] is a string starting with "http", [_generate_batch]'s first attempt is
    exactly [_save_url_images] on the redirected items, one per original
    item, each of which is downloaded from its former [b64_json] value;
    no item is base64-decoded. *)
Theorem C5_b64_url_redirect (cwd : string) (loads : string -> option json)
  (s : settings) (prompt : string) (n : Z) (r : resp) (rest : list reply) (w : world)
  (kvs : list (string * json)) (items : list json) (first_kvs : list (string * json))
  (u : string) :
  scheme_ok (images_endpoint s) = true ->
  net w = Reply r :: rest ->
  status r = 200%Z ->
  loads (body r) = Some (JObj kvs) ->
  obj_get kvs "error" = None ->
  obj_get kvs "data" = Some (JArr (JObj first_kvs :: items)) ->
  obj_get first_kvs "b64_json" = Some (JStr u) ->
  Py.startswith u "http" = true ->
  forallb is_obj items = true ->
  exists items',
    map_outcome redirect_item (JObj first_kvs :: items) = Ok items'
    /\ Forall2 (fun it it' => forall kvs v, it = JObj kvs -> obj_get kvs "b64_json" = Some v ->
                                            getitem it' "url" = Ok v)
               (JObj first_kvs :: items) items'
    /\ b64_attempt cwd loads s prompt n w
       = save_url_images cwd items'
           (with_net_trace w rest
              (trace w ++ [EPost (images_endpoint s) (image_payload (model s) prompt n "b64_json")])%list).
Proof.
  intros Hsch Hnet Hst Hl Herr Hdata Hb64 Hhttp Hobjs.
  destruct (map_outcome_objs (JObj first_kvs :: items) Hobjs) as [items' Hm].
  exists items'. split; [exact Hm|]. split.
  { eapply map_outcome_forall2; [exact redirect_item_url | exact Hm]. }
  pose proof (startswith_http_nonempty u Hhttp) as Hu.
  unfold b64_attempt.
  cbv [bind ret lift raise http_post emit next_reply check_status resp_json raise_if_error
       has_items py_in getitem py_len getindex0 dict_get py_startswith py_iter truthy].
  cbn [net trace clock uuid4 files calls].
  rewrite Hsch, Hnet. cbv iota beta. cbn [net trace clock uuid4 files calls]. rewrite Hst.
  cbv iota beta. rewrite Hl, Herr. cbv iota beta.
  rewrite Hdata. cbv iota beta. rewrite Hb64, Hhttp.
  replace (negb (u =? "")%string) with true
    by (destruct (String.eqb_spec u ""); [congruence | reflexivity]).
  cbv iota beta. rewrite Hm. reflexivity.
Qed.

Definition img_settings : settings := mkSettings "https://api.example.com/" "sk" "img-1" None.

Definition b64_url_body : string :=
  jtext "{'data':[{'b64_json':'https://img.example.com/a.png'},{'b64_json':'https://img.example.com/b.png'}]}".

Definition b64_url_world : world :=
  sample_world [Reply (mkResp 200 b64_url_body None);
                Reply (mkResp 200 "PNG-A" (Some "image/png"));
                Reply (mkResp 200 "PNG-B" (Some "image/png"))].

Definition is_get (e : event) : bool := match e with EGet _ => true | _ => false end.

Lemma C5_b64_url_redirect_witness :
  (exists items',
    map_outcome redirect_item
      [JObj [("b64_json", JStr "https://img.example.com/a.png")];
       JObj [("b64_json", JStr "https://img.example.com/b.png")]] = Ok items'
    /\ Forall2 (fun it it' => forall kvs v, it = JObj kvs -> obj_get kvs "b64_json" = Some v ->
                                            getitem it' "url" = Ok v)
               [JObj [("b64_json", JStr "https://img.example.com/a.png")];
                JObj [("b64_json", JStr "https://img.example.com/b.png")]] items'
    /\ b64_attempt "/home/u" Json.loads img_settings "a cat" 2 b64_url_world
       = save_url_images "/home/u" items'
           (with_net_trace b64_url_world (List.tl (net b64_url_world))
              (trace b64_url_world ++ [EPost (images_endpoint img_settings)
                                         (image_payload (model img_settings) "a cat" 2 "b64_json")])%list))
  /\ filter is_get (trace (snd (generate_batch "/home/u" Json.loads img_settings "a cat" 2 b64_url_world)))
     = [EGet "https://img.example.com/a.png"; EGet "https://img.example.com/b.png"]
  /\ fst (generate_batch "/home/u" Json.loads img_settings "a cat" 2 b64_url_world)
     = Ok ["20261016_090503_deadbeef_1.png"; "20261016_090503_deadbeef_2.png"].
Proof.
  split; [|split; vm_compute; reflexivity].
  apply (C5_b64_url_redirect "/home/u" Json.loads img_settings "a cat" 2
           (mkResp 200 b64_url_body None) (List.tl (net b64_url_world)) b64_url_world
           [("data", JArr [JObj [("b64_json", JStr "https://img.example.com/a.png")];
                           JObj [("b64_json", JStr "https://img.example.com/b.png")]])]
           [JObj [("b64_json", JStr "https://img.example.com/b.png")]]
           [("b64_json", JStr "https://img.example.com/a.png")]
           "https://img.example.com/a.png"); vm_compute; reflexivity.
Defined.

(* ------------------------------------------------------------------ *)
(** ** Claim C8: the single [url] fallback of [_generate_batch] *)

Definition is_post (e : event) : bool := match e with EPost _ _ => true | _ => false end.

(** The requests to the image API in a trace. *)
Definition posts (t : list event) : list event := filter is_post t.

Definition not_post (e : event) : Prop := is_post e = false.

Lemma posts_none (t : list event) : Forall not_post t -> posts t = [].
Proof.
  induction 1 as [|e t He _ IH]; [reflexivity|]. unfold posts in *. cbn. now rewrite He.
Qed.

Lemma contains_prefix (p s : string) : Py.contains p (p ++ s) = true.
Proof. destruct p; [destruct s; reflexivity|]. cbn. now rewrite Ascii.eqb_refl, PathFacts.startswith_self. Qed.

Section Fallback.

Variable cwd : string.
Variable loads : string -> option json.

Lemma save_url_images_no_post (items : list json) : Extends not_post (save_url_images cwd items).
Proof. apply save_url_images_ext; reflexivity. Qed.

Lemma save_b64_images_no_post (items : list json) : Extends not_post (save_b64_images cwd items).
Proof. apply save_b64_images_ext; reflexivity. Qed.

(** A request to the image API followed by steps that post nothing. *)
Lemma post_then {A} (url : string) (p : json) (k : resp -> M A) :
  (forall r, Extends not_post (k r)) ->
  forall w, exists t, trace (snd (bind (http_post url p) k w)) = (trace w ++ EPost url p :: t)%list
                      /\ Forall not_post t.
Proof.
  intros Hk w.
  set (w1 := {| net := net w; trace := (trace w ++ [EPost url p])%list; clock := clock w;
                uuid4 := uuid4 w; files := files w; calls := calls w |}).
  change (bind (http_post url p) k w)
    with (bind (if scheme_ok url then next_reply else raise TransportError) k w1).
  assert (Hx : Extends not_post (bind (if scheme_ok url then next_reply else raise TransportError) k)).
  { apply ext_bind; [destruct (scheme_ok url); ext_solve | exact Hk]. }
  destruct (Hx w1) as [t [Et Ft]]. exists t. split; [|exact Ft].
  rewrite Et. cbn [w1 trace]. now rewrite <- app_assoc.
Qed.

Ltac no_post_solve :=
  unfold check_status, resp_json, raise_if_error, has_items; ext_solve;
  auto using save_url_images_no_post, save_b64_images_no_post.

Lemma b64_attempt_posts (s : settings) (prompt : string) (n : Z) (w : world) :
  exists t, trace (snd (b64_attempt cwd loads s prompt n w))
            = (trace w ++ EPost (images_endpoint s) (image_payload (model s) prompt n "b64_json") :: t)%list
            /\ Forall not_post t.
Proof. unfold b64_attempt. apply post_then. intros r. no_post_solve. Qed.

Lemma url_fallback_posts (s : settings) (prompt : string) (n : Z) (w : world) :
  exists t, trace (snd (url_fallback cwd loads s prompt n w))
            = (trace w ++ EPost (images_endpoint s) (image_payload (model s) prompt n "url") :: t)%list
            /\ Forall not_post t.
Proof. unfold url_fallback. apply post_then. intros r. no_post_solve. Qed.

(** The requests [_generate_batch] sends: the [b64_json] one, then the
    [url] one exactly when the first attempt raised an exception the
    [except (KeyError, ValueError)] clause does not re-raise. *)
Lemma generate_batch_posts (s : settings) (prompt : string) (n : Z) (w : world) :
  posts (trace (snd (generate_batch cwd loads s prompt n w)))
  = (posts (trace w)
     ++ EPost (images_endpoint s) (image_payload (model s) prompt n "b64_json")
     :: match fst (b64_attempt cwd loads s prompt n w) with
        | Raise e => if fallback_applies e
                     then [EPost (images_endpoint s) (image_payload (model s) prompt n "url")]
                     else []
        | Ok _ => []
        end)%list.
Proof.
  destruct (b64_attempt_posts s prompt n w) as [t1 [E1 F1]].
  unfold generate_batch, catch.
  destruct (b64_attempt cwd loads s prompt n w) as [[a|e] w1]; cbn [fst snd] in E1 |- *.
  - rewrite E1. unfold posts. rewrite filter_app. cbn [filter is_post].
    fold (posts t1). now rewrite (posts_none t1 F1).
  - destruct (fallback_applies e).
    + destruct (url_fallback_posts s prompt n w1) as [t2 [E2 F2]]. rewrite E2, E1.
      unfold posts. rewrite !filter_app. cbn [filter is_post].
      fold (posts t1). fold (posts t2). rewrite (posts_none t1 F1), (posts_none t2 F2).
      now rewrite <- app_assoc.
    + cbn [raise snd]. rewrite E1. unfold posts. rewrite filter_app. cbn [filter is_post].
      fold (posts t1). now rewrite (posts_none t1 F1).
Qed.

Lemma catch_no_fallback (s : settings) (prompt : string) (n : Z) (w : world)
  (e : exn) (w1 : world) :
  b64_attempt cwd loads s prompt n w = (Raise e, w1) -> fallback_applies e = false ->
  generate_batch cwd loads s prompt n w = (Raise e, w1).
Proof. intros E F. unfold generate_batch, catch. rewrite E, F. reflexivity. Qed.

End Fallback.

(** The world after the [b64_json] request has been answered. *)
Definition after_b64_post (s : settings) (prompt : string) (n : Z) (w : world)
  (rest : list reply) : world :=
  with_net_trace w rest
    (trace w ++ [EPost (images_endpoint s) (image_payload (model s) prompt n "b64_json")])%list.

(** [data["error"].get("message", str(data["error"]))] and the exception
    of lines 111-114. *)
Definition api_error_exn (err : json) : exn :=
  match err with
  | JObj ekvs => ValueError ("API error: " ++ py_str (match obj_get ekvs "message" with
                                                       | Some m => m
                                                       | None => JStr (py_str err)
                                                       end))
  | _ => AttributeError
  end.

(** C8. Every batch sends the [b64_json] request and then at most one more
    request, the [url] one, which is sent exactly when the first attempt
    raised a [KeyError] or [ValueError] (with its subclasses
    [JSONDecodeError] and [binascii.Error]) whose text lacks "API error".
    A transport failure of the first request, a status other than 200 and
    a 200 body carrying an ["error"] member end the batch with that
    first request only, raising the error. *)
Theorem C8_url_fallback_once (cwd : string) (loads : string -> option json)
  (s : settings) (prompt : string) (n : Z) :
  (forall w,
     posts (trace (snd (generate_batch cwd loads s prompt n w)))
     = (posts (trace w)
        ++ EPost (images_endpoint s) (image_payload (model s) prompt n "b64_json")
        :: match fst (b64_attempt cwd loads s prompt n w) with
           | Raise e => if fallback_applies e
                        then [EPost (images_endpoint s) (image_payload (model s) prompt n "url")]
                        else []
           | Ok _ => []
           end)%list)
  /\ (forall e, fallback_applies e = true ->
        is_key_or_value_error e = true /\ Py.contains "API error" (exn_str e) = false)
  /\ (scheme_ok (images_endpoint s) = true ->
      forall w rest, net w = NetDown :: rest ->
      generate_batch cwd loads s prompt n w
      = (Raise TransportError, after_b64_post s prompt n w rest))
  /\ (scheme_ok (images_endpoint s) = true ->
      forall w r rest, net w = Reply r :: rest -> status r <> 200%Z ->
      generate_batch cwd loads s prompt n w
      = (Raise (ValueError ("API error (HTTP " ++ Py.str_Z (status r) ++ "): "
                            ++ http_error_message loads r)),
         after_b64_post s prompt n w rest))
  /\ (scheme_ok (images_endpoint s) = true ->
      forall w r rest kvs err, net w = Reply r :: rest -> status r = 200%Z ->
      loads (body r) = Some (JObj kvs) -> obj_get kvs "error" = Some err ->
      generate_batch cwd loads s prompt n w
      = (Raise (api_error_exn err), after_b64_post s prompt n w rest)
      /\ fallback_applies (api_error_exn err) = false).
Proof.
  split; [intros w; apply generate_batch_posts|].
  split.
  { intros e. unfold fallback_applies. destruct (is_key_or_value_error e); [|discriminate].
    cbn. intros H. split; [reflexivity|]. now destruct (Py.contains _ _). }
  split.
  { intros Hsch w rest Hnet. apply (catch_no_fallback cwd loads); [|reflexivity].
    unfold b64_attempt, http_post, bind, emit, next_reply. cbn [net trace].
    rewrite Hsch, Hnet. reflexivity. }
  split.
  { intros Hsch w r rest Hnet Hst. apply (catch_no_fallback cwd loads).
    - unfold b64_attempt, http_post, bind, emit, next_reply. cbn [net trace].
      rewrite Hsch, Hnet. cbv beta iota. cbn [net trace clock uuid4 files calls]. unfold check_status.
      apply Z.eqb_neq in Hst. rewrite Hst. reflexivity.
    - unfold fallback_applies, exn_str. cbn [is_key_or_value_error andb].
      match goal with |- context [("API error (HTTP " ++ ?x)%string] =>
        change ("API error (HTTP " ++ x)%string with ("API error" ++ (" (HTTP " ++ x))%string end.
      now rewrite contains_prefix. }
  intros Hsch w r rest kvs err Hnet Hst Hl Herr.
  assert (F : fallback_applies (api_error_exn err) = false).
  { destruct err; reflexivity. }
  split; [|exact F].
  apply (catch_no_fallback cwd loads); [|exact F].
  unfold b64_attempt, http_post, bind, emit, next_reply. cbn [net trace].
  rewrite Hsch, Hnet. cbv beta iota. cbn [net trace clock uuid4 files calls]. unfold check_status. rewrite Hst. cbv beta iota.
  cbv [ret resp_json]. rewrite Hl. cbv beta iota.
  unfold raise_if_error, bind, lift, py_in. rewrite Herr. cbv beta iota.
  cbv [getitem]. rewrite Herr. cbv beta iota.
  destruct err; reflexivity.
Qed.

Definition url_fallback_world : world :=
  sample_world [Reply (mkResp 200 "<html>busy</html>" None);
                Reply (mkResp 200 (jtext "{'data':[{'url':'https://img.example.com/c.png'}]}") None);
                Reply (mkResp 200 "PNG-C" (Some "image/png"))].

Lemma C8_url_fallback_once_witness :
  posts (trace (snd (generate_batch "/home/u" Json.loads img_settings "a cat" 1 url_fallback_world)))
  = [EPost (images_endpoint img_settings) (image_payload (model img_settings) "a cat" 1 "b64_json");
     EPost (images_endpoint img_settings) (image_payload (model img_settings) "a cat" 1 "url")]
  /\ fst (generate_batch "/home/u" Json.loads img_settings "a cat" 1 url_fallback_world)
     = Ok ["20261016_090503_deadbeef_1.png"].
Proof.
  destruct (C8_url_fallback_once "/home/u" Json.loads img_settings "a cat" 1) as [H _].
  split; [rewrite H; vm_compute; reflexivity | vm_compute; reflexivity].
Defined.

(* ================================================================== *)
(** * Further properties of the adapter *)

(* ------------------------------------------------------------------ *)
(** ** [get_image_as_data_url] and the image-to-video request *)

Lemma split_no_sep (sep : ascii) (e : string) :
  forallb (fun c => negb (Ascii.eqb c sep)) (list_ascii_of_string e) = true ->
  Py.split_on sep e = [e].
Proof.
  induction e as [|c e IH]; [reflexivity|]. cbn [list_ascii_of_string forallb].
  intros H. apply andb_prop in H as [Hc He]. apply negb_true_iff in Hc.
  cbn [Py.split_on]. rewrite Hc, IH by exact He. reflexivity.
Qed.

Lemma last_app_single {A} (l : list A) (x d : A) : last (l ++ [x]) d = x.
Proof. apply last_last. Qed.

(** The extension [get_image_as_data_url] reads: the text after the last
    dot. *)
Lemma data_url_ext (stem e : string) :
  forallb (fun c => negb (Ascii.eqb c ".")) (list_ascii_of_string e) = true ->
  last (Py.split_on "." (stem ++ "." ++ e)) "" = e.
Proof.
  intros H. change ("." ++ e)%string with (String "." e).
  rewrite PathFacts.split_app_sep, (split_no_sep "." e H). apply last_app_single.
Qed.

Lemma get_image_as_data_url_ok (filename : string) (q : string) (d : list Byte.byte) (w : world) :
  find (fun '(p, _) => String.eqb p (Path.join "output" filename)) (files w) = Some (q, d) ->
  get_image_as_data_url filename w
  = (Ok ("data:" ++ (if String.eqb (lower (last (Py.split_on "." filename) "")) "png"
                      then "image/png" else "image/jpeg")
         ++ ";base64," ++ B64.encode d), w).
Proof. intros H. unfold get_image_as_data_url, bind, read_file. rewrite H. reflexivity. Qed.

Lemma decode_encode (d : list Byte.byte) : B64.decode (B64.encode d) = Ok d.
Proof. unfold B64.decode. rewrite B64Facts.encode_ascii. apply B64Facts.a2b_encode. Qed.

(** X1. For a file [output/<stem>.<e>] holding [d] (with no dot in [e]),
    [get_image_as_data_url] returns ["data:<mime>;base64,<b64>"] where
    [<b64>] decodes back to [d] and the MIME type is [image/png] exactly
    when [e] is [png] in any letter case, [image/jpeg] otherwise; the world
    is left unchanged. *)
Theorem X1_data_url_roundtrip (stem e q : string) (d : list Byte.byte) (w : world) :
  forallb (fun c => negb (Ascii.eqb c ".")) (list_ascii_of_string e) = true ->
  find (fun '(p, _) => String.eqb p (Path.join "output" (stem ++ "." ++ e))) (files w)
  = Some (q, d) ->
  exists b64,
    get_image_as_data_url (stem ++ "." ++ e) w
    = (Ok ("data:" ++ (if String.eqb (lower e) "png" then "image/png" else "image/jpeg")
           ++ ";base64," ++ b64), w)
    /\ B64.decode b64 = Ok d.
Proof.
  intros He Hf. exists (B64.encode d). split; [|apply decode_encode].
  rewrite (get_image_as_data_url_ok _ _ _ _ Hf), (data_url_ext stem e He). reflexivity.
Qed.

Definition photo_world : world :=
  {| net := []; trace := []; clock := clock (sample_world []); uuid4 := uuid4 (sample_world []);
     files := [("output/cat.PNG", [Byte.x89; Byte.x50; Byte.x4e; Byte.x47])]; calls := 0 |}.

Lemma X1_data_url_roundtrip_witness :
  exists b64,
    get_image_as_data_url ("cat" ++ "." ++ "PNG") photo_world
    = (Ok ("data:" ++ (if String.eqb (lower "PNG") "png" then "image/png" else "image/jpeg")
           ++ ";base64," ++ b64), photo_world)
    /\ B64.decode b64 = Ok [Byte.x89; Byte.x50; Byte.x4e; Byte.x47].
Proof. apply (X1_data_url_roundtrip "cat" "PNG" "output/cat.PNG"); reflexivity. Defined.

(** X2. When the source image named for image-to-video does not exist,
    [_generate_video] raises the [open] error before sending anything: no
    request, no download, the world unchanged. *)
Theorem X2_missing_source_image_no_request (cwd : string) (loads : string -> option json)
  (s : settings) (prompt : string) (video_config : json) (img : string) (w : world) :
  img <> "" ->
  find (fun '(p, _) => String.eqb p (Path.join "output" img)) (files w) = None ->
  generate_video cwd loads s prompt video_config (Some img) w = (Raise OSError, w).
Proof.
  intros Hne Hf. apply String.eqb_neq in Hne.
  cbv [generate_video video_request get_image_as_data_url bind read_file].
  rewrite Hne. cbv beta iota.
  match goal with |- context [find ?g (files w)] => change (find g (files w)) with
    (find (fun '(p, _) => String.eqb p (Path.join "output" img)) (files w)) end.
  rewrite Hf. reflexivity.
Qed.

Lemma X2_missing_source_image_no_request_witness :
  generate_video "/home/u" Json.loads img_settings "waves" (JObj [("seconds", JNum 5)])
    (Some "dog.png") photo_world = (Raise OSError, photo_world).
Proof. apply X2_missing_source_image_no_request; [discriminate | reflexivity]. Defined.

Lemma join_absolute (a f : string) : Py.startswith f "/" = true -> Path.join a f = f.
Proof. intros H. unfold Path.join. now rewrite H. Qed.

(** X3. [get_image_as_data_url] does not confine the source image to the
    output directory: for an absolute file name, the file read is that
    path itself, and the image-to-video request carries its contents,
    base64-encoded, in its [image_url]. *)
Theorem X3_absolute_source_image_sent (s : settings) (prompt : string) (video_config : json)
  (f q : string) (d : list Byte.byte) (w : world) :
  Py.startswith f "/" = true ->
  find (fun '(p, _) => String.eqb p f) (files w) = Some (q, d) ->
  exists mime b64 txt,
    B64.decode b64 = Ok d
    /\ In (EPost (chat_endpoint s)
             (video_payload (model s)
                (JArr [JObj [("type", JStr "image_url");
                             ("image_url", JObj [("url", JStr ("data:" ++ mime ++ ";base64," ++ b64))])];
                       JObj [("type", JStr "text"); ("text", JStr txt)]])
                video_config))
          (trace (snd (video_request s prompt video_config (Some f) w))).
Proof.
  intros Habs Hf.
  rewrite <- (join_absolute "output" f Habs) in Hf.
  eexists _, (B64.encode d), _. split; [apply decode_encode|].
  assert (Hne : String.eqb f "" = false) by (destruct f; [discriminate | reflexivity]).
  unfold video_request, bind at 1. cbv beta iota. rewrite Hne.
  unfold bind at 1. rewrite (get_image_as_data_url_ok _ _ _ _ Hf).
  cbv beta iota. unfold ret.
  unfold http_post, bind at 1. cbn [emit snd trace].
  match goal with |- In ?e (trace (snd (?m ?w1))) =>
    assert (Hx : Extends (fun _ => True) m) by (destruct (scheme_ok (chat_endpoint s)); ext_solve);
    destruct (Hx w1) as [t [Et _]] end.
  rewrite Et. cbn [trace]. apply in_or_app. left. apply in_or_app. right. left. reflexivity.
Qed.

Definition secret_world : world :=
  {| net := []; trace := []; clock := clock (sample_world []); uuid4 := uuid4 (sample_world []);
     files := [("/etc/app/secret.png", [Byte.x6b; Byte.x65; Byte.x79])]; calls := 0 |}.

Lemma X3_absolute_source_image_sent_witness :
  exists mime b64 txt,
    B64.decode b64 = Ok [Byte.x6b; Byte.x65; Byte.x79]
    /\ In (EPost (chat_endpoint img_settings)
             (video_payload (model img_settings)
                (JArr [JObj [("type", JStr "image_url");
                             ("image_url", JObj [("url", JStr ("data:" ++ mime ++ ";base64," ++ b64))])];
                       JObj [("type", JStr "text"); ("text", JStr txt)]])
                (JObj [("seconds", JNum 5)])))
          (trace (snd (video_request img_settings "" (JObj [("seconds", JNum 5)])
                         (Some "/etc/app/secret.png") secret_world))).
Proof. apply (X3_absolute_source_image_sent _ _ _ _ "/etc/app/secret.png"); reflexivity. Defined.

(* ------------------------------------------------------------------ *)
(** ** The names the image saves return *)

Ltac rstep := apply bind_returns with (R := fun _ => True); [apply true_returns|].

Lemma save_b64_loop_names (cwd ts sid : string) (items : list json) : forall idx,
  Returns (fun l => l = map (fun i => image_filename ts sid i "png") (seq idx (List.length items)))
          (save_b64_loop cwd ts sid idx items).
Proof.
  induction items as [|it r IH]; intros idx; cbn [save_b64_loop].
  - now apply ret_returns.
  - rstep. intros b _. rstep. intros d _. cbv zeta. rstep. intros _ _.
    apply bind_returns with (1 := IH (S idx)). intros fs ->.
    apply ret_returns. reflexivity.
Qed.

(** X4. A successful [_save_b64_images] returns one name per item, in item
    order, [<timestamp>_<short_id>_1.png] up to [..._<n>.png], all with the
    same timestamp and short id. *)
Theorem X4_b64_names_numbered (cwd : string) (items : list json) :
  Returns (fun l => exists ts sid,
             l = map (fun i => image_filename ts sid i "png") (seq 1 (List.length items)))
          (save_b64_images cwd items).
Proof.
  unfold save_b64_images. rstep. intros [ts sid] _.
  intros w. pose proof (save_b64_loop_names cwd ts sid items 1 w) as H.
  destruct (fst _); [eauto | exact I].
Qed.

Lemma image_ext_cases (ct u : string) : image_ext ct u = "jpg" \/ image_ext ct u = "png".
Proof.
  unfold image_ext. destruct (_ || _ || _)%bool; [now left|].
  destruct (_ || _)%bool; [now right | now left].
Qed.

Definition url_names (ts sid : string) (idx : nat) (exts : list string) : list string :=
  map (fun '(i, e) => image_filename ts sid i e) (combine (seq idx (List.length exts)) exts).

Lemma save_url_loop_names (cwd ts sid : string) (items : list json) : forall idx,
  Returns (fun l => exists exts, List.length exts = List.length items
                                 /\ Forall (fun e => e = "jpg" \/ e = "png") exts
                                 /\ l = url_names ts sid idx exts)
          (save_url_loop cwd ts sid idx items).
Proof.
  induction items as [|it r IH]; intros idx; cbn [save_url_loop].
  - apply ret_returns. exists []. repeat split; constructor.
  - rstep. intros v _.
    destruct v as [| | |u| |]; try (rstep; intros; apply raise_returns).
    rstep. intros resp0 _. rstep. intros _ _.
    cbv zeta. rstep. intros _ _.
    apply bind_returns with (1 := IH (S idx)). intros fs (exts & Hl & Hf & ->).
    apply ret_returns. exists (image_ext (content_type resp0) u :: exts).
    split; [cbn; congruence|]. split; [constructor; [apply image_ext_cases | exact Hf]|].
    reflexivity.
Qed.

(** X5. A successful [_save_url_images] returns one name per item, in item
    order, [<timestamp>_<short_id>_<i>.<ext>] for [i] from 1, each [ext]
    being [jpg] or [png]. *)
Theorem X5_url_names_numbered (cwd : string) (items : list json) :
  Returns (fun l => exists ts sid exts,
             List.length exts = List.length items
             /\ Forall (fun e => e = "jpg" \/ e = "png") exts
             /\ l = url_names ts sid 1 exts)
          (save_url_images cwd items).
Proof.
  unfold save_url_images. rstep. intros [ts sid] _.
  intros w. pose proof (save_url_loop_names cwd ts sid items 1 w) as H.
  destruct (fst _); [eauto | exact I].
Qed.

(* ------------------------------------------------------------------ *)
(** ** A failed download in [_save_url_images] *)

Definition is_2xx (r : resp) : bool := ((200 <=? status r) && (status r <? 300))%Z.

(** X6. When the second image of a batch cannot be downloaded (a status
    outside 2xx), [_save_url_images] raises [HTTPStatusError] for it, but the
    first image has already been written to the output directory: the
    failed call leaves that file behind without returning its name. *)
Theorem X6_failed_download_leaves_earlier_files (cwd : string) (it1 it2 : json) (rest : list json)
  (u1 u2 : string) (r1 r2 : resp) (more : list reply) (w : world) :
  getitem it1 "url" = Ok (JStr u1) -> getitem it2 "url" = Ok (JStr u2) ->
  scheme_ok u1 = true -> scheme_ok u2 = true ->
  net w = Reply r1 :: Reply r2 :: more ->
  is_2xx r1 = true -> is_2xx r2 = false ->
  fst (save_url_images cwd (it1 :: it2 :: rest) w) = Raise (HTTPStatusError (status r2))
  /\ exists f1, In (EWrite (Path.join "output" f1) (content r1))
                   (trace (snd (save_url_images cwd (it1 :: it2 :: rest) w))).
Proof.
  intros H1 H2 S1 S2 Hn R1 R2.
  destruct (stamp_shape w) as [[ts sid] [w' [Es [Nn [Tt [Hts Hsid]]]]]].
  set (f1 := image_filename ts sid 1 (image_ext (content_type r1) u1)).
  assert (G : path_guard cwd (Path.join "output" f1) = true).
  { apply PathFacts.guard_plain, PathFacts.image_filename_plain; auto using PathFacts.image_ext_no_slash. }
  assert (E : save_url_images cwd (it1 :: it2 :: rest) w
              = (Raise (HTTPStatusError (status r2)),
                 with_net_trace w' more
                   (trace w' ++ [EGet u1; EWrite (Path.join "output" f1) (content r1); EGet u2])%list)).
  { unfold save_url_images. unfold bind at 1. rewrite Es. cbv beta iota; cbn [net trace clock uuid4 files calls]. cbn [fst snd].
    destruct w' as [n t c uu fl k]. cbn in Nn, Tt. subst n t.
    cbn [save_url_loop].
    cbv [bind lift http_get emit next_reply raise_for_status ret raise guarded_write write_file].
    cbn [net trace clock uuid4 files calls]. rewrite Hn.
    rewrite H1. cbv beta iota; cbn [net trace clock uuid4 files calls]. rewrite S1. cbv beta iota; cbn [net trace clock uuid4 files calls].
    unfold is_2xx in R1. rewrite R1. cbv beta iota; cbn [net trace clock uuid4 files calls]. fold f1. rewrite G. cbv beta iota; cbn [net trace clock uuid4 files calls].
    cbn [net trace clock uuid4 files calls save_url_loop].
    cbv [bind lift http_get emit next_reply raise_for_status ret raise].
    cbn [net trace clock uuid4 files calls].
    rewrite H2. cbv beta iota; cbn [net trace clock uuid4 files calls]. rewrite S2. cbv beta iota; cbn [net trace clock uuid4 files calls].
    unfold is_2xx in R2. rewrite R2. unfold with_net_trace. cbn [net trace clock uuid4 files calls].
    now rewrite <- !app_assoc. }
  rewrite E. split; [reflexivity|]. exists f1. cbn [snd]. unfold with_net_trace. cbn [trace].
  apply in_or_app. right. right. left. reflexivity.
Qed.

Lemma X6_failed_download_leaves_earlier_files_witness :
  fst (save_url_images "/home/u"
         [JObj [("url", JStr "https://img.example.com/a.png")];
          JObj [("url", JStr "https://img.example.com/b.png")]]
         (sample_world [Reply (mkResp 200 "PNG-A" (Some "image/png"));
                        Reply (mkResp 403 "denied" None)]))
  = Raise (HTTPStatusError 403)
  /\ exists f1, In (EWrite (Path.join "output" f1) (content (mkResp 200 "PNG-A" (Some "image/png"))))
                   (trace (snd (save_url_images "/home/u"
                      [JObj [("url", JStr "https://img.example.com/a.png")];
                       JObj [("url", JStr "https://img.example.com/b.png")]]
                      (sample_world [Reply (mkResp 200 "PNG-A" (Some "image/png"));
                                     Reply (mkResp 403 "denied" None)])))).
Proof.
  apply (X6_failed_download_leaves_earlier_files "/home/u" _ _ []
           "https://img.example.com/a.png" "https://img.example.com/b.png"
           (mkResp 200 "PNG-A" (Some "image/png")) (mkResp 403 "denied" None) []);
    reflexivity.
Defined.

(* ------------------------------------------------------------------ *)
(** ** A download reply the video loop does not retry *)

Section RetryFatal.

Variable cwd url ts sid : string.
Hypothesis Hurl : scheme_ok url = true.

Lemma video_attempt_fatal (a : nat) (r : resp) (rest : list reply) (w : world) :
  (status r =? 404)%Z = false -> is_2xx r = false -> net w = Reply r :: rest ->
  video_attempt cwd url ts sid a w
  = (Raise (HTTPStatusError (status r)), with_net_trace w rest (trace w ++ attempt_events url a)%list).
Proof.
  intros H404 H2 Hn. destruct w as [n t c u f k]. cbn in Hn. subst n.
  unfold video_attempt, attempt_events, is_2xx in *.
  cbv [catch bind ret raise sleep emit http_get next_reply raise_for_status lift
       net trace clock uuid4 files calls].
  assert (Hz : status r <> 404%Z) by (apply Z.eqb_neq; exact H404).
  destruct (0 <? a); cbv beta iota; rewrite Hurl, H404, H2;
  generalize dependent (status r); intros z _ _ Hz;
  (destruct z as [|p|p]; try (now rewrite <- ?app_assoc);
   repeat (destruct p as [p|p|]; try (now rewrite <- ?app_assoc));
   exfalso; apply Hz; reflexivity).
Qed.

Lemma video_attempt_down (a : nat) (rest : list reply) (w : world) :
  net w = NetDown :: rest ->
  video_attempt cwd url ts sid a w
  = (Raise TransportError, with_net_trace w rest (trace w ++ attempt_events url a)%list).
Proof.
  intros Hn. destruct w as [n t c u f k]. cbn in Hn. subst n.
  unfold video_attempt, attempt_events.
  cbv [catch bind ret raise sleep emit http_get next_reply raise_for_status lift
       net trace clock uuid4 files calls].
  rewrite Hurl. destruct (0 <? a); now rewrite <- ?app_assoc.
Qed.

(** The loop after [k] retryable replies, when the next attempt ends in the
    exception [e]. *)
Lemma video_loop_stops (rs : list resp) (x : reply) (e : exn) (rest : list reply) (w : world) :
  Forall (fun y => retryable y = true) rs -> List.length rs < max_retries ->
  (forall ts0 sid0 a w0, net w0 = x :: rest ->
     video_attempt cwd url ts0 sid0 a w0
     = (Raise e, with_net_trace w0 rest (trace w0 ++ attempt_events url a)%list)) ->
  net w = (map Reply rs ++ x :: rest)%list ->
  fst (save_video_from_url cwd (JStr url) w) = Raise e
  /\ sleeps (trace (snd (save_video_from_url cwd (JStr url) w)))
     = (sleeps (trace w) ++ repeat (ESleep retry_delay) (List.length rs))%list.
Proof.
  intros Hall Hlen Hx Hn.
  destruct (stamp_shape w) as [[ts' sid'] [w' [Es [Nn [Tt [H1 H2]]]]]].
  set (T := (trace w' ++ flat_map (attempt_events url) (seq 0 (List.length rs)))%list).
  assert (E : save_video_from_url cwd (JStr url) w
              = (Raise e, with_net_trace (with_net_trace w' (x :: rest) T) rest
                            (T ++ attempt_events url (0 + List.length rs))%list)).
  { unfold save_video_from_url, bind at 1. rewrite Es. cbv beta iota. cbn [fst snd].
    rewrite (video_loop_retries cwd url ts' sid' Hurl rs 0 max_retries None w' (x :: rest)
               Hall ltac:(unfold max_retries in *; lia) ltac:(now rewrite Nn)).
    unfold max_retries in *.
    replace (12 - List.length rs) with (S (11 - List.length rs)) by lia.
    cbn [video_loop]. unfold bind at 1.
    erewrite (Hx ts' sid' (0 + List.length rs)) by reflexivity.
    reflexivity. }
  rewrite E. cbn [fst snd]. split; [reflexivity|].
  unfold with_net_trace. cbn [trace]. unfold T. rewrite Tt.
  unfold sleeps. rewrite !filter_app. fold (sleeps (trace w)). rewrite <- app_assoc. f_equal.
  rewrite <- filter_app.
  fold (sleeps (flat_map (attempt_events url) (seq 0 (List.length rs)) ++ attempt_events url (0 + List.length rs))%list).
  rewrite Nat.add_0_l.
  replace (flat_map (attempt_events url) (seq 0 (List.length rs)) ++ attempt_events url (List.length rs))%list
    with (flat_map (attempt_events url) (seq 0 (S (List.length rs)))).
  - apply sleeps_attempts.
  - rewrite seq_S, flat_map_app. cbn [flat_map]. now rewrite app_nil_r.
Qed.

End RetryFatal.

(** X7. For a download URL httpx accepts: when the first [k] replies,
    [k < 12], are retryable (a 404, or a 2xx body under 1000 bytes) and
    reply [k + 1] has a status that is neither 404 nor 2xx, the download
    fails at once with that [HTTPStatusError] after exactly [k] waits;
    a dropped connection at that point fails it with the transport error.
    The remaining attempts are not used. *)
Theorem X7_video_fatal_reply (cwd url : string) (Hurl : scheme_ok url = true) :
  (forall (rs : list resp) (r : resp) (rest : list reply) (w : world),
     Forall (fun x => retryable x = true) rs -> List.length rs < max_retries ->
     (status r =? 404)%Z = false -> is_2xx r = false ->
     net w = (map Reply rs ++ Reply r :: rest)%list ->
     fst (save_video_from_url cwd (JStr url) w) = Raise (HTTPStatusError (status r))
     /\ sleeps (trace (snd (save_video_from_url cwd (JStr url) w)))
        = (sleeps (trace w) ++ repeat (ESleep retry_delay) (List.length rs))%list)
  /\ (forall (rs : list resp) (rest : list reply) (w : world),
     Forall (fun x => retryable x = true) rs -> List.length rs < max_retries ->
     net w = (map Reply rs ++ NetDown :: rest)%list ->
     fst (save_video_from_url cwd (JStr url) w) = Raise TransportError
     /\ sleeps (trace (snd (save_video_from_url cwd (JStr url) w)))
        = (sleeps (trace w) ++ repeat (ESleep retry_delay) (List.length rs))%list).
Proof.
  split.
  - intros rs r rest w Hall Hlen H404 H2 Hn.
    apply (video_loop_stops cwd url Hurl rs (Reply r) _ rest w); auto.
    intros ts0 sid0 a w0 Hn0. now apply (video_attempt_fatal cwd url ts0 sid0 Hurl).
  - intros rs rest w Hall Hlen Hn.
    apply (video_loop_stops cwd url Hurl rs NetDown _ rest w); auto.
    intros ts0 sid0 a w0 Hn0. now apply (video_attempt_down cwd url ts0 sid0 Hurl).
Qed.

Lemma X7_video_fatal_reply_witness :
  scheme_ok "https://cdn.x/v.mp4" = true
  /\ fst (save_video_from_url "/home/u" (JStr "https://cdn.x/v.mp4")
            (sample_world [Reply (mkResp 404 "" None); Reply (mkResp 500 "boom" None)]))
     = Raise (HTTPStatusError 500).
Proof.
  split; [reflexivity|].
  apply (proj1 (X7_video_fatal_reply "/home/u" "https://cdn.x/v.mp4" eq_refl)
           [mkResp 404 "" None] (mkResp 500 "boom" None) []); try reflexivity.
  - repeat constructor.
  - unfold max_retries. cbn. lia.
Defined.

(* ------------------------------------------------------------------ *)
(** ** How many downloads and waits a computation can make *)

Module Bnd.

(** [m] only appends to the trace, at most [g] GETs and at most [s] waits. *)
Definition Bounded {A} (g s : nat) (m : M A) : Prop :=
  forall w, exists t, trace (snd (m w)) = (trace w ++ t)%list
                      /\ List.length (filter is_get t) <= g /\ List.length (sleeps t) <= s.

Lemma mono {A} (g s g' s' : nat) (m : M A) :
  Bounded g s m -> g <= g' -> s <= s' -> Bounded g' s' m.
Proof. intros H Hg Hs w. destruct (H w) as (t & E & G & S). exists t. repeat split; auto; lia. Qed.

Lemma ret_b {A} (a : A) : Bounded 0 0 (ret a).
Proof. intros w. exists []. cbn. rewrite app_nil_r. auto. Qed.

Lemma raise_b {A} (e : exn) : Bounded (A := A) 0 0 (raise e).
Proof. intros w. exists []. cbn. rewrite app_nil_r. auto. Qed.

Lemma lift_b {A} (o : outcome A) : Bounded 0 0 (lift o).
Proof. intros w. exists []. cbn. rewrite app_nil_r. auto. Qed.

Lemma emit_b (e : event) :
  Bounded (if is_get e then 1 else 0) (if is_sleep e then 1 else 0) (emit e).
Proof.
  intros w. exists [e]. cbn. split; [reflexivity|].
  unfold sleeps. cbn. destruct (is_get e), (is_sleep e); cbn; auto.
Qed.

Lemma bind_b {A B} (g1 s1 g2 s2 : nat) (m : M A) (k : A -> M B) :
  Bounded g1 s1 m -> (forall a, Bounded g2 s2 (k a)) -> Bounded (g1 + g2) (s1 + s2) (bind m k).
Proof.
  intros Hm Hk w. unfold bind. destruct (Hm w) as (t1 & E1 & G1 & S1).
  destruct (m w) as [[a|e] w1]; cbn [snd] in E1 |- *.
  - destruct (Hk a w1) as (t2 & E2 & G2 & S2). exists (t1 ++ t2)%list.
    rewrite E2, E1, app_assoc. split; [reflexivity|].
    unfold sleeps in *. rewrite !filter_app, !length_app. lia.
  - exists t1. split; [exact E1|]. lia.
Qed.

Lemma catch_b {A} (g1 s1 g2 s2 : nat) (m : M A) (h : exn -> M A) :
  Bounded g1 s1 m -> (forall e, Bounded g2 s2 (h e)) -> Bounded (g1 + g2) (s1 + s2) (catch m h).
Proof.
  intros Hm Hh w. unfold catch. destruct (Hm w) as (t1 & E1 & G1 & S1).
  destruct (m w) as [[a|e] w1]; cbn [snd] in E1 |- *.
  - exists t1. split; [exact E1|]. lia.
  - destruct (Hh e w1) as (t2 & E2 & G2 & S2). exists (t1 ++ t2)%list.
    rewrite E2, E1, app_assoc. split; [reflexivity|].
    unfold sleeps in *. rewrite !filter_app, !length_app. lia.
Qed.

Lemma next_reply_b : Bounded 0 0 next_reply.
Proof. intros w. exists []. unfold next_reply. rewrite app_nil_r. destruct (net w) as [|[]]; cbn; auto. Qed.

Lemma stamp_b : Bounded 0 0 stamp.
Proof. intros w. exists []. cbn. rewrite app_nil_r. auto. Qed.

Lemma http_get_b (v : json) : Bounded 1 0 (http_get v).
Proof.
  destruct v; try (eapply mono; [apply raise_b | lia | lia]).
  unfold http_get. apply (bind_b 1 0 0 0); [apply (emit_b (EGet _))|]. intros _.
  destruct (scheme_ok _); [apply next_reply_b | apply raise_b].
Qed.

Lemma raise_for_status_b (r : resp) : Bounded 0 0 (raise_for_status r).
Proof. unfold raise_for_status. destruct (_ && _)%bool; [apply ret_b | apply raise_b]. Qed.

Lemma guarded_write_b (cwd p : string) (d : list Byte.byte) : Bounded 0 0 (guarded_write cwd p d).
Proof.
  unfold guarded_write. destruct (path_guard _ _); [apply (emit_b (EWrite _ _)) | apply raise_b].
Qed.

Lemma video_attempt_b (cwd url ts sid : string) (a : nat) :
  Bounded 1 (if 0 <? a then 1 else 0) (video_attempt cwd url ts sid a).
Proof.
  unfold video_attempt.
  assert (Body : Bounded 1 0
    (response <- http_get (JStr url) ;;
     if (status response =? 404)%Z then
       ret (inr ("404 Not Found (attempt " ++ Py.str_nat (a + 1) ++ ")"))
     else
       raise_for_status response ;;;
       let video_bytes := content response in
       if List.length video_bytes <? 1000 then
         ret (inr ("File too small (" ++ Py.str_nat (List.length video_bytes) ++ " bytes)"))
       else
         let ext := video_ext (content_type response) url in
         let filename := ts ++ "_" ++ sid ++ "." ++ ext in
         guarded_write cwd (Path.join "output" filename) video_bytes ;;;
         ret (inl filename))).
  { apply (bind_b 1 0 0 0); [apply http_get_b|]. intros r.
    destruct (_ =? _)%Z; [apply ret_b|].
    apply (bind_b 0 0 0 0); [apply raise_for_status_b|]. intros _. cbv zeta.
    destruct (_ <? _); [apply ret_b|].
    apply (bind_b 0 0 0 0); [apply guarded_write_b | intros; apply ret_b]. }
  destruct (0 <? a).
  - apply (catch_b 1 1 0 0).
    + apply (bind_b 0 1 1 0); [apply (emit_b (ESleep _)) | intros _; exact Body].
    + intros e. destruct e as [k| |m| |m| | |c| |]; try apply raise_b.
      destruct c as [|p|p]; try apply raise_b.
      repeat (destruct p as [p|p|]; try apply raise_b). apply ret_b.
  - apply (catch_b 1 0 0 0).
    + apply (bind_b 0 0 1 0); [apply ret_b | intros _; exact Body].
    + intros e. destruct e as [k| |m| |m| | |c| |]; try apply raise_b.
      destruct c as [|p|p]; try apply raise_b.
      repeat (destruct p as [p|p|]; try apply raise_b). apply ret_b.
Qed.

Lemma video_loop_b (cwd url ts sid : string) (l : nat) : forall a le,
  Bounded l (if 0 <? a then l else l - 1) (video_loop cwd url ts sid a l le).
Proof.
  induction l as [|l IH]; intros a le; cbn [video_loop].
  - destruct (0 <? a); apply raise_b.
  - eapply mono.
    + apply (bind_b 1 (if 0 <? a then 1 else 0) l l); [apply video_attempt_b|].
      intros [f|m]; [eapply mono; [apply ret_b | lia | lia] | apply (IH (S a))].
    + lia.
    + destruct (0 <? a); lia.
Qed.

End Bnd.

(** X8. Whatever the network replies, [_save_video_from_url] only adds to
    the trace, and adds at most 12 GET requests and at most 11 waits: it
    polls a bounded number of times and waits at most 110 s. *)
Theorem X8_video_polling_bounded (cwd : string) (v : json) (w : world) :
  exists t, trace (snd (save_video_from_url cwd v w)) = (trace w ++ t)%list
            /\ List.length (filter is_get t) <= 12 /\ List.length (sleeps t) <= 11.
Proof.
  revert w. fold (Bnd.Bounded 12 11 (save_video_from_url cwd v)).
  unfold save_video_from_url. apply (Bnd.bind_b 0 0 12 11); [apply Bnd.stamp_b|].
  intros p. destruct v as [| | |u| |];
    try (eapply Bnd.mono; [apply (Bnd.bind_b 1 0 0 0); [apply Bnd.http_get_b | intros; apply Bnd.raise_b] | lia | lia]).
  apply (Bnd.video_loop_b cwd u (fst p) (snd p) max_retries 0 None).
Qed.

(* ------------------------------------------------------------------ *)
(** ** How [_generate_video] reads the reply before any download *)

Lemma sse_lines_skip (loads : string -> option json) (lines : list string) : forall acc,
  Forall (fun l => Py.startswith (Py.strip l) "data: " = false) lines ->
  sse_lines loads acc lines = Ok acc.
Proof.
  induction lines as [|l r IH]; intros acc H; [reflexivity|].
  inversion H as [|? ? Hl Hr]; subst. cbn [sse_lines]. unfold sse_line.
  rewrite Hl. destruct (_ || _)%bool; cbn [obind]; now apply IH.
Qed.

(** X9. [_generate_video] accepts only the status code 200: any other code,
    2xx ones such as 201 included, raises the [API error (HTTP <code>): ...]
    error; a 200 reply whose body is only whitespace raises
    [API returned empty response body]. Either way nothing is downloaded or
    written: the world after the POST is left as it is. *)
Theorem X9_video_status_and_empty_body (cwd : string) (loads : string -> option json)
  (r : resp) (w : world) :
  ((status r =? 200)%Z = false ->
   handle_video_response cwd loads r w
   = (Raise (ValueError ("API error (HTTP " ++ Py.str_Z (status r) ++ "): "
                         ++ http_error_message loads r)), w))
  /\ (status r = 200%Z -> Py.strip (body r) = "" ->
      handle_video_response cwd loads r w
      = (Raise (ValueError "API returned empty response body"), w)).
Proof.
  split.
  - intros H. unfold handle_video_response, check_status, bind at 1. rewrite H. reflexivity.
  - intros H E. unfold handle_video_response, check_status, bind at 1.
    rewrite H. cbn [Z.eqb Pos.eqb]. unfold ret. cbv beta iota. rewrite E. reflexivity.
Qed.

(** X10. A 200 reply whose body starts with [data:] is read as an event
    stream; a line is only used when, once stripped, it starts with
    [data: ] (with the space). When no line does (for instance every line is
    [data:{...}]), the content stays empty and the call raises
    [No content in video API response] without downloading anything. *)
Theorem X10_sse_without_data_lines (cwd : string) (loads : string -> option json)
  (r : resp) (w : world) :
  status r = 200%Z ->
  Py.startswith (Py.strip (body r)) "data:" = true ->
  Forall (fun l => Py.startswith (Py.strip l) "data: " = false)
         (Py.split_on newline (Py.strip (body r))) ->
  handle_video_response cwd loads r w
  = (Raise (ValueError "No content in video API response"), w).
Proof.
  intros H200 Hd Hl. unfold handle_video_response, check_status, bind.
  rewrite H200. cbn [Z.eqb Pos.eqb]. unfold ret. cbv beta iota.
  rewrite (startswith_nonempty _ _ Hd), Hd. cbv beta iota.
  unfold sse_assemble. rewrite sse_lines_skip by exact Hl. reflexivity.
Qed.

Lemma X10_sse_without_data_lines_witness :
  status (mkResp 200 "data:{'a':1}" None) = 200%Z
  /\ handle_video_response "/home/u" (fun _ => None) (mkResp 200 "data:{'a':1}" None) (sample_world [])
     = (Raise (ValueError "No content in video API response"), sample_world []).
Proof.
  split; [reflexivity|].
  apply X10_sse_without_data_lines; [reflexivity | reflexivity |].
  repeat constructor.
Defined.

(** X11. A 200 reply with a JSON object body (not an event stream) that has
    no [error] key and either no [choices] key or an empty [choices] list
    has no content: the call raises [No content in video API response]
    without downloading anything. *)
Theorem X11_json_without_choices (cwd : string) (loads : string -> option json)
  (r : resp) (kvs : list (string * json)) (w : world) :
  status r = 200%Z ->
  String.eqb (Py.strip (body r)) "" = false ->
  Py.startswith (Py.strip (body r)) "data:" = false ->
  loads (body r) = Some (JObj kvs) ->
  obj_get kvs "error" = None ->
  obj_get kvs "choices" = None \/ obj_get kvs "choices" = Some (JArr []) ->
  handle_video_response cwd loads r w
  = (Raise (ValueError "No content in video API response"), w).
Proof.
  intros H200 Hne Hd Hl He Hc. unfold handle_video_response, check_status, bind.
  rewrite H200. cbn [Z.eqb Pos.eqb]. unfold ret. cbv beta iota.
  rewrite Hne, Hd. unfold resp_json, raise_if_error, lift, bind, ret. rewrite Hl.
  cbn [py_in getitem]. rewrite He.
  destruct Hc as [Hc|Hc]; rewrite Hc; reflexivity.
Qed.

Definition no_choices_body : string := jtext "{'id':'v1','choices':[]}".

Lemma X11_json_without_choices_witness :
  status (mkResp 200 no_choices_body None) = 200%Z
  /\ handle_video_response "/home/u" (fun _ => Some (JObj [("id", JStr "v1"); ("choices", JArr [])]))
       (mkResp 200 no_choices_body None) (sample_world [])
     = (Raise (ValueError "No content in video API response"), sample_world []).
Proof.
  split; [reflexivity|].
  apply (X11_json_without_choices _ _ _ [("id", JStr "v1"); ("choices", JArr [])]);
    try reflexivity.
  right. reflexivity.
Defined.

(* ------------------------------------------------------------------ *)
(** ** No images requested *)

(** X14. Without a video config, a request for zero or a negative number of
    images returns an empty list and does nothing: no request, no log line,
    no file. *)
Theorem X14_no_images_requested (cwd : string) (loads : string -> option json)
  (s : settings) (prompt : string) (n : Z) (video_config : json)
  (source_image : option string) (w : world) :
  truthy video_config = false -> (n <= 0)%Z ->
  generate_images cwd loads s prompt n video_config source_image w = (Ok [], w).
Proof.
  intros Hv Hn. unfold generate_images. rewrite Hv.
  replace (Z.to_nat n) with 0 by lia. reflexivity.
Qed.

Lemma X14_no_images_requested_witness :
  generate_images "/home/u" (fun _ => None) img_settings "a cat" (-3) JNull None (sample_world [])
  = (Ok [], sample_world []).
Proof. apply X14_no_images_requested; [reflexivity | lia]. Defined.

(* ------------------------------------------------------------------ *)
(** ** The URLs the regex fallbacks extract *)

Module UrlFacts.

Lemma drop_0 (s : string) : Py.drop 0 s = s.
Proof.
  unfold Py.drop. rewrite Nat.sub_0_r.
  induction s as [|c s IH]; [reflexivity|]. cbn. now rewrite IH.
Qed.

Lemma drop_S (i : nat) (c : ascii) (s : string) : Py.drop (S i) (String c s) = Py.drop i s.
Proof. reflexivity. Qed.

Lemma drop_nil (i : nat) : Py.drop i "" = "".
Proof. destruct i; reflexivity. Qed.

Lemma take_S (j : nat) (c : ascii) (s : string) : Py.take (S j) (String c s) = String c (Py.take j s).
Proof. reflexivity. Qed.

Lemma take_nil (j : nat) : Py.take j "" = "".
Proof. destruct j; reflexivity. Qed.

Lemma take_drop (j : nat) : forall s, s = Py.take j s ++ Py.drop j s.
Proof.
  induction j as [|j IH]; intros s.
  - rewrite drop_0. destruct s; reflexivity.
  - destruct s as [|c s]; [reflexivity|]. rewrite take_S, drop_S. cbn. now rewrite <- IH.
Qed.

Lemma take_add (j : nat) : forall e s, Py.take (j + e) s = Py.take j s ++ Py.take e (Py.drop j s).
Proof.
  induction j as [|j IH]; intros e s.
  - rewrite drop_0. destruct s; reflexivity.
  - destruct s as [|c s]; [now rewrite drop_nil, !take_nil|].
    cbn [Nat.add]. rewrite !take_S, drop_S, IH. reflexivity.
Qed.

Lemma startswith_split (x : string) : forall s,
  Py.startswith s x = true -> s = x ++ Py.drop (String.length x) s.
Proof.
  induction x as [|c x IH]; intros s H.
  - now rewrite drop_0.
  - destruct s as [|d s]; [discriminate|]. cbn in H. apply andb_prop in H as [Hc H].
    apply Ascii.eqb_eq in Hc. subst d. cbn [String.length]. rewrite drop_S.
    cbn. now rewrite <- IH.
Qed.

Lemma startswith_take (x : string) : forall s,
  Py.startswith s x = true -> Py.take (String.length x) s = x.
Proof.
  induction x as [|c x IH]; intros s H; [destruct s; reflexivity|].
  destruct s as [|d s]; [discriminate|]. cbn in H. apply andb_prop in H as [Hc H].
  apply Ascii.eqb_eq in Hc. subst d. cbn [String.length]. rewrite take_S. now rewrite IH.
Qed.

Lemma take_app (x : string) : forall k t, Py.take (String.length x + k) (x ++ t) = x ++ Py.take k t.
Proof.
  induction x as [|c x IH]; intros k t; [reflexivity|].
  cbn [String.length append Nat.add]. rewrite take_S, IH. reflexivity.
Qed.

Lemma run_len_le (s : string) : run_len s <= String.length s.
Proof. induction s as [|c s IH]; cbn; [lia|]. destruct (url_char c); lia. Qed.

Lemma take_run (j : nat) : forall s, j <= run_len s ->
  Forall (fun c => url_char c = true) (list_ascii_of_string (Py.take j s)).
Proof.
  induction j as [|j IH]; intros s H; [destruct s; constructor|].
  destruct s as [|c s]; [cbn in H; lia|]. cbn in H.
  destruct (url_char c) eqn:E; [|lia].
  rewrite take_S. cbn. constructor; [exact E | apply IH; lia].
Qed.

Lemma take_nonempty (j : nat) (s : string) : 1 <= j <= run_len s -> Py.take j s <> "".
Proof.
  intros H. destruct j as [|j]; [lia|]. destruct s as [|c s]; [cbn in H; lia|].
  rewrite take_S. discriminate.
Qed.

Lemma drop_run (s : string) :
  match Py.drop (run_len s) s with EmptyString => True | String c _ => url_char c = false end.
Proof.
  induction s as [|c s IH]; [exact I|]. cbn [run_len].
  destruct (url_char c) eqn:E.
  - rewrite drop_S. exact IH.
  - rewrite drop_0. exact E.
Qed.

Lemma scheme_len_cases (s : string) (p : nat) :
  scheme_len s = Some p ->
  exists sch, (sch = "https://" \/ sch = "http://") /\ p = String.length sch
              /\ Py.startswith s sch = true.
Proof.
  unfold scheme_len. destruct (Py.startswith s "https://") eqn:E1.
  - intros H. injection H as <-. exists "https://". auto.
  - destruct (Py.startswith s "http://") eqn:E2; [|discriminate].
    intros H. injection H as <-. exists "http://". auto.
Qed.

Lemma ext_at_cases (t : string) (e : nat) :
  ext_at t = Some e ->
  exists ext, (ext = ".mp4" \/ ext = ".webm" \/ ext = ".mov" \/ ext = ".avi")
              /\ e = String.length ext /\ Py.startswith t ext = true.
Proof.
  unfold ext_at.
  destruct (Py.startswith t ".mp4") eqn:E1; [intros H; injection H as <-; exists ".mp4"; auto|].
  destruct (Py.startswith t ".webm") eqn:E2; [intros H; injection H as <-; exists ".webm"; auto|].
  destruct (Py.startswith t ".mov") eqn:E3; [intros H; injection H as <-; exists ".mov"; auto 6|].
  destruct (Py.startswith t ".avi") eqn:E4; [intros H; injection H as <-; exists ".avi"; auto 6|].
  discriminate.
Qed.

Lemma video_match_at_spec (s m : string) :
  video_match_at s = Some m ->
  exists p j e, scheme_len s = Some p /\ 1 <= j <= run_len (Py.drop p s)
                /\ ext_at (Py.drop j (Py.drop p s)) = Some e /\ m = Py.take (p + j + e) s.
Proof.
  unfold video_match_at. destruct (scheme_len s) as [p|] eqn:Hp; [|discriminate].
  cbv zeta. set (R := run_len (Py.drop p s)).
  assert (HR : R <= run_len (Py.drop p s)) by (subst R; lia). clearbody R.
  revert HR. induction R as [|R IH]; intros HR H; [discriminate|].
  cbv fix beta iota in H.
  destruct (ext_at (Py.drop (S R) (Py.drop p s))) as [e|] eqn:E.
  - injection H as <-. exists p, (S R), e. repeat split; auto; lia.
  - apply IH; [lia | exact H].
Qed.

Lemma drop_add (p : nat) : forall k s, Py.drop (p + k) s = Py.drop k (Py.drop p s).
Proof.
  induction p as [|p IH]; intros k s; [now rewrite drop_0|].
  destruct s as [|c s]; [now rewrite !drop_nil|]. cbn [Nat.add]. rewrite !drop_S. apply IH.
Qed.

Lemma first_match_at (f : string -> option string) (s m : string) :
  first_match f s = Some m -> exists pre t, s = pre ++ t /\ f t = Some m.
Proof.
  induction s as [|c s IH]; cbn [first_match]; destruct (f _) eqn:E; intros H.
  - injection H as <-. now exists "", "".
  - discriminate.
  - injection H as <-. now exists "", (String c s).
  - destruct (IH H) as (pre & t & -> & Ht). now exists (String c pre), t.
Qed.

Lemma video_match_shape (s m : string) :
  video_match_at s = Some m ->
  (exists post, s = m ++ post)
  /\ exists sch mid ext, m = sch ++ mid ++ ext
       /\ (sch = "https://" \/ sch = "http://")
       /\ mid <> "" /\ Forall (fun c => url_char c = true) (list_ascii_of_string mid)
       /\ (ext = ".mp4" \/ ext = ".webm" \/ ext = ".mov" \/ ext = ".avi").
Proof.
  intros H. destruct (video_match_at_spec s m H) as (p & j & e & Hp & Hj & He & ->).
  split; [eexists; apply take_drop|].
  destruct (scheme_len_cases s p Hp) as (sch & Hsch & -> & Hst).
  destruct (ext_at_cases _ e He) as (ext & Hext & -> & Hst2).
  exists sch, (Py.take j (Py.drop (String.length sch) s)), ext.
  split; [|split; [exact Hsch|split; [now apply take_nonempty|split; [apply take_run; lia|exact Hext]]]].
  rewrite (startswith_split sch s Hst) at 1.
  rewrite <- Nat.add_assoc, take_app, take_add, startswith_take by exact Hst2.
  reflexivity.
Qed.

Lemma url_match_shape (s m : string) :
  url_match_at s = Some m ->
  exists post sch mid, s = m ++ post /\ m = sch ++ mid
       /\ (sch = "https://" \/ sch = "http://")
       /\ mid <> "" /\ Forall (fun c => url_char c = true) (list_ascii_of_string mid)
       /\ match post with EmptyString => True | String c _ => url_char c = false end.
Proof.
  unfold url_match_at. destruct (scheme_len s) as [p|] eqn:Hp; [|discriminate].
  destruct (0 <? run_len (Py.drop p s)) eqn:Hk; [|discriminate].
  apply Nat.ltb_lt in Hk. intros H. injection H as <-.
  destruct (scheme_len_cases s p Hp) as (sch & Hsch & -> & Hst).
  set (k := run_len (Py.drop (String.length sch) s)) in *.
  exists (Py.drop (String.length sch + k) s), sch, (Py.take k (Py.drop (String.length sch) s)).
  split; [apply take_drop|]. split.
  - rewrite (startswith_split sch s Hst) at 1. rewrite take_app. reflexivity.
  - split; [exact Hsch|]. split; [apply take_nonempty; lia|]. split; [apply take_run; lia|].
    rewrite drop_add. apply drop_run.
Qed.

End UrlFacts.

(** X12. The URL the first regex of [_generate_video] extracts from the
    content is a piece of the content made of [http://] or [https://], a
    nonempty run of characters other than whitespace, the angle brackets, the double
    quote, the closing parenthesis, the closing bracket and the backslash, and one of the extensions [.mp4], [.webm], [.mov],
    [.avi]. *)
Theorem X12_video_regex_match_shape (content u : string) :
  first_match video_match_at content = Some u ->
  (exists pre post, content = pre ++ u ++ post)
  /\ exists sch mid ext, u = sch ++ mid ++ ext
       /\ (sch = "https://" \/ sch = "http://")
       /\ mid <> "" /\ Forall (fun c => url_char c = true) (list_ascii_of_string mid)
       /\ (ext = ".mp4" \/ ext = ".webm" \/ ext = ".mov" \/ ext = ".avi").
Proof.
  intros H. destruct (UrlFacts.first_match_at _ _ _ H) as (pre & t & -> & Ht).
  destruct (UrlFacts.video_match_shape t u Ht) as [[post ->] Hshape].
  split; [now exists pre, post | exact Hshape].
Qed.

Definition video_reply_text : string := "Done: https://cdn.x/v/a.mp4?sig=1 (ready)".

Lemma X12_video_regex_match_shape_witness :
  first_match video_match_at video_reply_text = Some "https://cdn.x/v/a.mp4"
  /\ exists pre post, video_reply_text = pre ++ "https://cdn.x/v/a.mp4" ++ post.
Proof.
  split; [vm_compute; reflexivity|].
  exact (proj1 (X12_video_regex_match_shape video_reply_text "https://cdn.x/v/a.mp4"
                  ltac:(vm_compute; reflexivity))).
Defined.

(** X13. The URL the second regex extracts is a piece of the content made
    of [http://] or [https://] and a nonempty run of the same characters,
    and the run is as long as possible: the content ends right after it or
    continues with a character outside the run. *)
Theorem X13_plain_regex_match_shape (content u : string) :
  first_match url_match_at content = Some u ->
  exists pre post sch mid, content = pre ++ u ++ post /\ u = sch ++ mid
       /\ (sch = "https://" \/ sch = "http://")
       /\ mid <> "" /\ Forall (fun c => url_char c = true) (list_ascii_of_string mid)
       /\ match post with EmptyString => True | String c _ => url_char c = false end.
Proof.
  intros H. destruct (UrlFacts.first_match_at _ _ _ H) as (pre & t & -> & Ht).
  destruct (UrlFacts.url_match_shape t u Ht) as (post & sch & mid & -> & Hrest).
  now exists pre, post, sch, mid.
Qed.

Definition link_reply_text : string := "See <https://cdn.x/watch?id=7> now".

Lemma X13_plain_regex_match_shape_witness :
  first_match url_match_at link_reply_text = Some "https://cdn.x/watch?id=7"
  /\ exists pre post sch mid, link_reply_text = pre ++ "https://cdn.x/watch?id=7" ++ post
       /\ "https://cdn.x/watch?id=7" = sch ++ mid
       /\ (sch = "https://" \/ sch = "http://")
       /\ mid <> "" /\ Forall (fun c => url_char c = true) (list_ascii_of_string mid)
       /\ match post with EmptyString => True | String c _ => url_char c = false end.
Proof.
  split; [vm_compute; reflexivity|].
  exact (X13_plain_regex_match_shape link_reply_text "https://cdn.x/watch?id=7"
           ltac:(vm_compute; reflexivity)).
Defined.

(* ------------------------------------------------------------------ *)
(** ** How many image requests [generate_images] sends *)

Module PostCount.

(** [m] adds at most [c] requests to the image or chat API to the trace. *)
Definition PostsLe {A} (c : nat) (m : M A) : Prop :=
  forall w, List.length (posts (trace (snd (m w)))) <= List.length (posts (trace w)) + c.

Lemma ret_p {A} (a : A) : PostsLe 0 (ret a).
Proof. intros w. cbn. lia. Qed.

Lemma raise_p {A} (e : exn) : PostsLe (A := A) 0 (raise e).
Proof. intros w. cbn. lia. Qed.

Lemma mono_p {A} (c c' : nat) (m : M A) : PostsLe c m -> c <= c' -> PostsLe c' m.
Proof. intros H Hc w. specialize (H w). lia. Qed.

Lemma bind_p {A B} (c1 c2 : nat) (m : M A) (k : A -> M B) :
  PostsLe c1 m -> (forall a, PostsLe c2 (k a)) -> PostsLe (c1 + c2) (bind m k).
Proof.
  intros Hm Hk w. unfold bind. specialize (Hm w).
  destruct (m w) as [[a|e] w1]; cbn [snd] in Hm |- *.
  - specialize (Hk a w1). lia.
  - lia.
Qed.

Lemma catch_p {A} (c1 c2 : nat) (m : M A) (h : exn -> M A) :
  PostsLe c1 m -> (forall e, PostsLe c2 (h e)) -> PostsLe (c1 + c2) (catch m h).
Proof.
  intros Hm Hh w. unfold catch. specialize (Hm w).
  destruct (m w) as [[a|e] w1]; cbn [snd] in Hm |- *.
  - lia.
  - specialize (Hh e w1). lia.
Qed.

Lemma emit_batch_p (k : nat) : PostsLe 0 (emit (EBatch k)).
Proof.
  intros w. cbn [emit snd trace]. unfold posts. rewrite filter_app. cbn. rewrite length_app. cbn. lia.
Qed.

Lemma generate_batch_p (cwd : string) (loads : string -> option json)
  (s : settings) (prompt : string) (n : Z) :
  PostsLe 2 (generate_batch cwd loads s prompt n).
Proof.
  intros w. rewrite generate_batch_posts, length_app. cbn [List.length].
  destruct (fst _) as [a|e]; [cbn; lia|]. destruct (fallback_applies e); cbn; lia.
Qed.

Lemma batch_step_p (batch : nat -> M (list string)) (c : nat) (k : nat) (acc : list string)
  (cont : list string -> M (list string)) :
  PostsLe 2 (batch k) -> (forall l, PostsLe c (cont l)) ->
  PostsLe (2 + c) (batch_step batch k acc cont).
Proof.
  intros Hb Hc. unfold batch_step.
  apply (bind_p 2 c).
  - apply (mono_p (0 + (2 + 0) + 0)); [|lia].
    apply catch_p; [|intros; apply ret_p].
    apply bind_p; [apply emit_batch_p|]. intros _. apply bind_p; [exact Hb | intros; apply ret_p].
  - intros [l|e]; [apply Hc|]. destruct acc.
    + eapply mono_p; [apply raise_p | lia].
    + eapply mono_p; [apply ret_p | lia].
Qed.

Lemma images_loop_p (batch : nat -> M (list string)) (Hb : forall k, PostsLe 2 (batch k))
  (m : nat) : forall acc, PostsLe (2 * ((m + 1) / 2)) (images_loop batch m acc).
Proof.
  induction m as [m IH] using lt_wf_ind. intros acc.
  destruct m as [|[|r]]; cbn [images_loop].
  - apply ret_p.
  - eapply mono_p; [apply (batch_step_p batch 0); [apply Hb | intros; apply ret_p] |].
    cbn. lia.
  - eapply mono_p; [apply (batch_step_p batch (2 * ((r + 1) / 2))); [apply Hb | intros; apply IH; lia] |].
    replace (S (S r) + 1) with ((r + 1) + 1 * 2) by lia.
    rewrite Nat.div_add by lia. lia.
Qed.

End PostCount.

(** X15. Without a video config, [generate_images] for [n] images sends at
    most two requests to the API per batch of two, that is at most
    [2 * ceil(n / 2)] requests (the [b64_json] request and at most one
    [url] fallback per batch), whatever the replies are. *)
Theorem X15_image_requests_bounded (cwd : string) (loads : string -> option json)
  (s : settings) (prompt : string) (n : Z) (video_config : json)
  (source_image : option string) (w : world) :
  truthy video_config = false ->
  List.length (posts (trace (snd (generate_images cwd loads s prompt n video_config source_image w))))
  <= List.length (posts (trace w)) + 2 * ((Z.to_nat n + 1) / 2).
Proof.
  intros Hv. unfold generate_images. rewrite Hv.
  apply PostCount.images_loop_p. intros k. apply PostCount.generate_batch_p.
Qed.

Lemma X15_image_requests_bounded_witness :
  List.length (posts (trace (snd (generate_images "/home/u" (fun _ => None) img_settings "a cat" 3
                                    JNull None (sample_world [])))))
  <= List.length (posts (trace (sample_world []))) + 2 * ((Z.to_nat 3 + 1) / 2).
Proof. apply X15_image_requests_bounded. reflexivity. Defined.

(* ------------------------------------------------------------------ *)
(** ** The one request of [_generate_video] *)

Lemma handle_video_response_no_post (cwd : string) (loads : string -> option json) (r : resp) :
  Extends not_post (handle_video_response cwd loads r).
Proof.
  unfold handle_video_response, check_status, resp_json, raise_if_error, pick_video_url.
  ext_solve; try (apply save_video_from_url_ext; intros; reflexivity).
Qed.

Lemma http_post_trace (url : string) (p : json) (w : world) :
  trace (snd (http_post url p w)) = (trace w ++ [EPost url p])%list.
Proof.
  unfold http_post, bind, emit. destruct (scheme_ok url); [|reflexivity].
  unfold next_reply. cbn [net trace]. destruct (net w) as [|[r|] rest]; reflexivity.
Qed.

Lemma video_request_trace (s : settings) (prompt : string) (video_config : json)
  (source_image : option string) (w : world) :
  (exists content, trace (snd (video_request s prompt video_config source_image w))
                   = (trace w ++ [EPost (chat_endpoint s) (video_payload (model s) content video_config)])%list
                   /\ (source_image = None -> content = JStr prompt))
  \/ video_request s prompt video_config source_image w = (Raise OSError, w).
Proof.
  unfold video_request. destruct source_image as [img|].
  - destruct (String.eqb img "").
    + left. eexists. split; [apply http_post_trace | discriminate].
    + cbv [bind ret get_image_as_data_url read_file].
      match goal with |- context [find ?f (files w)] => destruct (find f (files w)) as [[q d]|] end.
      * left. eexists. split; [apply http_post_trace | discriminate].
      * right. reflexivity.
  - left. eexists. split; [apply http_post_trace | reflexivity].
Qed.

(** X16. [_generate_video] sends exactly one request to the chat endpoint
    (with the prompt alone as content when there is no source image) and
    never sends it again, however long the download is polled; the only
    way it sends none is a source image that cannot be read, which raises
    before anything happens. *)
Theorem X16_video_single_request (cwd : string) (loads : string -> option json)
  (s : settings) (prompt : string) (video_config : json) (source_image : option string)
  (w : world) :
  (exists content,
     posts (trace (snd (generate_video cwd loads s prompt video_config source_image w)))
     = (posts (trace w) ++ [EPost (chat_endpoint s) (video_payload (model s) content video_config)])%list
     /\ (source_image = None -> content = JStr prompt))
  \/ generate_video cwd loads s prompt video_config source_image w = (Raise OSError, w).
Proof.
  destruct (video_request_trace s prompt video_config source_image w) as [[content [Ht Hc]] | E].
  - left. exists content. split; [|exact Hc].
    unfold generate_video, bind.
    destruct (video_request s prompt video_config source_image w) as [[r|e] w1]; cbn [snd] in Ht |- *.
    + destruct (handle_video_response_no_post cwd loads r w1) as [t [Et Ft]].
      rewrite Et, Ht. unfold posts. rewrite !filter_app. fold (posts t).
      rewrite (posts_none t Ft), app_nil_r. reflexivity.
    + rewrite Ht. unfold posts. rewrite filter_app. reflexivity.
  - right. unfold generate_video, bind. rewrite E. reflexivity.
Qed.

(* ------------------------------------------------------------------ *)
(** ** What the video path returns *)

(** [<timestamp>_<short_id>.<ext>] with [ext] one of the two video
    extensions. *)
Definition video_name (f : string) : Prop :=
  exists ts sid ext, f = ts ++ "_" ++ sid ++ "." ++ ext /\ (ext = "mp4" \/ ext = "webm").

Lemma video_ext_cases (ct u : string) : video_ext ct u = "mp4" \/ video_ext ct u = "webm".
Proof.
  unfold video_ext. destruct (_ || _)%bool; [now left|]. destruct (_ || _)%bool; [now right | now left].
Qed.

Definition attempt_named (r : string + string) : Prop :=
  match r with inl f => video_name f | inr _ => True end.

Ltac tstep := apply bind_returns with (R := fun _ => True); [apply true_returns|].

Lemma video_attempt_named (cwd u ts sid : string) (attempt : nat) :
  Returns attempt_named (video_attempt cwd u ts sid attempt).
Proof.
  unfold video_attempt. apply catch_returns.
  - tstep. intros _ _. tstep. intros r _.
    destruct (status r =? 404)%Z; [now apply ret_returns|].
    tstep. intros _ _.
    destruct (List.length (content r) <? 1000); [now apply ret_returns|].
    cbv zeta. tstep. intros _ _. apply ret_returns.
    exists ts, sid, (video_ext (content_type r) u). split; [reflexivity | apply video_ext_cases].
  - intros e. destruct e; try apply raise_returns.
    destruct code as [|p|p]; try apply raise_returns.
    repeat (destruct p as [p|p|]; try apply raise_returns); now apply ret_returns.
Qed.

Lemma video_loop_named (cwd u ts sid : string) (left : nat) : forall attempt le,
  Returns video_name (video_loop cwd u ts sid attempt left le).
Proof.
  induction left as [|left IH]; intros attempt le; cbn [video_loop].
  - apply raise_returns.
  - apply bind_returns with (R := attempt_named); [apply video_attempt_named|].
    intros [f|m] H; [now apply ret_returns | apply IH].
Qed.

Lemma handle_video_response_named (cwd : string) (loads : string -> option json) (r : resp) :
  Returns (fun l => exists f, l = [f] /\ video_name f) (handle_video_response cwd loads r).
Proof.
  unfold handle_video_response. tstep. intros _ _. cbv zeta.
  destruct (String.eqb _ _); [apply raise_returns|]. tstep. intros parsed _.
  destruct (negb _); [apply raise_returns|]. tstep. intros [v|] _.
  - destruct (truthy v); [|tstep; intros; apply raise_returns].
    apply bind_returns with (R := video_name).
    + unfold save_video_from_url. tstep. intros p _.
      destruct v; try (tstep; intros; apply raise_returns). apply video_loop_named.
    + intros f Hf. apply ret_returns. now exists f.
  - tstep. intros; apply raise_returns.
Qed.

(** A world in which the video run succeeds: the chat reply names a video
    URL, and its download is a 5000-byte [video/mp4] body. *)
Definition video_world : world :=
  sample_world [Reply (mkResp 200 video_body_url_and_text None);
                Reply (mkResp 200 (Py.repeat_char "x" 5000) (Some "video/mp4"))].

(** X17. When [generate_images] takes the video path (a truthy video
    config) and succeeds, it returns exactly one name,
    [<timestamp>_<short_id>.mp4] or [<timestamp>_<short_id>.webm],
    whatever [n] was. *)
Theorem X17_video_returns_one_name (cwd : string) (loads : string -> option json)
  (s : settings) (prompt : string) (n : Z) (video_config : json)
  (source_image : option string) (w : world) :
  truthy video_config = true ->
  match fst (generate_images cwd loads s prompt n video_config source_image w) with
  | Ok l => exists f, l = [f] /\ video_name f
  | Raise _ => True
  end.
Proof.
  intros Hv. unfold generate_images. rewrite Hv. unfold generate_video.
  revert w. fold (Returns (fun l => exists f, l = [f] /\ video_name f)
                          (response <- video_request s prompt video_config source_image ;;
                           handle_video_response cwd loads response)).
  tstep. intros r _. apply handle_video_response_named.
Qed.

Lemma X17_video_returns_one_name_witness :
  fst (generate_images "/home/u" Json.loads img_settings "a wave" 4
         (JObj [("duration", JNum 5)]) None video_world)
  = Ok ["20261016_090503_deadbeef.mp4"]
  /\ match fst (generate_images "/home/u" Json.loads img_settings "a wave" 4
                 (JObj [("duration", JNum 5)]) None video_world) with
     | Ok l => exists f, l = [f] /\ video_name f | Raise _ => True end.
Proof.
  split.
  - vm_compute. reflexivity.
  - apply X17_video_returns_one_name. reflexivity.
Defined.

(* ------------------------------------------------------------------ *)
(** ** Reading the event stream line by line *)

(** X18. The [data: [DONE]] line does not end the stream: it is skipped
    like a blank line and the lines after it are still read, so content
    sent after it is still assembled. *)
Theorem X18_sse_done_does_not_stop (loads : string -> option json) (acc : string)
  (pre post : list string) :
  sse_lines loads acc (pre ++ "data: [DONE]" :: post) = sse_lines loads acc (pre ++ post).
Proof.
  rewrite !sse_lines_app. destruct (sse_lines loads acc pre); [|reflexivity].
  cbn [obind sse_lines]. reflexivity.
Qed.

Definition CR : ascii := ascii_of_nat 13.

Lemma rstrip_snoc (f : ascii -> bool) (c : ascii) (s : string) :
  f c = true -> Py.rstrip_by f (s ++ String c "") = Py.rstrip_by f s.
Proof.
  intros Hc. induction s as [|d s IH].
  - cbn. rewrite Hc. reflexivity.
  - cbn [append Py.rstrip_by]. now rewrite IH.
Qed.

Lemma lstrip_snoc (c : ascii) (s : string) :
  Py.lstrip (s ++ String c "")
  = if String.eqb (Py.lstrip s) "" then Py.lstrip (String c "") else (Py.lstrip s ++ String c "").
Proof.
  induction s as [|d s IH]; [reflexivity|].
  cbn [append Py.lstrip]. destruct (Py.is_space d); [exact IH | reflexivity].
Qed.

Lemma strip_cr (l : string) : Py.strip (l ++ String CR "") = Py.strip l.
Proof.
  unfold Py.strip. rewrite lstrip_snoc.
  destruct (String.eqb (Py.lstrip l) "") eqn:E.
  - apply String.eqb_eq in E. rewrite E. reflexivity.
  - apply rstrip_snoc. reflexivity.
Qed.

Lemma sse_line_cr (loads : string -> option json) (acc l : string) :
  sse_line loads acc (l ++ String CR "") = sse_line loads acc l.
Proof. unfold sse_line. now rewrite strip_cr. Qed.

(** X19. Each line of the stream is stripped before it is looked at, so a
    stream whose lines end in CRLF is read exactly as the same stream with
    LF endings. *)
Theorem X19_sse_crlf_lines (loads : string -> option json) (lines : list string) (acc : string) :
  sse_lines loads acc (map (fun l => l ++ String CR "") lines) = sse_lines loads acc lines.
Proof.
  revert acc. induction lines as [|l r IH]; intros acc; [reflexivity|].
  cbn [map sse_lines]. rewrite sse_line_cr.
  destruct (sse_line loads acc l); cbn [obind]; [apply IH | reflexivity].
Qed.

(* ------------------------------------------------------------------ *)
(** ** What [_save_b64_images] writes *)

Lemma repad_encode (l : list Byte.byte) : repad (B64.encode l) = B64.encode l.
Proof.
  induction l using B64Facts.list3_ind; [reflexivity| | |];
    cbn [B64.encode]; rewrite B64Facts.repad_cons4; [reflexivity|reflexivity|].
  now rewrite IHl.
Qed.

(** The [b64_json] text of an item: the encoding of [d], with or without
    its [=] padding. *)
Definition b64_item (it : json) (d : list Byte.byte) : Prop :=
  exists s, getitem it "b64_json" = Ok (JStr s)
            /\ (s = B64.encode d \/ s = Py.rstrip_char "=" (B64.encode d)).

Definition b64_writes (ts sid : string) (idx : nat) (ds : list (list Byte.byte)) : list event :=
  map (fun '(i, d) => EWrite (Path.join "output" (image_filename ts sid i "png")) d)
      (combine (seq idx (List.length ds)) ds).

Lemma save_b64_loop_writes (cwd ts sid : string) (items : list json) (ds : list (list Byte.byte)) :
  PathFacts.no_slash ts = true -> PathFacts.no_slash sid = true ->
  Forall2 b64_item items ds -> forall idx w,
  save_b64_loop cwd ts sid idx items w
  = (Ok (map (fun i => image_filename ts sid i "png") (seq idx (List.length ds))),
     with_net_trace w (net w) (trace w ++ b64_writes ts sid idx ds)%list).
Proof.
  intros Hts Hsid H. induction H as [|it d items ds Hit Hr IH]; intros idx w.
  - cbn. unfold with_net_trace. rewrite app_nil_r. destruct w; reflexivity.
  - destruct Hit as (s & Hg & Hs).
    assert (Hd : B64.decode (repad s) = Ok d).
    { destruct Hs as [-> | ->]; [rewrite repad_encode | rewrite B64Facts.repad_strip];
        apply decode_encode. }
    assert (G : path_guard cwd (Path.join "output" (image_filename ts sid idx "png")) = true).
    { apply PathFacts.guard_plain, PathFacts.image_filename_plain; auto. }
    cbn [save_b64_loop]. cbv [bind lift guarded_write write_file emit ret].
    rewrite Hg. cbv beta iota. rewrite Hd. cbv beta iota. rewrite G.
    rewrite IH. unfold with_net_trace, b64_writes. cbn [net trace clock uuid4 files calls].
    cbn [List.length seq map combine]. now rewrite <- app_assoc.
Qed.

(** X20. When every item's [b64_json] is the base64 encoding of some bytes
    (padded, or with its [=] padding removed), [_save_b64_images] succeeds:
    it writes each item's decoded bytes, in item order, to
    [output/<timestamp>_<short_id>_<i>.png] for [i] from 1, returns those
    names, and does nothing else. *)
Theorem X20_b64_save_writes_decoded (cwd : string) (items : list json)
  (ds : list (list Byte.byte)) (w : world) :
  Forall2 b64_item items ds ->
  exists ts sid w',
    save_b64_images cwd items w
    = (Ok (map (fun i => image_filename ts sid i "png") (seq 1 (List.length ds))), w')
    /\ trace w' = (trace w ++ b64_writes ts sid 1 ds)%list
    /\ net w' = net w.
Proof.
  intros H. destruct (stamp_shape w) as [[ts sid] [w1 [Es [Nn [Tt [H1 H2]]]]]].
  exists ts, sid, (with_net_trace w1 (net w1) (trace w1 ++ b64_writes ts sid 1 ds)%list).
  unfold save_b64_images, bind at 1. rewrite Es. cbn [fst snd].
  rewrite (save_b64_loop_writes cwd ts sid items ds H1 H2 H 1 w1).
  split; [reflexivity|]. unfold with_net_trace. cbn [trace net]. rewrite Tt, Nn. auto.
Qed.

Definition pixel_bytes : list Byte.byte := [Byte.x89; Byte.x50; Byte.x4e; Byte.x47].

Lemma X20_b64_save_writes_decoded_witness :
  exists ts sid w',
    save_b64_images "/home/u" [JObj [("b64_json", JStr "iVBORw==")]; JObj [("b64_json", JStr "iVBORw")]]
      (sample_world [])
    = (Ok (map (fun i => image_filename ts sid i "png") (seq 1 2)), w')
    /\ trace w' = (trace (sample_world []) ++ b64_writes ts sid 1 [pixel_bytes; pixel_bytes])%list
    /\ net w' = net (sample_world []).
Proof.
  apply (X20_b64_save_writes_decoded "/home/u" _ [pixel_bytes; pixel_bytes]).
  constructor; [|constructor; [|constructor]].
  - exists "iVBORw==". split; [reflexivity | left; vm_compute; reflexivity].
  - exists "iVBORw". split; [reflexivity | right; vm_compute; reflexivity].
Defined.

(* ------------------------------------------------------------------ *)
(** ** What [_save_url_images] downloads and writes *)

(** Item [it] names the download URL [u] (one httpx accepts), answered by
    the 2xx reply [r]. *)
Definition url_item (it : json) (ur : string * resp) : Prop :=
  getitem it "url" = Ok (JStr (fst ur)) /\ scheme_ok (fst ur) = true /\ is_2xx (snd ur) = true.

Definition url_name (ts sid : string) (ir : nat * (string * resp)) : string :=
  image_filename ts sid (fst ir) (image_ext (content_type (snd (snd ir))) (fst (snd ir))).

Definition url_events (ts sid : string) (idx : nat) (urs : list (string * resp)) : list event :=
  flat_map (fun ir => [EGet (fst (snd ir));
                       EWrite (Path.join "output" (url_name ts sid ir)) (content (snd (snd ir)))])
           (combine (seq idx (List.length urs)) urs).

Lemma save_url_loop_writes (cwd ts sid : string) (items : list json) (urs : list (string * resp)) :
  PathFacts.no_slash ts = true -> PathFacts.no_slash sid = true ->
  Forall2 url_item items urs -> forall idx rest w,
  net w = (map (fun ur => Reply (snd ur)) urs ++ rest)%list ->
  save_url_loop cwd ts sid idx items w
  = (Ok (map (url_name ts sid) (combine (seq idx (List.length urs)) urs)),
     with_net_trace w rest (trace w ++ url_events ts sid idx urs)%list).
Proof.
  intros Hts Hsid H. induction H as [|it [u r] items urs Hit Hr IH]; intros idx rest w Hn.
  - cbn in Hn |- *. unfold with_net_trace. rewrite app_nil_r, <- Hn. destruct w; reflexivity.
  - destruct Hit as (Hg & Hs & H2). cbn [fst snd] in Hg, Hs, H2.
    set (f := image_filename ts sid idx (image_ext (content_type r) u)).
    assert (G : path_guard cwd (Path.join "output" f) = true).
    { apply PathFacts.guard_plain, PathFacts.image_filename_plain; auto using PathFacts.image_ext_no_slash. }
    destruct w as [n t c uu fl k]. cbn in Hn. subst n.
    cbn [save_url_loop].
    cbv [bind lift http_get emit next_reply raise_for_status ret raise guarded_write write_file].
    cbn [net trace clock uuid4 files calls].
    rewrite Hg. cbv beta iota; cbn [net trace clock uuid4 files calls]. rewrite Hs.
    cbv beta iota; cbn [net trace clock uuid4 files calls].
    unfold is_2xx in H2. rewrite H2. cbv beta iota; cbn [net trace clock uuid4 files calls].
    fold f. rewrite G. cbv beta iota; cbn [net trace clock uuid4 files calls].
    rewrite (IH (S idx) rest) by reflexivity.
    unfold with_net_trace, url_events. cbn [net trace clock uuid4 files calls].
    cbn [List.length seq combine map flat_map]. unfold url_name at 1. cbn [fst snd]. fold f.
    now rewrite <- !app_assoc.
Qed.

(** X21. When every item names a URL httpx accepts and each download
    answers 2xx, [_save_url_images] succeeds: item by item, in order, it
    GETs the URL and writes the reply's body to
    [output/<timestamp>_<short_id>_<i>.<ext>], returns those names, and
    uses exactly one network reply per item. *)
Theorem X21_url_save_writes_downloads (cwd : string) (items : list json)
  (urs : list (string * resp)) (rest : list reply) (w : world) :
  Forall2 url_item items urs ->
  net w = (map (fun ur => Reply (snd ur)) urs ++ rest)%list ->
  exists ts sid w',
    save_url_images cwd items w
    = (Ok (map (url_name ts sid) (combine (seq 1 (List.length urs)) urs)), w')
    /\ trace w' = (trace w ++ url_events ts sid 1 urs)%list
    /\ net w' = rest.
Proof.
  intros H Hn. destruct (stamp_shape w) as [[ts sid] [w1 [Es [Nn [Tt [H1 H2]]]]]].
  exists ts, sid, (with_net_trace w1 rest (trace w1 ++ url_events ts sid 1 urs)%list).
  unfold save_url_images, bind at 1. rewrite Es. cbn [fst snd].
  rewrite (save_url_loop_writes cwd ts sid items urs H1 H2 H 1 rest w1) by now rewrite Nn.
  split; [reflexivity|]. unfold with_net_trace. cbn [trace net]. rewrite Tt. auto.
Qed.

Definition png_download : string * resp :=
  ("https://img.example.com/a.png", mkResp 200 "PNG-A" (Some "image/png")).

Lemma X21_url_save_writes_downloads_witness :
  exists ts sid w',
    save_url_images "/home/u" [JObj [("url", JStr "https://img.example.com/a.png")]]
      (sample_world [Reply (snd png_download)])
    = (Ok (map (url_name ts sid) (combine (seq 1 (List.length [png_download])) [png_download])), w')
    /\ trace w' = (trace (sample_world [Reply (snd png_download)])
                   ++ url_events ts sid 1 [png_download])%list
    /\ net w' = [].
Proof.
  apply (X21_url_save_writes_downloads "/home/u" _ [png_download] []); [|reflexivity].
  repeat constructor.
Defined.
